(** * Tanoshi: the Lua source runtime ([internal/source/source.go])

    A shallow embedding of the connector host: the Lua value bridge, the
    register stack of the interpreter, the request builder with its header
    merge, the login flow that rewrites the session headers, and the
    describe / execute / parse operations built from them. *)

From Stdlib Require Import ZArith NArith Ascii String List Bool Lia.
From Stdlib Require Import DecimalString HexadecimalString.
From stdpp Require Import base option list strings gmap fin_maps.

Import ListNotations.
Local Open Scope string_scope.
Set Warnings "-register-all".

(** ** Byte strings and MIME header keys

    Go strings are byte sequences; [string] is used as such.  The session
    header store is a [net/http.Header], whose methods canonicalise the key
    with [textproto.CanonicalMIMEHeaderKey]. *)

Module textproto.

Definition byte_in (lo hi : nat) (c : ascii) : bool :=
  (lo <=? nat_of_ascii c)%nat && (nat_of_ascii c <=? hi)%nat.

Definition isLower (c : ascii) : bool := byte_in 97 122 c.
Definition isUpper (c : ascii) : bool := byte_in 65 90 c.
Definition isDigit (c : ascii) : bool := byte_in 48 57 c.

(** The token bytes of RFC 7230 ([isTokenTable]). *)
Definition validHeaderFieldByte (c : ascii) : bool :=
  isLower c || isUpper c || isDigit c ||
  existsb (Nat.eqb (nat_of_ascii c))
    [33; 35; 36; 37; 38; 39; 42; 43; 45; 46; 94; 95; 96; 124; 126]%nat.

Definition toLower : nat := 32.

Definition isDash (c : ascii) : bool := Nat.eqb (nat_of_ascii c) 45.

Fixpoint string_forallb (p : ascii -> bool) (s : string) : bool :=
  match s with
  | EmptyString => true
  | String c r => p c && string_forallb p r
  end.

(** The rewriting loop: upper case at the start and after each dash,
    lower case elsewhere. *)
Fixpoint canonLoop (upper : bool) (a : string) : string :=
  match a with
  | EmptyString => EmptyString
  | String c r =>
      let c' :=
        if upper && isLower c then ascii_of_nat (nat_of_ascii c - toLower)
        else if negb upper && isUpper c then ascii_of_nat (nat_of_ascii c + toLower)
        else c in
      String c' (canonLoop (isDash c') r)
  end.

(** [canonicalMIMEHeaderKey]: a key holding a byte that is not a token
    byte is returned unchanged. *)
Definition canonicalMIMEHeaderKey (a : string) : string :=
  if string_forallb validHeaderFieldByte a then canonLoop true a else a.

(** The quick scan of [CanonicalMIMEHeaderKey]: [s] is the whole key,
    [rest] what is left to scan. *)
Fixpoint quickCheck (upper : bool) (s rest : string) : string :=
  match rest with
  | EmptyString => s
  | String c r =>
      if negb (validHeaderFieldByte c) then s
      else if upper && isLower c then canonicalMIMEHeaderKey s
      else if negb upper && isUpper c then canonicalMIMEHeaderKey s
      else quickCheck (isDash c) s r
  end.

Definition CanonicalMIMEHeaderKey (s : string) : string := quickCheck true s s.

End textproto.

(** ** [net/http.Header]: a map from canonical key to a list of values *)

Module Header.

Abbreviation t := (gmap string (list string)).

Definition canon := textproto.CanonicalMIMEHeaderKey.

Definition make : t := ∅.

(** [h[key]] with Go's zero value (a nil slice) for a missing key. *)
Definition index (h : t) (key : string) : list string :=
  default [] (h !! key).

Definition Add (key value : string) (h : t) : t :=
  <[canon key := (index h (canon key) ++ [value])%list]> h.

Definition Set_ (key value : string) (h : t) : t :=
  <[canon key := [value]]> h.

Definition Del (key : string) (h : t) : t := delete (canon key) h.

Definition Get (key : string) (h : t) : string :=
  match index h (canon key) with
  | [] => ""
  | v :: _ => v
  end.

Definition Values (key : string) (h : t) : list string :=
  index h (canon key).

(** [Clone] copies the map and every value slice; on immutable maps the
    copy is the map itself. *)
Definition Clone (h : t) : t := h.

End Header.

(** ** Domain records

    The struct declarations of [Manga], [Chapter] and [Page] live in a file
    of the package that is not part of this development; the fields below
    are the ones the source and the repository code read or write. *)

Module Manga.
(** Modelled from the spec: the [Manga] struct declaration; identity key
    is (source name, path), plus the numeric [ID] the repository assigns. *)
Record t : Type := mk { ID : N; Source : string; Path : string; Title : string }.

Definition setSource (src : string) (m : t) : t :=
  {| ID := ID m; Source := src; Path := Path m; Title := Title m |}.
Definition setID (id : N) (m : t) : t :=
  {| ID := id; Source := Source m; Path := Path m; Title := Title m |}.
End Manga.

Module Chapter.
(** Modelled from the spec: the [Chapter] struct declaration; a chapter
    belongs to one manga, is ordered by a rank and tagged with a
    language. *)
Record t : Type :=
  mk { ID : N; Source : string; MangaID : N; Path : string;
       Rank : Z; Language : string }.

Definition setSource (src : string) (c : t) : t :=
  {| ID := ID c; Source := src; MangaID := MangaID c; Path := Path c;
     Rank := Rank c; Language := Language c |}.
Definition setID (id : N) (c : t) : t :=
  {| ID := id; Source := Source c; MangaID := MangaID c; Path := Path c;
     Rank := Rank c; Language := Language c |}.
End Chapter.

Module Page.
(** Modelled from the spec: the [Page] struct declaration; a page belongs
    to one chapter. *)
Record t : Type := mk { ChapterID : N; Rank : Z; URL : string }.
End Page.

(** ** Lua values ([gopher-lua]'s [LValue])

    What a userdata carries in its [Value] field.  A record behind a
    pointer is modelled by its contents: no property below depends on two
    handles sharing one record. *)
Inductive GoValue : Type :=
| PtrManga (m : Manga.t)                        (* *Manga *)
| PtrChapter (c : Chapter.t)                    (* *Chapter *)
| PtrPage (p : Page.t)                          (* *Page *)
| ValManga (m : Manga.t)                        (* Manga, from luar.New(L, *m) *)
| ValChapter (c : Chapter.t)                    (* Chapter, from luar.New(L, *c) *)
| ValStringMap (m : gmap string string)         (* map[string]string *)
| ValHeaderMap (m : gmap string (list string))  (* map[string][]string *)
| ValType (name : string)                       (* luar.NewType *)
| ValOther (tag : N).                           (* any other Go value *)

(** [Number] stands for [float64].  Reference values carry their address,
    which [String] prints.  A table has an array part and two hash parts;
    the hash parts are listed in the order Go's [range] visits them, which
    the language leaves unspecified. *)
Inductive LValue (Number : Type) : Type :=
| LNil
| LBool (b : bool)
| LNumber (n : Number)
| LString (s : string)
| LFunction (addr : N)
| LUserData (addr : N) (Value : GoValue)
| LTable (addr : N)
         (array : list (LValue Number))
         (strdict : list (string * LValue Number))
         (dict : list (LValue Number * LValue Number)).

Arguments LNil {Number}.
Arguments LBool {Number} b.
Arguments LNumber {Number} n.
Arguments LString {Number} s.
Arguments LFunction {Number} addr.
Arguments LUserData {Number} addr Value.
Arguments LTable {Number} addr array strdict dict.

(** ** Errors, panics and results of host functions *)

Inductive error : Type :=
| ApiError (msg : string)      (* *lua.ApiError, from a protected call *)
| errorString (msg : string)   (* errors.New *)
| httpError (msg : string)     (* net/http and net/url *)
| invalidMethod (method : string)
    (* fmt.Errorf("net/http: invalid method %q", method) *)
| badStringError (what val : string)
    (* net/http's badStringError: what, then the quoted value *)
| urlError (Op URL : string) (err : error).
    (* *url.Error, as the Do method of a client returns *)

Inductive panic : Type :=
| TypeAssertion (wanted : string)   (* x.(T) without the ok form *)
| LuaRaise (e : error)              (* RaiseError outside a protected call *)
| NilMapWrite                       (* assignment to entry in nil map *)
| NilDereference.                   (* method call through a nil pointer *)

(** A Go function with an error result either returns its value, returns
    an error, or panics. *)
Inductive outcome (A : Type) : Type :=
| Ok (a : A)
| Err (e : error)
| Panic (p : panic).

Arguments Ok {A} a.
Arguments Err {A} e.
Arguments Panic {A} p.

(** What running a Lua function yields. *)
Inductive CallResult (Number : Type) : Type :=
| Raised (e : error)
| Returned (rets : list (LValue Number)).

Arguments Raised {Number} e.
Arguments Returned {Number} rets.

(** ** The scheme of a URL *)

Module neturl.

(** The order of bytes, [c <= d], read off their bits from the highest. *)
Definition bitsOf (c : ascii) : list bool :=
  let '(Ascii b0 b1 b2 b3 b4 b5 b6 b7) := c in [b7; b6; b5; b4; b3; b2; b1; b0].

Fixpoint leBits (x y : list bool) : bool :=
  match x, y with
  | a :: x', b :: y' => if Bool.eqb a b then leBits x' y' else b
  | _, _ => true
  end.

Definition byteLe (c d : ascii) : bool := leBits (bitsOf c) (bitsOf d).

Definition isLetter (c : ascii) : bool :=
  byteLe "a" c && byteLe c "z" || byteLe "A" c && byteLe c "Z".

Definition isSchemePunct (c : ascii) : bool :=
  byteLe "0" c && byteLe c "9" || Ascii.eqb c "+" || Ascii.eqb c "-" || Ascii.eqb c ".".

(** The loop of [getScheme]: [i] is the index of the first byte of [rest]
    in [rawURL]. *)
Fixpoint schemeLoop (rawURL : string) (i : nat) (rest : string)
  : error + (string * string) :=
  match rest with
  | EmptyString => inr (EmptyString, rawURL)
  | String c rest' =>
      if isLetter c then schemeLoop rawURL (S i) rest'
      else if isSchemePunct c then
        if Nat.eqb i 0 then inr (EmptyString, rawURL)
        else schemeLoop rawURL (S i) rest'
      else if Ascii.eqb c ":" then
        if Nat.eqb i 0 then inl (errorString "missing protocol scheme")
        else inr (substring 0 i rawURL, rest')
      else inr (EmptyString, rawURL)
  end.

(** [getScheme]: the scheme and what follows its colon, or no scheme and
    the whole text. *)
Definition getScheme (rawURL : string) : error + (string * string) :=
  schemeLoop rawURL 0 rawURL.

End neturl.

(** ** HTTP requests and responses *)

Inductive Body : Type :=
| EmptyBody                                               (* nothing written to the buffer *)
| MultipartBody (boundary : string) (fields : list (string * string)).

(** [ReqURL] is the URL of the request as its [String] method writes it. *)
Record Request : Type :=
  mkRequest { Method : string; ReqURL : string; ReqHeader : Header.t; ReqBody : Body }.

Record SourceResponse : Type :=
  mkResponse { RespHeader : Header.t; RespBody : string }.

(** ** The environment of a source

    Everything the host code calls and this development does not define:
    the Lua interpreter, number formatting, the network. *)
Class Runtime : Type := {
  Number : Type;
  (** [LNumber(i)] for an integer [i] *)
  Number_of_int : Z -> Number;
  (** [LNumber.String] *)
  Number_String : Number -> string;
  (** [fmt.Sprintf("%p", _)] *)
  fmtPointer : N -> string;
  (** The interpreter behind an [*lua.LState]: globals, heap, loaded modules *)
  Interp : Type;
  NewState : Interp;
  PreloadModule : string -> Interp -> Interp;
  SetGlobal : string -> LValue Number -> Interp -> Interp;
  GetGlobal : string -> Interp -> LValue Number;
  (** Compiling a file into a function value *)
  LoadFile : string -> Interp -> error + LValue Number;
  (** Running a callable value on arguments *)
  call : LValue Number -> list (LValue Number) -> Interp -> CallResult Number * Interp;
  (** The address the next userdata gets *)
  newUserData : Interp -> N;
  luaMangaTypeName : string;
  luaChapterTypeName : string;
  luaPageTypeName : string;
  (** The [Filters] type and its [ToLTable] method *)
  Filters : Type;
  ToLTable : Filters -> LValue Number;
  (** [url.Parse]: the error when the text is rejected, else the parsed
      URL as its [String] method writes it (the scheme in lower case, an
      empty port dropped, ...) *)
  url_Parse : string -> error + string;
  (** [multipart.NewWriter]'s random boundary, given the requests already sent *)
  randomBoundary : list Request -> string;
  (** What the [Do] method of [http.Client] does with a request for an
      [http] or [https] URL, given the requests already sent: the round
      trips, the redirects, and the reading of the body *)
  roundTrip : list Request -> Request -> error + (Header.t * (error + string))
}.

Section Host.

Context `{RT : Runtime}.

Abbreviation LV := (LValue Number).

(** *** [LValue] methods *)

Definition isNil (v : LV) : bool :=
  match v with LNil => true | _ => false end.

(** [LValue.String]. *)
Definition LValue_String (v : LV) : string :=
  match v with
  | LNil => "nil"
  | LBool b => if b then "true" else "false"
  | LNumber n => Number_String n
  | LString s => s
  | LFunction a => "function: " ++ fmtPointer a
  | LUserData a _ => "userdata: " ++ fmtPointer a
  | LTable a _ _ _ => "table: " ++ fmtPointer a
  end.

Record Table : Type :=
  mkTable { array : list LV; strdict : list (string * LV); dict : list (LV * LV) }.

(** The checked assertion [lv.( *lua.LTable )]. *)
Definition asTable (lv : LV) : option Table :=
  match lv with
  | LTable _ a s d => Some (mkTable a s d)
  | _ => None
  end.

(** The checked assertion [v.( *lua.LUserData )]. *)
Definition asUserData (lv : LV) : option GoValue :=
  match lv with
  | LUserData _ v => Some v
  | _ => None
  end.

Definition asMangaPtr (v : GoValue) : option Manga.t :=
  match v with PtrManga m => Some m | _ => None end.

Definition asChapterPtr (v : GoValue) : option Chapter.t :=
  match v with PtrChapter c => Some c | _ => None end.

(** The array part with its keys [1, 2, ...]. *)
Fixpoint arrayEntries (i : Z) (arr : list LV) : list (LV * LV) :=
  match arr with
  | [] => []
  | v :: r => (LNumber (Number_of_int i), v) :: arrayEntries (i + 1) r
  end.

Definition strEntries (sd : list (string * LV)) : list (LV * LV) :=
  map (fun kv => (LString (fst kv), snd kv)) sd.

(** One step of a [ForEach] loop: nil values are passed over. *)
Definition visit {A : Type} (cb : LV -> LV -> A -> A) (acc : A) (kv : LV * LV) : A :=
  if isNil (snd kv) then acc else cb (fst kv) (snd kv) acc.

(** [LTable.ForEach]: three loops, over the array part, the string-keyed
    part and the rest.  The callback's effect is a change of [A]. *)
Definition ForEach {A : Type} (tb : Table) (cb : LV -> LV -> A -> A) (acc : A) : A :=
  let acc1 := fold_left (visit cb) (arrayEntries 1 (array tb)) acc in
  let acc2 := fold_left (visit cb) (strEntries (strdict tb)) acc1 in
  fold_left (visit cb) (dict tb) acc2.

(** [LTable.RawGetString]. *)
Fixpoint lookupStr (key : string) (sd : list (string * LV)) : LV :=
  match sd with
  | [] => LNil
  | (k, v) :: r => if String.eqb k key then v else lookupStr key r
  end.

Definition RawGetString (tb : Table) (key : string) : LV :=
  lookupStr key (strdict tb).

(** *** The interpreter handle [lua.LState]: register stack, bottom first *)

Record LState : Type :=
  mkLState { reg : list LV; interp : Interp; closed : bool }.

Definition setReg (r : list LV) (L : LState) : LState :=
  {| reg := r; interp := interp L; closed := closed L |}.

Definition GetTop (L : LState) : nat := length (reg L).

(** [LState.Get] at top level (local base 0), for stack indices. *)
Definition Get (idx : Z) (L : LState) : LV :=
  let top := Z.of_nat (GetTop L) in
  if (0 <? idx)%Z then
    if (idx - 1 <? top)%Z then nth (Z.to_nat (idx - 1)) (reg L) LNil else LNil
  else if (idx =? 0)%Z then LNil
  else
    let tidx := (top + idx)%Z in
    if (tidx <? 0)%Z then LNil else nth (Z.to_nat tidx) (reg L) LNil.

Definition Push (v : LV) (L : LState) : LState :=
  setReg (reg L ++ [v])%list L.

Fixpoint Pop (n : nat) (L : LState) : outcome unit * LState :=
  match n with
  | O => (Ok tt, L)
  | S n' =>
      if Nat.eqb (GetTop L) 0
      then (Panic (LuaRaise (ApiError "register underflow")), L)
      else Pop n' (setReg (removelast (reg L)) L)
  end.

Definition LVCanConvToString (v : LV) : bool :=
  match v with LString _ | LNumber _ => true | _ => false end.

(** [LState.CheckString]: a value that is neither a string nor a number
    raises a type error. *)
Definition CheckString (n : Z) (L : LState) : outcome string * LState :=
  let v := Get n L in
  if LVCanConvToString v then (Ok (LValue_String v), L)
  else (Panic (LuaRaise (ApiError "bad argument (string expected)")), L).

Definition MultRet : Z := (-1)%Z.

(** Adjusting the results of a call to [nret] values. *)
Definition adjust (nret : Z) (rets : list LV) : list LV :=
  if (nret =? MultRet)%Z then rets
  else firstn (Z.to_nat nret) (rets ++ repeat LNil (Z.to_nat nret))%list.

(** Running the function that sits under [nargs] arguments on the stack. *)
Definition runTop (nargs : nat) (L : LState) : nat * (CallResult Number * Interp) :=
  let base := (GetTop L - nargs - 1)%nat in
  let fn := nth base (reg L) LNil in
  let args := skipn (base + 1) (reg L) in
  (base, call fn args (interp L)).

(** [LState.PCall] without an error handler: a raised error is caught,
    the stack is cut back to where the function was pushed and the error
    is returned. *)
Definition PCall (nargs : nat) (nret : Z) (L : LState) : outcome unit * LState :=
  match runTop nargs L with
  | (base, (Raised e, i)) =>
      (Err e, {| reg := firstn base (reg L); interp := i; closed := closed L |})
  | (base, (Returned rets, i)) =>
      (Ok tt, {| reg := (firstn base (reg L) ++ adjust nret rets)%list;
                 interp := i; closed := closed L |})
  end.

(** [LState.Call]: a raised error unwinds into the caller. *)
Definition Call (nargs : nat) (nret : Z) (L : LState) : outcome unit * LState :=
  match runTop nargs L with
  | (base, (Raised e, i)) =>
      (Panic (LuaRaise e), {| reg := reg L; interp := i; closed := closed L |})
  | (base, (Returned rets, i)) =>
      (Ok tt, {| reg := (firstn base (reg L) ++ adjust nret rets)%list;
                 interp := i; closed := closed L |})
  end.

Record P : Type := mkP { Fn : LV; NRet : Z; Protect : bool }.

(** [LState.CallByParam]. *)
Definition CallByParam (cp : P) (args : list LV) (L : LState) : outcome unit * LState :=
  let L1 := Push (Fn cp) L in
  let L2 := fold_left (fun acc arg => Push arg acc) args L1 in
  if Protect cp then PCall (length args) (NRet cp) L2
  else Call (length args) (NRet cp) L2.

(** [LState.DoFile]. *)
Definition DoFile (path : string) (L : LState) : outcome unit * LState :=
  match LoadFile path (interp L) with
  | inl err => (Err err, L)
  | inr fn => PCall 0 MultRet (Push fn L)
  end.

Definition Close (L : LState) : LState :=
  {| reg := reg L; interp := interp L; closed := true |}.

Definition lua_NewState : LState :=
  {| reg := []; interp := NewState; closed := false |}.

Definition onInterp (f : Interp -> Interp) (L : LState) : LState :=
  {| reg := reg L; interp := f (interp L); closed := closed L |}.

(** [luar.New]: a Go value behind a fresh userdata. *)
Definition luar_New (L : LState) (v : GoValue) : LV :=
  LUserData (newUserData (interp L)) v.

(** [luar.NewType]. *)
Definition luar_NewType (L : LState) (name : string) : LV :=
  LUserData (newUserData (interp L)) (ValType name).

(** *** The [Source] struct and its methods

    Methods take the receiver [s *Source] and change it in place: a method
    is a function from the receiver's state to a result and a new state. *)

Record Client : Type := mkClient { sent : list Request }.

Record Source : Type :=
  mkSource { Name : string; URL : string; l : LState;
             httpClient : option Client; header : option Header.t }.

Definition setName (n : string) (s : Source) : Source :=
  {| Name := n; URL := URL s; l := l s; httpClient := httpClient s; header := header s |}.
Definition setURL (u : string) (s : Source) : Source :=
  {| Name := Name s; URL := u; l := l s; httpClient := httpClient s; header := header s |}.
Definition setL (L : LState) (s : Source) : Source :=
  {| Name := Name s; URL := URL s; l := L; httpClient := httpClient s; header := header s |}.
Definition setClient (c : option Client) (s : Source) : Source :=
  {| Name := Name s; URL := URL s; l := l s; httpClient := c; header := header s |}.
Definition setHeader (h : option Header.t) (s : Source) : Source :=
  {| Name := Name s; URL := URL s; l := l s; httpClient := httpClient s; header := h |}.

Definition M (A : Type) : Type := Source -> outcome A * Source.

Definition ret {A : Type} (a : A) : M A := fun s => (Ok a, s).

Definition fail {A : Type} (e : error) : M A := fun s => (Err e, s).

Definition bind {A B : Type} (m : M A) (k : A -> M B) : M B :=
  fun s =>
    match m s with
    | (Ok a, s') => k a s'
    | (Err e, s') => (Err e, s')
    | (Panic p, s') => (Panic p, s')
    end.

Notation "'let*' x ':=' m 'in' k" := (bind m (fun x => k))
  (at level 10, x name, m at level 100, k at level 200).

(** Reading the receiver. *)
Definition get : M Source := fun s => (Ok s, s).

(** An operation on the interpreter handle [s.l]. *)
Definition onL {A : Type} (f : LState -> outcome A * LState) : M A :=
  fun s => let '(r, L) := f (l s) in (r, setL L s).

Definition modify (f : Source -> Source) : M unit := fun s => (Ok tt, f s).

(** [callLuaFunc]: a protected call of the global [name], one result. *)
Definition callLuaFunc (name : string) (args : list LV) : M unit :=
  onL (fun L =>
         CallByParam {| Fn := GetGlobal name (interp L); NRet := 1; Protect := true |}
                     args L).

Definition newSource : Source :=
  {| Name := ""; URL := ""; l := lua_NewState; httpClient := None; header := None |}.

Definition getName : M unit :=
  let* _ := callLuaFunc "name" [] in
  let* n := onL (CheckString 1) in
  let* _ := modify (setName n) in
  onL (Pop 1).

Definition getBaseURL : M unit :=
  let* _ := callLuaFunc "base_url" [] in
  let* u := onL (CheckString 1) in
  let* _ := modify (setURL u) in
  onL (Pop 1).

(** [if err := m; err != nil { s.l.Close(); return nil, err }] *)
Definition closeOnErr (m : M unit) : M unit :=
  fun s =>
    match m s with
    | (Err e, s') => (Err e, setL (Close (l s')) s')
    | r => r
    end.

(** The registrations [LoadSourceFromPath] makes before running the file. *)
Definition registerBridge (L : LState) : LState :=
  let L := onInterp (PreloadModule "scraper") L in
  let L := onInterp (PreloadModule "helper") L in
  let L := onInterp (PreloadModule "json") L in
  let L := onInterp (SetGlobal luaMangaTypeName (luar_NewType L "Manga")) L in
  let L := onInterp (SetGlobal luaChapterTypeName (luar_NewType L "Chapter")) L in
  onInterp (SetGlobal luaPageTypeName (luar_NewType L "Page")) L.

Definition loadBody (path : string) : M unit :=
  let* _ := modify (setClient (Some {| sent := [] |})) in
  let* _ := modify (setHeader (Some Header.make)) in
  let* _ := modify (fun s => setL (registerBridge (l s)) s) in
  let* _ := onL (DoFile path) in
  let* _ := closeOnErr getName in
  closeOnErr getBaseURL.

(** [LoadSourceFromPath]: the returned pair of the Go function, and next to
    it the state in which the allocated [Source] is left. *)
Definition LoadSourceFromPath (path : string) : outcome Source * Source :=
  match loadBody path newSource with
  | (Ok _, s) => (Ok s, s)
  | (Err e, s) => (Err e, s)
  | (Panic p, s) => (Panic p, s)
  end.

(** *** Building and performing a request *)

Definition headerBuilder (s : Source) : Header.t :=
  let header :=
    match header s with
    | Some h => Header.Clone h
    | None => Header.make
    end in
  Header.Set_ "User-Agent" "Tanoshi/0.1.0" header.

(** [http.NewRequest]: the method must be a token, the URL must parse. *)
Definition validMethod (method : string) : bool :=
  negb (String.eqb method "") &&
  textproto.string_forallb textproto.validHeaderFieldByte method.

Definition http_NewRequest (method url : string) (body : Body) : error + Request :=
  let method := if String.eqb method "" then "GET" else method in
  if negb (validMethod method) then inl (invalidMethod method)
  else
    match url_Parse url with
    | inl err => inl err
    | inr u => inr {| Method := method; ReqURL := u; ReqHeader := Header.make; ReqBody := body |}
    end.

(** [Writer.FormDataContentType]; the boundary is a run of hex digits. *)
Definition FormDataContentType (boundary : string) : string :=
  "multipart/form-data; boundary=" ++ boundary.

(** The header loop of [createRequest]. *)
Definition setHeaderEntry (k v : LV) (h : Header.t) : Header.t :=
  Header.Set_ (LValue_String k) (LValue_String v) h.

(** The field loop of [createRequest]. *)
Definition writeField (k v : LV) (fields : list (string * string)) : list (string * string) :=
  (fields ++ [(LValue_String k, LValue_String v)])%list.

Definition requestsSent (s : Source) : list Request :=
  match httpClient s with Some c => sent c | None => [] end.

Definition createRequest : M Request :=
  fun s =>
    let lv := Get (-1) (l s) in
    match asTable lv with
    | None => (Err (errorString "table expected"), s)
    | Some req =>
        let headerMap := headerBuilder s in
        let headerMap :=
          match asTable (RawGetString req "header") with
          | Some headers => ForEach headers setHeaderEntry headerMap
          | None => headerMap
          end in
        let contentType := Header.Get "Content-Type" headerMap in
        let '(buffer, headerMap) :=
          match asTable (RawGetString req "data") with
          | Some data =>
              if String.eqb contentType "multipart/form-data" then
                let b := randomBoundary (requestsSent s) in
                (MultipartBody b (ForEach data writeField []),
                 Header.Set_ "Content-Type" (FormDataContentType b) headerMap)
              else (EmptyBody, headerMap)
          | None => (EmptyBody, headerMap)
          end in
        let method := LValue_String (RawGetString req "method") in
        let url := LValue_String (RawGetString req "url") in
        match http_NewRequest method url buffer with
        | inl err => (Err err, s)
        | inr request =>
            (Ok {| Method := Method request; ReqURL := ReqURL request;
                   ReqHeader := headerMap; ReqBody := ReqBody request |}, s)
        end
    end.

(** [req.URL.Scheme]: [url.Parse] splits the scheme off with [getScheme]
    and the [String] method writes it back in front of the colon. *)
Definition requestScheme (req : Request) : string :=
  match neturl.getScheme (ReqURL req) with
  | inr (scheme, _) => scheme
  | inl _ => EmptyString
  end.

Definition isHTTP (scheme : string) : bool :=
  String.eqb scheme "http" || String.eqb scheme "https".

(** The [Do] method of an [http.Client] with the default transport, on
    which no other protocol is registered: the transport refuses a URL
    whose scheme is neither [http] nor [https] before it dials, and [Do]
    returns that error inside a [*url.Error]. *)
Definition client_Do (log : list Request) (req : Request)
  : error + (Header.t * (error + string)) :=
  if isHTTP (requestScheme req) then roundTrip log req
  else inl (urlError (Method req) (ReqURL req)
                     (badStringError "unsupported protocol scheme" (requestScheme req))).

(** [doRequest]: the request is handed to the client, which records it. *)
Definition doRequest (req : Request) : M SourceResponse :=
  fun s =>
    match httpClient s with
    | None => (Panic NilDereference, s)
    | Some c =>
        let s' := setClient (Some {| sent := (sent c ++ [req])%list |}) s in
        match client_Do (sent c) req with
        | inl err => (Err err, s')
        | inr (_, inl err) => (Err err, s')
        | inr (hdr, inr body) => (Ok {| RespHeader := hdr; RespBody := body |}, s')
        end
    end.

(** *** Operations: describe, execute, parse *)

Definition getLatestUpdatesRequest (page : Z) : M SourceResponse :=
  let* _ := callLuaFunc "get_latest_updates_request" [LNumber (Number_of_int page)] in
  let* request := createRequest in
  let* resp := doRequest request in
  ret resp.

(** The loop body of [getLatestUpdates]. *)
Definition collectStamped (name : string) (v : LV) (manga : list Manga.t) : list Manga.t :=
  match asUserData v with
  | Some value =>
      match asMangaPtr value with
      | Some m => (manga ++ [Manga.setSource name m])%list
      | None => manga
      end
  | None => manga
  end.

Definition getLatestUpdates (body : string) : M (list Manga.t) :=
  let* _ := callLuaFunc "get_latest_updates" [LString body] in
  let* s := get in
  let lv := Get (-1) (l s) in
  let manga :=
    match asTable lv with
    | Some tbl => ForEach tbl (fun _ v acc => collectStamped (Name s) v acc) []
    | None => []
    end in
  ret manga.

Definition GetLatestUpdates (page : Z) : M (list Manga.t) :=
  let* res := getLatestUpdatesRequest page in
  let* mangaList := getLatestUpdates (RespBody res) in
  ret mangaList.

Definition getMangaDetailsRequest (m : Manga.t) : M SourceResponse :=
  let* s := get in
  let* _ := callLuaFunc "get_manga_details_request" [luar_New (l s) (ValManga m)] in
  let* request := createRequest in
  let* resp := doRequest request in
  ret resp.

(** The unchecked assertions [lv.( *lua.LUserData )] and
    [ud.Value.( *Manga )] panic when the value has another type. *)
Definition mustMangaPtr (lv : LV) : M Manga.t :=
  fun s =>
    match asUserData lv with
    | None => (Panic (TypeAssertion "*lua.LUserData"), s)
    | Some value =>
        match asMangaPtr value with
        | None => (Panic (TypeAssertion "*source.Manga"), s)
        | Some m => (Ok m, s)
        end
    end.

Definition mustChapterPtr (lv : LV) : M Chapter.t :=
  fun s =>
    match asUserData lv with
    | None => (Panic (TypeAssertion "*lua.LUserData"), s)
    | Some value =>
        match asChapterPtr value with
        | None => (Panic (TypeAssertion "*source.Chapter"), s)
        | Some c => (Ok c, s)
        end
    end.

Definition getMangaDetails (body : string) : M Manga.t :=
  let* _ := callLuaFunc "get_manga_details" [LString body] in
  let* s := get in
  let lv := Get (-1) (l s) in
  let* manga := mustMangaPtr lv in
  ret (Manga.setSource (Name s) manga).

Definition GetMangaDetails (m : Manga.t) : M Manga.t :=
  let* res := getMangaDetailsRequest m in
  let* manga := getMangaDetails (RespBody res) in
  ret (Manga.setID (Manga.ID m) manga).

Definition getChaptersRequest (m : Manga.t) : M SourceResponse :=
  let* s := get in
  let* _ := callLuaFunc "get_chapters_request" [luar_New (l s) (ValManga m)] in
  let* req := createRequest in
  let* resp := doRequest req in
  ret resp.

(** The loop body of [getChapters]. *)
Definition collectChapter (name : string) (v : LV) (chapters : list Chapter.t) : list Chapter.t :=
  match asUserData v with
  | Some value =>
      match asChapterPtr value with
      | Some c => (chapters ++ [Chapter.setSource name c])%list
      | None => chapters
      end
  | None => chapters
  end.

Definition getChapters (body : string) : M (list Chapter.t) :=
  let* _ := callLuaFunc "get_chapters" [LString body] in
  let* s := get in
  let lv := Get (-1) (l s) in
  let chapters :=
    match asTable lv with
    | Some tbl => ForEach tbl (fun _ v acc => collectChapter (Name s) v acc) []
    | None => []
    end in
  ret chapters.

Definition GetChapters (m : Manga.t) : M (list Chapter.t) :=
  let* res := getChaptersRequest m in
  let* chapters := getChapters (RespBody res) in
  ret chapters.

Definition getChapterRequest (c : Chapter.t) : M SourceResponse :=
  let* s := get in
  let* _ := callLuaFunc "get_chapter_request" [luar_New (l s) (ValChapter c)] in
  let* req := createRequest in
  let* resp := doRequest req in
  ret resp.

Definition getChapter (body : string) : M Chapter.t :=
  let* _ := callLuaFunc "get_chapter" [LString body] in
  let* s := get in
  let lv := Get (-1) (l s) in
  let* chapter := mustChapterPtr lv in
  ret chapter.

Definition GetChapter (c : Chapter.t) : M Chapter.t :=
  let* res := getChapterRequest c in
  let* chapter := getChapter (RespBody res) in
  ret (Chapter.setID (Chapter.ID c) chapter).

(** The literal map [loginRequest] builds; [remember] is a parameter of
    the method and does not occur in it. *)
Definition loginParam (username password twoFactor : string) (remember : bool)
  : gmap string string :=
  <["username" := username]>
    (<["password" := password]>
       (<["two_factor" := twoFactor]>
          (<["remember_me" := "1"]> ∅))).

Definition loginRequest (username password twoFactor : string) (remember : bool)
  : M SourceResponse :=
  let param := loginParam username password twoFactor remember in
  let* s := get in
  let* _ := callLuaFunc "login_request" [luar_New (l s) (ValStringMap param)] in
  let* req := createRequest in
  let* resp := doRequest req in
  ret resp.

(** [s.header.Del] and [s.header.Add] on a header that may be the nil map:
    deleting from it does nothing, adding to it panics. *)
Definition headerDel (key : string) (h : outcome (option Header.t)) : outcome (option Header.t) :=
  match h with
  | Ok (Some m) => Ok (Some (Header.Del key m))
  | other => other
  end.

Definition headerAdd (key value : string) (h : outcome (option Header.t)) : outcome (option Header.t) :=
  match h with
  | Ok (Some m) => Ok (Some (Header.Add key value m))
  | Ok None => Panic NilMapWrite
  | other => other
  end.

(** The outer loop body of [login]. *)
Definition replaceKey (k v : LV) (h : outcome (option Header.t)) : outcome (option Header.t) :=
  match asTable v with
  | Some values =>
      ForEach values (fun _ w acc => headerAdd (LValue_String k) (LValue_String w) acc)
              (headerDel (LValue_String k) h)
  | None => h
  end.

Definition login (resp : SourceResponse) : M unit :=
  let respHeader := RespHeader resp in
  let body := RespBody resp in
  let* s0 := get in
  let* _ := callLuaFunc "login" [luar_New (l s0) (ValHeaderMap respHeader); LString body] in
  fun s =>
    let lv := Get (-1) (l s) in
    match asTable lv with
    | Some tbl =>
        match ForEach tbl replaceKey (Ok (header s)) with
        | Ok h => (Ok tt, setHeader h s)
        | Err e => (Err e, s)
        | Panic p => (Panic p, s)
        end
    | None => (Err (errorString "Table expected"), s)
    end.

Definition Login (username password twoFactor : string) (remember : bool) : M unit :=
  let* resp := loginRequest username password twoFactor remember in
  let* _ := login resp in
  ret tt.

Definition fetchMangaRequest (filter : Filters) : M SourceResponse :=
  let* _ := callLuaFunc "fetch_manga_request" [ToLTable filter] in
  let* req := createRequest in
  let* resp := doRequest req in
  ret resp.

(** The loop body of [fetchManga]: no source stamp. *)
Definition collectManga (v : LV) (manga : list Manga.t) : list Manga.t :=
  match asUserData v with
  | Some value =>
      match asMangaPtr value with
      | Some m => (manga ++ [m])%list
      | None => manga
      end
  | None => manga
  end.

Definition fetchManga (body : string) : M (list Manga.t) :=
  let* _ := callLuaFunc "fetch_manga" [LString body] in
  let* s := get in
  let lv := Get (-1) (l s) in
  let manga :=
    match asTable lv with
    | Some tbl => ForEach tbl (fun _ v acc => collectManga v acc) []
    | None => []
    end in
  ret manga.

Definition FetchManga (filter : Filters) : M (list Manga.t) :=
  let* res := fetchMangaRequest filter in
  let* mangaList := fetchManga (RespBody res) in
  ret mangaList.

(** *** Vocabulary of the properties *)

(** The state a source is left in by a call: with the stack as it was and
    the interpreter moved on ([restored], after a caught error), or with
    the first result pushed ([afterReturn]). *)
Definition restored (i : Interp) (s : Source) : Source :=
  setL {| reg := reg (l s); interp := i; closed := closed (l s) |} s.

Definition afterReturn (rets : list LV) (i : Interp) (s : Source) : Source :=
  setL {| reg := (reg (l s) ++ [hd LNil rets])%list; interp := i; closed := closed (l s) |} s.

(** What calling the global [name] on [args] does in the interpreter of [s]. *)
Definition invoke (name : string) (args : list LV) (s : Source) : CallResult Number * Interp :=
  call (GetGlobal name (interp (l s))) args (interp (l s)).


(** The entries of a table in the order [ForEach] visits them. *)
Definition tableEntries (tb : Table) : list (LV * LV) :=
  (arrayEntries 1 (array tb) ++ strEntries (strdict tb) ++ dict tb)%list.

(** The entries [ForEach] hands to its callback: those with a value. *)
Definition liveEntries (tb : Table) : list (LV * LV) :=
  List.filter (fun kv => negb (isNil (snd kv))) (tableEntries tb).

Definition liveValues (tb : Table) : list LV := List.map snd (liveEntries tb).

Definition unwrapManga (v : LV) : option Manga.t :=
  match asUserData v with
  | Some value => asMangaPtr value
  | None => None
  end.

Definition unwrapChapter (v : LV) : option Chapter.t :=
  match asUserData v with
  | Some value => asChapterPtr value
  | None => None
  end.

(** The records among a list of values, in order. *)
Fixpoint records {R : Type} (unwrap : LV -> option R) (vs : list LV) : list R :=
  match vs with
  | [] => []
  | v :: r =>
      match unwrap v with
      | Some x => x :: records unwrap r
      | None => records unwrap r
      end
  end.

(** The values that do not unwrap. *)
Definition malformed {R : Type} (unwrap : LV -> option R) (vs : list LV) : list LV :=
  List.filter (fun v => match unwrap v with Some _ => false | None => true end) vs.

(** Adding a run of values under one key. *)
Definition addAll (key : string) (ws : list string) (h : Header.t) : Header.t :=
  fold_left (fun m w => Header.Add key w m) ws h.

(** The strings a table of values stands for: its values in visiting
    order, each rendered by [String]. *)
Definition rendered (values : Table) : list string :=
  List.map LValue_String (liveValues values).

(** The outer loop body of [login] on a header that is not nil. *)
Definition replaceIn (kv : LV * LV) (h : Header.t) : Header.t :=
  match asTable (snd kv) with
  | Some values =>
      addAll (LValue_String (fst kv)) (rendered values)
             (Header.Del (LValue_String (fst kv)) h)
  | None => h
  end.

(** Does the entry [kv] give a list of values for the header name [K]? *)
Definition mentionsName (K : string) (kv : LV * LV) : bool :=
  match asTable (snd kv) with
  | Some _ => String.eqb (Header.canon (LValue_String (fst kv))) (Header.canon K)
  | None => false
  end.

(** The session headers of a source; a nil header holds nothing. *)
Definition session (s : Source) : Header.t :=
  match header s with Some h => h | None => Header.make end.

(** The entries of the descriptor's [header] table, in visiting order. *)
Definition descriptorHeaders (req : Table) : list (LV * LV) :=
  match asTable (RawGetString req "header") with
  | Some headers => liveEntries headers
  | None => []
  end.

(** The header map after the descriptor's entries were set. *)
Definition merged (s : Source) (req : Table) : Header.t :=
  fold_left (fun h kv => setHeaderEntry (fst kv) (snd kv) h)
            (descriptorHeaders req) (headerBuilder s).

(** Is the [data] table encoded as a multipart form? *)
Definition encodesMultipart (s : Source) (req : Table) : bool :=
  match asTable (RawGetString req "data") with
  | Some _ => String.eqb (Header.Get "Content-Type" (merged s req)) "multipart/form-data"
  | None => false
  end.

Definition outbound (s : Source) (req : Table) : Header.t :=
  if encodesMultipart s req
  then Header.Set_ "Content-Type"
                   (FormDataContentType (randomBoundary (requestsSent s))) (merged s req)
  else merged s req.

Definition bodyOf (s : Source) (req : Table) : Body :=
  match asTable (RawGetString req "data") with
  | Some data =>
      if encodesMultipart s req
      then MultipartBody (randomBoundary (requestsSent s)) (ForEach data writeField [])
      else EmptyBody
  | None => EmptyBody
  end.

Definition methodText (req : Table) : string := LValue_String (RawGetString req "method").
Definition urlText (req : Table) : string := LValue_String (RawGetString req "url").

(** Does the descriptor entry [kv] set the header name [K]? *)
Definition setsName (K : string) (kv : LV * LV) : bool :=
  String.eqb (Header.canon (LValue_String (fst kv))) (Header.canon K).

(** A name is taken over by the multipart encoder when the data table is
    encoded and the name is [Content-Type]. *)
Definition encoderSets (s : Source) (req : Table) (K : string) : bool :=
  encodesMultipart s req && String.eqb (Header.canon K) "Content-Type".

(** The tail shared by the six [...Request] methods: build the request from
    the descriptor on top of the stack and perform it. *)
Definition sendDescribed : M SourceResponse :=
  bind createRequest (fun request => bind (doRequest request) (fun resp => ret resp)).

(** The source as [LoadSourceFromPath] has set it up when it runs the file. *)
Definition prepared : Source :=
  setL (registerBridge lua_NewState)
       (setHeader (Some Header.make) (setClient (Some {| sent := [] |}) newSource)).

(** The value [CheckString 1] reads after the global [name] returned
    [rets] in state [s]: the bottom of the stack. *)
Definition slotOne (rets : list LV) (i : Interp) (s : Source) : LV :=
  Get 1 (l (afterReturn rets i s)).

(** The source once its name was read. *)
Definition named (rets : list LV) (i : Interp) (s : Source) : Source :=
  setName (LValue_String (slotOne rets i s)) (restored i s).

(** *** Vocabulary of the further properties *)

(** What no operation but loading changes: the identity of the source; and
    what only a login changes: its session headers. *)
Definition keeps (s s' : Source) : Prop :=
  Name s' = Name s /\ URL s' = URL s /\ header s' = header s.

Definition preserves {A : Type} (m : M A) : Prop :=
  forall s : Source, keeps s (snd (m s)).

(** The requests [s'] has sent are those of [s] and at most [k] more. *)
Definition sentMore (k : nat) (s s' : Source) : Prop :=
  exists rs : list Request,
    requestsSent s' = (requestsSent s ++ rs)%list /\ (length rs <= k)%nat.

Definition sendsAtMost {A : Type} (k : nat) (m : M A) : Prop :=
  forall s : Source, sentMore k s (snd (m s)).

(** The session headers a login leaves, given the table its parse phase
    returned. *)
Definition loginEffect (tbl : Table) (h : Header.t) : Header.t :=
  fold_left (fun m kv => replaceIn kv m) (liveEntries tbl) h.

(** The form fields a data table stands for. *)
Definition fieldsOf (data : Table) : list (string * string) :=
  List.map (fun kv => (LValue_String (fst kv), LValue_String (snd kv))) (liveEntries data).

(** The state of a source once [req] was handed to its client [c]. *)
Definition afterSend (c : Client) (req : Request) (s : Source) : Source :=
  setClient (Some {| sent := (sent c ++ [req])%list |}) s.

(** A describe call followed by the shared tail. *)
Definition describeAndSend (name : string) (args : list LV) : M SourceResponse :=
  bind (callLuaFunc name args) (fun _ => sendDescribed).

(** How one entry of a login table decides what the header map holds
    under the key [c], given what it held. *)
Definition settle (c : string) (cur : option (list string)) (kv : LV * LV)
  : option (list string) :=
  match asTable (snd kv) with
  | Some values =>
      if String.eqb (Header.canon (LValue_String (fst kv))) c
      then match rendered values with [] => None | ws => Some ws end
      else cur
  | None => cur
  end.




(** An entry of a login table that holds a list. *)
Definition holdsList (kv : LV * LV) : bool :=
  match asTable (snd kv) with Some _ => true | None => false end.

(** No two list entries name the same canonical header. *)
Fixpoint distinctNames (es : list (LV * LV)) : bool :=
  match es with
  | [] => true
  | kv :: rest =>
      (negb (holdsList kv) || negb (existsb (mentionsName (LValue_String (fst kv))) rest))
      && distinctNames rest
  end.

(** The source [LoadSourceFromPath] returns when both identity calls
    succeed from the state [s0] the file left. *)
Definition identified (r1 : list LV) (i1 : Interp) (r2 : list LV) (i2 : Interp)
           (s0 : Source) : Source :=
  setURL (LValue_String (slotOne r2 i2 (named r1 i1 s0))) (restored i2 (named r1 i1 s0)).

End Host.

(** ** A concrete runtime, to run the host on scripted connectors

    Numbers are integers printed in decimal, addresses print in
    hexadecimal, every request is answered by a fixed page, and a script is
    given by what its file and each of its global functions return. *)

Module Demo.

Definition LV : Type := LValue Z.

Record Script : Type :=
  mkScript { chunk : CallResult Z;
             globals : list (string * (list LV -> CallResult Z)) }.

Definition printZ (z : Z) : string :=
  DecimalString.NilZero.string_of_int (Z.to_int z).

Definition printPointer (a : N) : string :=
  "0x" ++ HexadecimalString.NilZero.string_of_uint (N.to_hex_uint a).

(** Global [name] is the function at its position in [globals], counted
    from 1; address 0 is the compiled file. *)
Fixpoint findGlobal (name : string) (i : N) (gs : list (string * (list LV -> CallResult Z))) : LV :=
  match gs with
  | [] => LNil
  | (n, _) :: r => if String.eqb n name then LFunction i else findGlobal name (i + 1) r
  end.

Definition notCallable : CallResult Z :=
  Raised (ApiError "attempt to call a non-function object").

Definition callValue (fn : LV) (args : list LV) (sc : Script) : CallResult Z * Script :=
  match fn with
  | LFunction 0%N => (chunk sc, sc)
  | LFunction a =>
      match nth_error (globals sc) (N.to_nat (a - 1)) with
      | Some (_, f) => (f args, sc)
      | None => (notCallable, sc)
      end
  | _ => (notCallable, sc)
  end.

Definition isControl (c : ascii) : bool :=
  negb (neturl.byteLe " " c) || Ascii.eqb c "127".

(** An upper-case letter plus 32: its bit of weight 32 is set. *)
Definition lowerByte (c : ascii) : ascii :=
  if neturl.byteLe "A" c && neturl.byteLe c "Z" then
    let '(Ascii b0 b1 b2 b3 b4 _ b6 b7) := c in Ascii b0 b1 b2 b3 b4 true b6 b7
  else c.

Fixpoint lowerString (s : string) : string :=
  match s with
  | EmptyString => EmptyString
  | String c r => String (lowerByte c) (lowerString r)
  end.

(** A parser for the texts of the scripts below: it rejects control
    characters and a leading colon, and writes the scheme in lower case. *)
Definition parseURL (u : string) : error + string :=
  if textproto.string_forallb (fun c => negb (isControl c)) u then
    match neturl.getScheme u with
    | inl err => inl (urlError "parse" u err)
    | inr (EmptyString, _) => inr u
    | inr (scheme, rest) => inr (lowerString scheme ++ ":" ++ rest)
    end
  else inl (urlError "parse" u (httpError "net/url: invalid control character in URL")).

Definition page : string := "<html></html>".

Definition runtime (sc : Script) : Runtime := {|
  Number := Z;
  Number_of_int := fun z => z;
  Number_String := printZ;
  fmtPointer := printPointer;
  Interp := Script;
  NewState := sc;
  PreloadModule := fun _ i => i;
  SetGlobal := fun _ _ i => i;
  GetGlobal := fun name i => findGlobal name 1 (globals i);
  LoadFile := fun _ _ => inr (LFunction 0);
  call := callValue;
  newUserData := fun _ => 4096%N;
  luaMangaTypeName := "Manga";
  luaChapterTypeName := "Chapter";
  luaPageTypeName := "Page";
  Filters := list (string * string);
  ToLTable := fun f => LTable 8192 [] (map (fun kv => (fst kv, LString (snd kv))) f) [];
  url_Parse := parseURL;
  randomBoundary := fun _ => "0f1e2d3c4b5a69788796a5b4c3d2e1f00f1e2d3c4b5a69788796a5b4c3d2";
  roundTrip := fun _ _ => inr (∅, inr page)
|}.

(** A source as [LoadSourceFromPath] leaves it, for a script that defines
    nothing at top level but its functions. *)
Definition loaded (sc : Script) (name : string) (h : Header.t) : @Source (runtime sc) :=
  @mkSource (runtime sc) name "http://example.org"
            (@mkLState (runtime sc) [] sc false)
            (Some {| sent := [] |}) (Some h).

(** The same source between the describe and the parse phase of an
    operation, with [top] on its stack. *)
Definition withStack (sc : Script) (name : string) (h : Header.t) (top : list LV)
  : @Source (runtime sc) :=
  @mkSource (runtime sc) name "http://example.org"
            (@mkLState (runtime sc) top sc false)
            (Some {| sent := [] |}) (Some h).

(** Values scripts return. *)
Definition tableOf (fields : list (string * LV)) : LV := LTable 256 [] fields [].
Definition listOf (vs : list LV) : LV := LTable 512 vs [] [].
Definition mangaHandle (m : Manga.t) : LV := LUserData 768 (PtrManga m).
Definition chapterHandle (c : Chapter.t) : LV := LUserData 1024 (PtrChapter c).

Definition returns (v : LV) : list LV -> CallResult Z := fun _ => Returned [v].
Definition raises (msg : string) : list LV -> CallResult Z := fun _ => Raised (ApiError msg).

Definition getDescriptor : LV :=
  tableOf [("method", LString "GET"); ("url", LString "http://example.org/list")].

Definition response : SourceResponse := {| RespHeader := ∅; RespBody := page |}.

(** [login] returns the table with the string-keyed [fields]. *)
Definition loginReturning (fields : list (string * LV)) : Script :=
  {| chunk := Returned [];
     globals := [("login_request", returns getDescriptor);
                 ("login", returns (tableOf fields))] |}.

(** [login] returns the table with the string-keyed [fields], which are
    visited in the opposite order when the page reads [again]. *)
Definition loginByBody (fields : list (string * LV)) : Script :=
  {| chunk := Returned [];
     globals :=
       [("login_request", returns getDescriptor);
        ("login", fun args =>
                    match args with
                    | [_; LString body] =>
                        if String.eqb body "again" then Returned [tableOf (rev fields)]
                        else Returned [tableOf fields]
                    | _ => Returned [tableOf fields]
                    end)] |}.

Definition again : SourceResponse := {| RespHeader := ∅; RespBody := "again" |}.


(** The cookie header named twice, in two spellings. *)
Definition twoSpellings : list (string * LV) :=
  [("cookie", listOf [LString "a"]); ("Cookie", listOf [LString "b"])].

(** A fresh cookie list and an entry that is not a list. *)
Definition freshCookies : list (string * LV) :=
  [("cookie", listOf [LString "sid=1"; LString "theme=dark"]);
   ("note", LString "signed in")].

Definition oldSession : Header.t :=
  Header.Add "Cookie" "sid=0" (Header.Add "X-Old" "kept" ∅).

Definition browserSession : Header.t :=
  Header.Add "User-Agent" "Mozilla/5.0" (Header.Add "Accept" "*/*" ∅).

(** A descriptor with no header table. *)
Definition plainGet : Script :=
  {| chunk := Returned [];
     globals := [("get_latest_updates_request", returns getDescriptor);
                 ("get_latest_updates", returns (listOf []))] |}.

(** A descriptor that sets [Accept]. *)
Definition acceptDescriptor : LV :=
  tableOf [("method", LString "GET"); ("url", LString "http://example.org/list");
           ("header", tableOf [("accept", LString "text/html")])].

(** A descriptor that sets [Accept] twice, in two spellings. *)
Definition twoAccepts : list (string * LV) :=
  [("accept", LString "text/html"); ("Accept", LString "application/json")].

Definition describing (headers : list (string * LV)) : Script :=
  {| chunk := Returned [];
     globals :=
       [("get_latest_updates_request",
         returns (tableOf [("method", LString "GET");
                           ("url", LString "http://example.org/list");
                           ("header", tableOf headers)]))] |}.

(** A multipart form. *)
Definition formDescriptor : LV :=
  tableOf [("method", LString "POST"); ("url", LString "http://example.org/login");
           ("header", tableOf [("Content-Type", LString "multipart/form-data")]);
           ("data", tableOf [("user", LString "alice")])].

Definition formPost : Script :=
  {| chunk := Returned [];
     globals := [("get_latest_updates_request", returns formDescriptor)] |}.




(** [get_manga_details] and [get_chapter] return a plain table. *)
Definition detailsTable : Script :=
  {| chunk := Returned [];
     globals := [("get_manga_details_request", returns getDescriptor);
                 ("get_manga_details", returns (tableOf [("title", LString "Berserk")]));
                 ("get_chapter_request", returns getDescriptor);
                 ("get_chapter", returns (tableOf []))] |}.

(** [name] returns the empty string. *)
Definition emptyName : Script :=
  {| chunk := Returned [];
     globals := [("name", returns (LString ""));
                 ("base_url", returns (LString "http://example.org"))] |}.

(** A script without [name]. *)
Definition noName : Script :=
  {| chunk := Returned [];
     globals := [("base_url", returns (LString "http://example.org"))] |}.

Definition manga1 : Manga.t := {| Manga.ID := 0; Manga.Source := ""; Manga.Path := "/a"; Manga.Title := "A" |}.
Definition manga2 : Manga.t := {| Manga.ID := 0; Manga.Source := ""; Manga.Path := "/b"; Manga.Title := "B" |}.
Definition manga3 : Manga.t := {| Manga.ID := 0; Manga.Source := "x"; Manga.Path := "/c"; Manga.Title := "C" |}.

Definition chapter7 : Chapter.t :=
  {| Chapter.ID := 7; Chapter.Source := "elsewhere"; Chapter.MangaID := 3;
     Chapter.Path := "/a/7"; Chapter.Rank := 7; Chapter.Language := "en" |}.

Definition chapter42 : Chapter.t :=
  {| Chapter.ID := 42; Chapter.Source := "demo"; Chapter.MangaID := 3;
     Chapter.Path := "/a/7"; Chapter.Rank := 7; Chapter.Language := "en" |}.

(** Five entries, two of which are not manga handles. *)
Definition fiveEntries : list LV :=
  [mangaHandle manga1; LString "oops"; mangaHandle manga2;
   chapterHandle chapter7; mangaHandle manga3].

Definition latestFive : Script :=
  {| chunk := Returned [];
     globals := [("get_latest_updates", returns (listOf fiveEntries));
                 ("fetch_manga", returns (listOf fiveEntries))] |}.

(** [get_chapter] returns a chapter with its own ID and source;
    [get_chapters] faults. *)
Definition chapterScript : Script :=
  {| chunk := Returned [];
     globals := [("get_chapter_request", returns getDescriptor);
                 ("get_chapter", returns (chapterHandle chapter7));
                 ("get_chapters", raises "attempt to index a nil value")] |}.

(** The values under [name] in each request a run has sent. *)
Definition sentValues (sc : Script) (name : string) (out : outcome SourceResponse * @Source (runtime sc))
  : list (list string) :=
  List.map (fun r => Header.Values name (ReqHeader r)) (requestsSent (snd out)).

(** A connector with every entry point. *)
Definition chapterList : list LV :=
  [chapterHandle chapter7; LBool true; chapterHandle chapter42].

Definition catalog : Script :=
  {| chunk := Returned [];
     globals :=
       [("name", returns (LString "demo"));
        ("base_url", returns (LString "http://example.org"));
        ("get_latest_updates_request", returns getDescriptor);
        ("get_latest_updates", returns (listOf fiveEntries));
        ("get_manga_details_request", returns getDescriptor);
        ("get_manga_details", returns (mangaHandle manga3));
        ("get_chapters_request", returns getDescriptor);
        ("get_chapters", returns (listOf chapterList));
        ("get_chapter_request", returns getDescriptor);
        ("get_chapter", returns (chapterHandle chapter7));
        ("login_request", returns formDescriptor);
        ("login", returns (LString "denied"));
        ("fetch_manga_request", returns getDescriptor);
        ("fetch_manga", fun _ => Returned [])] |}.

(** The same environment with a network that refuses every connection. *)
Definition refused : error := httpError "dial tcp: connection refused".

Definition offline (sc : Script) : Runtime := {|
  Number := Z;
  Number_of_int := fun z => z;
  Number_String := printZ;
  fmtPointer := printPointer;
  Interp := Script;
  NewState := sc;
  PreloadModule := fun _ i => i;
  SetGlobal := fun _ _ i => i;
  GetGlobal := fun name i => findGlobal name 1 (globals i);
  LoadFile := fun _ _ => inr (LFunction 0);
  call := callValue;
  newUserData := fun _ => 4096%N;
  luaMangaTypeName := "Manga";
  luaChapterTypeName := "Chapter";
  luaPageTypeName := "Page";
  Filters := list (string * string);
  ToLTable := fun f => LTable 8192 [] (map (fun kv => (fst kv, LString (snd kv))) f) [];
  url_Parse := parseURL;
  randomBoundary := fun _ => "0f1e2d3c4b5a69788796a5b4c3d2e1f00f1e2d3c4b5a69788796a5b4c3d2";
  roundTrip := fun _ _ => inl refused
|}.

Definition loadedOffline (sc : Script) (name : string) (h : Header.t) : @Source (offline sc) :=
  @mkSource (offline sc) name "http://example.org"
            (@mkLState (offline sc) [] sc false)
            (Some {| sent := [] |}) (Some h).

(** A login that clears the cookie header. *)
Definition clearCookie : list (string * LV) := [("cookie", listOf [])].

(** A script file that returns values at top level. *)
Definition moduleFile : Script :=
  {| chunk := Returned [LString "module"; LNumber 2%Z];
     globals := [("name", returns (LString "demo"));
                 ("base_url", returns (LString "http://example.org"))] |}.

(** [name] returns a table. *)
Definition tableName : Script :=
  {| chunk := Returned [];
     globals := [("name", returns (tableOf []));
                 ("base_url", returns (LString "http://example.org"))] |}.

(** A script file that fails while it runs. *)
Definition brokenFile : Script :=
  {| chunk := Raised (ApiError "attempt to call a nil value");
     globals := [] |}.

Definition stamped (m : Manga.t) : Manga.t := Manga.setSource "demo" m.

(** The request built from [getDescriptor] with no session headers. *)
Definition listRequest : Request :=
  {| Method := "GET"; ReqURL := "http://example.org/list";
     ReqHeader := Header.Set_ "User-Agent" "Tanoshi/0.1.0" ∅; ReqBody := EmptyBody |}.

End Demo.

(** * Properties *)

Section HostProps.

Context `{RT : Runtime}.

Abbreviation LV := (LValue Number).

(** ** The monad *)

Lemma bind_Ok {A B : Type} (m : M A) (k : A -> M B) (s s' : Source) (a : A) :
  m s = (Ok a, s') -> bind m k s = k a s'.
Proof. intros H. unfold bind. now rewrite H. Qed.


Lemma bind_Panic {A B : Type} (m : M A) (k : A -> M B) (s s' : Source) (p : panic) :
  m s = (Panic p, s') -> bind m k s = (Panic p, s').
Proof. intros H. unfold bind. now rewrite H. Qed.

(** ** The register stack under a protected call *)

Lemma pushes_reg (args : list LV) (L : LState) :
  fold_left (fun acc arg => Push arg acc) args L
  = {| reg := (reg L ++ args)%list; interp := interp L; closed := closed L |}.
Proof.
  revert L. induction args as [|a args IH]; intros L; simpl.
  - rewrite app_nil_r. now destruct L.
  - rewrite IH. simpl. now rewrite <- app_assoc.
Qed.

Lemma adjust_one (rets : list LV) : adjust 1 rets = [hd LNil rets].
Proof. destruct rets; reflexivity. Qed.

Lemma runTop_pushed (fn : LV) (args : list LV) (L : LState) :
  runTop (length args)
         {| reg := ((reg L ++ [fn]) ++ args)%list; interp := interp L; closed := closed L |}
  = (length (reg L), call fn args (interp L)).
Proof.
  unfold runTop, GetTop. simpl.
  rewrite !length_app. simpl.
  replace (length (reg L) + 1 + length args - length args - 1)%nat
    with (length (reg L)) by lia.
  f_equal. f_equal.
  - rewrite <- app_assoc. rewrite app_nth2 by lia.
    now replace (length (reg L) - length (reg L))%nat with 0%nat by lia.
  - rewrite <- app_assoc.
    replace (length (reg L) + 1)%nat with (length (reg L ++ [fn])%list)
      by (rewrite length_app; simpl; lia).
    rewrite app_assoc. now rewrite drop_app_length.
Qed.

Lemma callLuaFunc_eq (name : string) (args : list LV) (s : Source) :
  callLuaFunc name args s =
  match invoke name args s with
  | (Raised e, i) => (Err e, restored i s)
  | (Returned rets, i) => (Ok tt, afterReturn rets i s)
  end.
Proof.
  unfold callLuaFunc, onL, CallByParam, invoke. simpl.
  rewrite pushes_reg. simpl. unfold PCall.
  rewrite runTop_pushed.
  destruct (call _ args (interp (l s))) as [[e|rets] i]; simpl.
  - unfold restored. do 2 f_equal. f_equal.
    rewrite <- app_assoc. now rewrite take_app_length.
  - unfold afterReturn. do 2 f_equal. f_equal.
    rewrite adjust_one. f_equal.
    rewrite <- app_assoc. now rewrite take_app_length.
Qed.


Lemma callLuaFunc_returned (name : string) (args rets : list LV) (s : Source) (i : Interp) :
  invoke name args s = (Returned rets, i) ->
  callLuaFunc name args s = (Ok tt, afterReturn rets i s).
Proof. intros H. rewrite callLuaFunc_eq. now rewrite H. Qed.

(** After a call that returned, the top of the stack is its first result. *)
Lemma Get_top_afterReturn (rets : list LV) (i : Interp) (s : Source) :
  Get (-1) (l (afterReturn rets i s)) = hd LNil rets.
Proof.
  unfold Get, GetTop, afterReturn. simpl.
  rewrite length_app. simpl.
  destruct (Z.of_nat (length (reg (l s)) + 1) + -1 <? 0)%Z eqn:E.
  - apply Z.ltb_lt in E. lia.
  - replace (Z.to_nat (Z.of_nat (length (reg (l s)) + 1) + -1)) with (length (reg (l s))) by lia.
    rewrite app_nth2 by lia.
    now replace (length (reg (l s)) - length (reg (l s)))%nat with 0%nat by lia.
Qed.

(** ** Protected invocation *)






(** ** The remember flag *)

(** C10: the remember flag does not reach the connector.  For every
    username, password and two-factor code the argument table built for
    [login_request] is the same for both values of the flag, its
    [remember_me] field is the string 1, and the two runs of [Login] agree
    from every state, in result and in final state. *)
Theorem Login_ignores_remember (username password twoFactor : string) :
  loginParam username password twoFactor true = loginParam username password twoFactor false
  /\ (forall remember : bool,
         loginParam username password twoFactor remember !! "remember_me" = Some "1")
  /\ (forall s : Source,
         loginRequest username password twoFactor true s
         = loginRequest username password twoFactor false s)
  /\ (forall s : Source,
         Login username password twoFactor true s = Login username password twoFactor false s).
Proof.
  split; [reflexivity |]. split; [| split; intros s; reflexivity].
  intros remember. unfold loginParam.
  rewrite lookup_insert_ne by discriminate.
  rewrite lookup_insert_ne by discriminate.
  rewrite lookup_insert_ne by discriminate.
  apply lookup_insert_eq.
Qed.

(** ** Tables as lists of entries *)

Lemma ForEach_entries {A : Type} (tb : Table) (cb : LV -> LV -> A -> A) (acc : A) :
  ForEach tb cb acc = fold_left (visit cb) (tableEntries tb) acc.
Proof. unfold ForEach, tableEntries. now rewrite !fold_left_app. Qed.

Lemma fold_visit_live {A : Type} (cb : LV -> LV -> A -> A) (es : list (LV * LV)) (acc : A) :
  fold_left (visit cb) es acc
  = fold_left (fun a kv => cb (fst kv) (snd kv) a)
              (List.filter (fun kv => negb (isNil (snd kv))) es) acc.
Proof.
  revert acc. induction es as [|[k v] es IH]; intros acc; simpl; [reflexivity|].
  unfold visit at 2. simpl. destruct (isNil v); simpl; apply IH.
Qed.

Lemma ForEach_live {A : Type} (tb : Table) (cb : LV -> LV -> A -> A) (acc : A) :
  ForEach tb cb acc = fold_left (fun a kv => cb (fst kv) (snd kv) a) (liveEntries tb) acc.
Proof. rewrite ForEach_entries. apply fold_visit_live. Qed.

(** ** List results: malformed elements are passed over *)

Lemma records_length {R : Type} (unwrap : LV -> option R) (vs : list LV) :
  (length (records unwrap vs) + length (malformed unwrap vs) = length vs)%nat.
Proof.
  induction vs as [|v vs IH]; simpl; [reflexivity|].
  unfold malformed in *. simpl. destruct (unwrap v); simpl; lia.
Qed.

Lemma collectStamped_fold (name : string) (es : list (LV * LV)) (acc : list Manga.t) :
  fold_left (fun a kv => collectStamped name (snd kv) a) es acc
  = (acc ++ List.map (Manga.setSource name) (records unwrapManga (List.map snd es)))%list.
Proof.
  revert acc. induction es as [|[k v] es IH]; intros acc; simpl.
  - now rewrite app_nil_r.
  - rewrite IH. unfold collectStamped, unwrapManga. simpl.
    destruct (asUserData v) as [value|]; [| reflexivity].
    destruct (asMangaPtr value); [| reflexivity].
    simpl. now rewrite <- app_assoc.
Qed.

Lemma collectChapter_fold (name : string) (es : list (LV * LV)) (acc : list Chapter.t) :
  fold_left (fun a kv => collectChapter name (snd kv) a) es acc
  = (acc ++ List.map (Chapter.setSource name) (records unwrapChapter (List.map snd es)))%list.
Proof.
  revert acc. induction es as [|[k v] es IH]; intros acc; simpl.
  - now rewrite app_nil_r.
  - rewrite IH. unfold collectChapter, unwrapChapter. simpl.
    destruct (asUserData v) as [value|]; [| reflexivity].
    destruct (asChapterPtr value); [| reflexivity].
    simpl. now rewrite <- app_assoc.
Qed.

Lemma collectManga_fold (es : list (LV * LV)) (acc : list Manga.t) :
  fold_left (fun a kv => collectManga (snd kv) a) es acc
  = (acc ++ records unwrapManga (List.map snd es))%list.
Proof.
  revert acc. induction es as [|[k v] es IH]; intros acc; simpl.
  - now rewrite app_nil_r.
  - rewrite IH. unfold collectManga, unwrapManga. simpl.
    destruct (asUserData v) as [value|]; [| reflexivity].
    destruct (asMangaPtr value); [| reflexivity].
    simpl. now rewrite <- app_assoc.
Qed.

(** C6: when a list-returning parse entry point returns a table, the call
    returns, without error, the records among the table's entries in the
    order the table is visited (stamped with the source name, except for
    [fetch_manga]); with n entries of which k do not unwrap, the list has
    n - k elements. *)
Theorem list_parse_skips_malformed
        (body : string) (s : Source) (rets : list LV) (i : Interp) (tb : Table) :
  asTable (hd LNil rets) = Some tb ->
  let n := length (liveValues tb) in
  (invoke "get_latest_updates" [LString body] s = (Returned rets, i) ->
   let k := length (malformed unwrapManga (liveValues tb)) in
   exists result,
     getLatestUpdates body s = (Ok result, afterReturn rets i s)
     /\ result = List.map (Manga.setSource (Name s)) (records unwrapManga (liveValues tb))
     /\ length result = (n - k)%nat)
  /\ (invoke "get_chapters" [LString body] s = (Returned rets, i) ->
      let k := length (malformed unwrapChapter (liveValues tb)) in
      exists result,
        getChapters body s = (Ok result, afterReturn rets i s)
        /\ result = List.map (Chapter.setSource (Name s)) (records unwrapChapter (liveValues tb))
        /\ length result = (n - k)%nat)
  /\ (invoke "fetch_manga" [LString body] s = (Returned rets, i) ->
      let k := length (malformed unwrapManga (liveValues tb)) in
      exists result,
        fetchManga body s = (Ok result, afterReturn rets i s)
        /\ result = records unwrapManga (liveValues tb)
        /\ length result = (n - k)%nat).
Proof.
  intros Htb n. split; [| split].
  - intros Hcall k. eexists. split; [| split; [reflexivity |]].
    + unfold getLatestUpdates, bind, get.
      rewrite (callLuaFunc_returned _ _ _ _ _ Hcall).
      rewrite Get_top_afterReturn, Htb. unfold ret. do 2 f_equal.
      rewrite ForEach_live. rewrite collectStamped_fold. reflexivity.
    + rewrite length_map.
      pose proof (records_length unwrapManga (liveValues tb)). subst n k. lia.
  - intros Hcall k. eexists. split; [| split; [reflexivity |]].
    + unfold getChapters, bind, get.
      rewrite (callLuaFunc_returned _ _ _ _ _ Hcall).
      rewrite Get_top_afterReturn, Htb. unfold ret. do 2 f_equal.
      rewrite ForEach_live. rewrite collectChapter_fold. reflexivity.
    + rewrite length_map.
      pose proof (records_length unwrapChapter (liveValues tb)). subst n k. lia.
  - intros Hcall k. eexists. split; [| split; [reflexivity |]].
    + unfold fetchManga, bind, get.
      rewrite (callLuaFunc_returned _ _ _ _ _ Hcall).
      rewrite Get_top_afterReturn, Htb. unfold ret. do 2 f_equal.
      rewrite ForEach_live. rewrite collectManga_fold. reflexivity.
    + pose proof (records_length unwrapManga (liveValues tb)). subst n k. lia.
Qed.

(** ** Single results *)

Lemma mustChapterPtr_eq (lv : LV) (s : Source) :
  mustChapterPtr lv s =
  match unwrapChapter lv with
  | Some c => (Ok c, s)
  | None =>
      (Panic (TypeAssertion (match asUserData lv with
                             | Some _ => "*source.Chapter"
                             | None => "*lua.LUserData"
                             end)), s)
  end.
Proof.
  unfold mustChapterPtr, unwrapChapter.
  destruct (asUserData lv) as [value|]; [| reflexivity].
  now destruct (asChapterPtr value).
Qed.

Lemma mustMangaPtr_eq (lv : LV) (s : Source) :
  mustMangaPtr lv s =
  match unwrapManga lv with
  | Some m => (Ok m, s)
  | None =>
      (Panic (TypeAssertion (match asUserData lv with
                             | Some _ => "*source.Manga"
                             | None => "*lua.LUserData"
                             end)), s)
  end.
Proof.
  unfold mustMangaPtr, unwrapManga.
  destruct (asUserData lv) as [value|]; [| reflexivity].
  now destruct (asMangaPtr value).
Qed.

(** [getChapter] in terms of what the script call does. *)
Lemma getChapter_eq (body : string) (s : Source) :
  getChapter body s =
  match invoke "get_chapter" [LString body] s with
  | (Raised e, i) => (Err e, restored i s)
  | (Returned rets, i) =>
      match unwrapChapter (hd LNil rets) with
      | Some c => (Ok c, afterReturn rets i s)
      | None =>
          (Panic (TypeAssertion (match asUserData (hd LNil rets) with
                                 | Some _ => "*source.Chapter"
                                 | None => "*lua.LUserData"
                                 end)), afterReturn rets i s)
      end
  end.
Proof.
  unfold getChapter, bind, get. rewrite callLuaFunc_eq.
  destruct (invoke "get_chapter" [LString body] s) as [[e|rets] i]; [reflexivity|].
  rewrite Get_top_afterReturn, mustChapterPtr_eq.
  now destruct (unwrapChapter (hd LNil rets)).
Qed.

Lemma getMangaDetails_eq (body : string) (s : Source) :
  getMangaDetails body s =
  match invoke "get_manga_details" [LString body] s with
  | (Raised e, i) => (Err e, restored i s)
  | (Returned rets, i) =>
      match unwrapManga (hd LNil rets) with
      | Some m => (Ok (Manga.setSource (Name s) m), afterReturn rets i s)
      | None =>
          (Panic (TypeAssertion (match asUserData (hd LNil rets) with
                                 | Some _ => "*source.Manga"
                                 | None => "*lua.LUserData"
                                 end)), afterReturn rets i s)
      end
  end.
Proof.
  unfold getMangaDetails, bind, get. rewrite callLuaFunc_eq.
  destruct (invoke "get_manga_details" [LString body] s) as [[e|rets] i]; [reflexivity|].
  rewrite Get_top_afterReturn, mustMangaPtr_eq.
  now destruct (unwrapManga (hd LNil rets)).
Qed.

(** A single-record parse entry point that returns anything but a handle
    on the expected record makes the host panic in its unchecked type
    assertion; no error is returned. *)
Lemma singular_parse_malformed_panics
      (body : string) (s : Source) (rets : list LV) (i : Interp) :
  (invoke "get_manga_details" [LString body] s = (Returned rets, i) ->
   unwrapManga (hd LNil rets) = None ->
   exists p, getMangaDetails body s = (Panic p, afterReturn rets i s))
  /\ (invoke "get_chapter" [LString body] s = (Returned rets, i) ->
      unwrapChapter (hd LNil rets) = None ->
      exists p, getChapter body s = (Panic p, afterReturn rets i s)).
Proof.
  split; intros Hcall Hbad.
  - rewrite getMangaDetails_eq, Hcall, Hbad. eauto.
  - rewrite getChapter_eq, Hcall, Hbad. eauto.
Qed.

(** C9: a successful [GetChapter c] returns the chapter the parse phase
    produced with its ID replaced by the ID of [c] and every other field,
    the source field included, as the parse phase left it; and it does
    succeed, with that result, whenever the describe and execute phases
    succeed and the parse entry point returns a chapter handle. *)
Theorem GetChapter_copies_input_ID (c : Chapter.t) (s : Source) :
  (forall (ch : Chapter.t) (s' : Source),
      GetChapter c s = (Ok ch, s') ->
      Chapter.ID ch = Chapter.ID c
      /\ exists parsed : Chapter.t,
          unwrapChapter (Get (-1) (l s')) = Some parsed
          /\ ch = Chapter.setID (Chapter.ID c) parsed
          /\ Chapter.Source ch = Chapter.Source parsed)
  /\ (forall (res : SourceResponse) (s1 : Source) (rets : list LV) (i : Interp)
             (parsed : Chapter.t),
         getChapterRequest c s = (Ok res, s1) ->
         invoke "get_chapter" [LString (RespBody res)] s1 = (Returned rets, i) ->
         unwrapChapter (hd LNil rets) = Some parsed ->
         GetChapter c s = (Ok (Chapter.setID (Chapter.ID c) parsed), afterReturn rets i s1)).
Proof.
  split.
  - intros ch s' H. unfold GetChapter, bind in H.
    destruct (getChapterRequest c s) as [[res| |] s1]; try discriminate.
    rewrite getChapter_eq in H.
    destruct (invoke "get_chapter" [LString (RespBody res)] s1) as [[e|rets] i];
      [discriminate|].
    destruct (unwrapChapter (hd LNil rets)) as [parsed|] eqn:Hu; [| discriminate].
    unfold ret in H. injection H as <- <-.
    split; [reflexivity|]. exists parsed.
    rewrite Get_top_afterReturn. auto.
  - intros res s1 rets i parsed Hreq Hcall Hu.
    unfold GetChapter, bind. rewrite Hreq, getChapter_eq, Hcall, Hu. reflexivity.
Qed.

(** ** Header maps *)

Lemma index_Add (key value : string) (h : Header.t) (c : string) :
  Header.index (Header.Add key value h) c
  = if decide (Header.canon key = c)
    then (Header.index h c ++ [value])%list else Header.index h c.
Proof.
  unfold Header.Add, Header.index. rewrite lookup_insert.
  destruct (decide (Header.canon key = c)) as [->|]; reflexivity.
Qed.

Lemma index_Del (key : string) (h : Header.t) (c : string) :
  Header.index (Header.Del key h) c
  = if decide (Header.canon key = c) then [] else Header.index h c.
Proof.
  unfold Header.Del, Header.index. rewrite lookup_delete.
  destruct (decide (Header.canon key = c)); reflexivity.
Qed.

Lemma index_Set (key value : string) (h : Header.t) (c : string) :
  Header.index (Header.Set_ key value h) c
  = if decide (Header.canon key = c) then [value] else Header.index h c.
Proof.
  unfold Header.Set_, Header.index. rewrite lookup_insert.
  destruct (decide (Header.canon key = c)); reflexivity.
Qed.

Lemma index_addAll (key : string) (ws : list string) (h : Header.t) (c : string) :
  Header.index (addAll key ws h) c
  = if decide (Header.canon key = c)
    then (Header.index h c ++ ws)%list else Header.index h c.
Proof.
  unfold addAll. revert h. induction ws as [|w ws IH]; intros h; simpl.
  - destruct (decide _); [now rewrite app_nil_r | reflexivity].
  - rewrite IH, index_Add.
    destruct (decide _); [now rewrite <- app_assoc | reflexivity].
Qed.

(** ** Login: replacement of the mentioned keys *)

Lemma headerAdd_fold (key : string) (es : list (LV * LV)) (h : Header.t) :
  fold_left (fun a kv => headerAdd key (LValue_String (snd kv)) a) es (Ok (Some h))
  = Ok (Some (addAll key (List.map LValue_String (List.map snd es)) h)).
Proof.
  unfold addAll. revert h. induction es as [|[k w] es IH]; intros h; simpl; [reflexivity|].
  apply IH.
Qed.

Lemma replaceKey_some (k v : LV) (h : Header.t) :
  replaceKey k v (Ok (Some h)) = Ok (Some (replaceIn (k, v) h)).
Proof.
  unfold replaceKey, replaceIn. simpl.
  destruct (asTable v) as [values|]; [| reflexivity].
  rewrite ForEach_live. simpl. apply headerAdd_fold.
Qed.

Lemma replaceKey_fold (es : list (LV * LV)) (h : Header.t) :
  fold_left (fun a kv => replaceKey (fst kv) (snd kv) a) es (Ok (Some h))
  = Ok (Some (fold_left (fun m kv => replaceIn kv m) es h)).
Proof.
  revert h. induction es as [|[k v] es IH]; intros h; simpl; [reflexivity|].
  rewrite replaceKey_some. apply IH.
Qed.

Lemma index_replaceIn (kv : LV * LV) (h : Header.t) (K : string) :
  Header.index (replaceIn kv h) (Header.canon K)
  = match asTable (snd kv) with
    | Some values =>
        if mentionsName K kv then rendered values else Header.index h (Header.canon K)
    | None => Header.index h (Header.canon K)
    end.
Proof.
  unfold replaceIn, mentionsName.
  destruct (asTable (snd kv)) as [values|]; [| reflexivity].
  rewrite index_addAll, index_Del.
  destruct (decide (Header.canon (LValue_String (fst kv)) = Header.canon K)) as [E|E].
  - rewrite E, String.eqb_refl. reflexivity.
  - apply String.eqb_neq in E. now rewrite E.
Qed.

Lemma index_replace_unmentioned (es : list (LV * LV)) (h : Header.t) (K : string) :
  existsb (mentionsName K) es = false ->
  Header.index (fold_left (fun m kv => replaceIn kv m) es h) (Header.canon K)
  = Header.index h (Header.canon K).
Proof.
  revert h. induction es as [|kv es IH]; intros h H; simpl in *; [reflexivity|].
  apply orb_false_iff in H as [H1 H2].
  rewrite IH by assumption. rewrite index_replaceIn.
  destruct (asTable (snd kv)); [now rewrite H1 | reflexivity].
Qed.

(** [login] from a source whose header is allocated, when the script
    returns a table. *)
Lemma login_table (resp : SourceResponse) (s : Source) (h : Header.t)
      (rets : list LV) (i : Interp) (tbl : Table) :
  header s = Some h ->
  invoke "login" [luar_New (l s) (ValHeaderMap (RespHeader resp)); LString (RespBody resp)] s
  = (Returned rets, i) ->
  asTable (hd LNil rets) = Some tbl ->
  login resp s
  = (Ok tt, setHeader (Some (fold_left (fun m kv => replaceIn kv m) (liveEntries tbl) h))
                      (afterReturn rets i s)).
Proof.
  intros Hh Hcall Htbl. unfold login, bind, get.
  rewrite (callLuaFunc_returned _ _ _ _ _ Hcall).
  rewrite Get_top_afterReturn, Htbl.
  replace (header (afterReturn rets i s)) with (Some h) by (symmetry; exact Hh).
  rewrite ForEach_live, replaceKey_fold. reflexivity.
Qed.

(** [login] on an allocated header leaves it allocated. *)
Lemma login_keeps_header_allocated (resp : SourceResponse) (s s' : Source) (h : Header.t) :
  header s = Some h ->
  login resp s = (Ok tt, s') ->
  exists h' : Header.t, header s' = Some h'.
Proof.
  intros Hh H. unfold login, bind, get in H. rewrite callLuaFunc_eq in H.
  destruct (invoke "login" _ s) as [[e|rets] i]; [discriminate|].
  rewrite Get_top_afterReturn in H.
  destruct (asTable (hd LNil rets)) as [tbl|]; [| discriminate].
  replace (header (afterReturn rets i s)) with (Some h) in H by (symmetry; exact Hh).
  rewrite ForEach_live, replaceKey_fold in H.
  injection H as <-. eexists. reflexivity.
Qed.

(** The describe and execute phases do not touch the session headers. *)
Lemma callLuaFunc_header (name : string) (args : list LV) (s : Source) :
  header (snd (callLuaFunc name args s)) = header s.
Proof.
  rewrite callLuaFunc_eq. now destruct (invoke name args s) as [[e|rets] i].
Qed.

Lemma doRequest_header (req : Request) (s : Source) :
  header (snd (doRequest req s)) = header s.
Proof.
  unfold doRequest. destruct (httpClient s) as [c|]; [| reflexivity].
  now destruct (client_Do (sent c) req) as [err|[hdr [err|body]]].
Qed.

Lemma createRequest_state (s : Source) : snd (createRequest s) = s.
Proof.
  unfold createRequest.
  destruct (asTable (Get (-1) (l s))) as [req|]; [| reflexivity].
  destruct (asTable (RawGetString req "data")) as [data|].
  - destruct (String.eqb _ "multipart/form-data");
      now destruct (http_NewRequest _ _ _).
  - now destruct (http_NewRequest _ _ _).
Qed.

Lemma loginRequest_header (username password twoFactor : string) (remember : bool)
      (s : Source) :
  header (snd (loginRequest username password twoFactor remember s)) = header s.
Proof.
  unfold loginRequest, bind, get.
  pose proof (callLuaFunc_header "login_request"
                [luar_New (l s) (ValStringMap (loginParam username password twoFactor remember))]
                s) as Hc.
  destruct (callLuaFunc "login_request" _ s) as [[[]|e|p] s1]; simpl in Hc; try exact Hc.
  pose proof (createRequest_state s1) as Hs.
  destruct (createRequest s1) as [[req|e|p] s2]; simpl in Hs; subst s2; try exact Hc.
  pose proof (doRequest_header req s1) as Hd.
  destruct (doRequest req s1) as [[resp|e|p] s3]; simpl in *; congruence.
Qed.

(** C1 (as amended): take a [Login] call on a source whose header is
    allocated, whose describe and execute phases succeed and whose parse
    phase returns a table.  The call succeeds and the session headers
    change as follows.  For an entry of the table whose value is a list,
    provided no entry visited after it gives a list for the same canonical
    header name, the value list of that name is exactly the returned list
    (rendered as strings): replacement, not append.  A name for which no
    entry gives a list keeps the value list it had before the call. *)
Theorem login_replaces_mentioned_keys
        (username password twoFactor : string) (remember : bool)
        (s s1 : Source) (resp : SourceResponse) (h : Header.t)
        (rets : list LV) (i : Interp) (tbl : Table) :
  header s = Some h ->
  loginRequest username password twoFactor remember s = (Ok resp, s1) ->
  invoke "login" [luar_New (l s1) (ValHeaderMap (RespHeader resp)); LString (RespBody resp)] s1
  = (Returned rets, i) ->
  asTable (hd LNil rets) = Some tbl ->
  exists h' : Header.t,
    Login username password twoFactor remember s
    = (Ok tt, setHeader (Some h') (afterReturn rets i s1))
    /\ (forall before k v values after,
           liveEntries tbl = (before ++ (k, v) :: after)%list ->
           asTable v = Some values ->
           existsb (mentionsName (LValue_String k)) after = false ->
           Header.Values (LValue_String k) h' = rendered values)
    /\ (forall K : string,
           existsb (mentionsName K) (liveEntries tbl) = false ->
           Header.Values K h' = Header.Values K h).
Proof.
  intros Hh Hreq Hcall Htbl.
  assert (Hh1 : header s1 = Some h).
  { pose proof (loginRequest_header username password twoFactor remember s) as Hk.
    rewrite Hreq in Hk. simpl in Hk. congruence. }
  eexists. split; [| split].
  - unfold Login, bind. rewrite Hreq.
    rewrite (login_table resp s1 h rets i tbl Hh1 Hcall Htbl). reflexivity.
  - intros before k v values after Hsplit Hv Hafter.
    unfold Header.Values. rewrite Hsplit, fold_left_app. simpl.
    rewrite index_replace_unmentioned by assumption.
    rewrite index_replaceIn. simpl. rewrite Hv.
    unfold mentionsName. simpl. now rewrite Hv, String.eqb_refl.
  - intros K HK. unfold Header.Values. now apply index_replace_unmentioned.
Qed.

(** ** The request builder *)

Lemma createRequest_eq (s : Source) :
  createRequest s =
  match asTable (Get (-1) (l s)) with
  | None => (Err (errorString "table expected"), s)
  | Some req =>
      match http_NewRequest (methodText req) (urlText req) (bodyOf s req) with
      | inl err => (Err err, s)
      | inr r =>
          (Ok {| Method := Method r; ReqURL := ReqURL r;
                 ReqHeader := outbound s req; ReqBody := ReqBody r |}, s)
      end
  end.
Proof.
  unfold createRequest.
  destruct (asTable (Get (-1) (l s))) as [req|]; [| reflexivity].
  assert (Hm : match asTable (RawGetString req "header") with
               | Some headers => ForEach headers setHeaderEntry (headerBuilder s)
               | None => headerBuilder s
               end = merged s req).
  { unfold merged, descriptorHeaders.
    destruct (asTable (RawGetString req "header")); [apply ForEach_live | reflexivity]. }
  rewrite Hm. unfold outbound, bodyOf, encodesMultipart, methodText, urlText.
  destruct (asTable (RawGetString req "data")) as [data|]; [| reflexivity].
  destruct (String.eqb (Header.Get "Content-Type" (merged s req)) "multipart/form-data");
    reflexivity.
Qed.

Lemma index_setHeaderEntry (kv : LV * LV) (h : Header.t) (K : string) :
  Header.index (setHeaderEntry (fst kv) (snd kv) h) (Header.canon K)
  = if setsName K kv then [LValue_String (snd kv)] else Header.index h (Header.canon K).
Proof.
  unfold setHeaderEntry, setsName. rewrite index_Set.
  destruct (decide (Header.canon (LValue_String (fst kv)) = Header.canon K)) as [E|E].
  - now rewrite E, String.eqb_refl.
  - apply String.eqb_neq in E. now rewrite E.
Qed.

Lemma index_set_unset (es : list (LV * LV)) (h : Header.t) (K : string) :
  existsb (setsName K) es = false ->
  Header.index (fold_left (fun m kv => setHeaderEntry (fst kv) (snd kv) m) es h)
               (Header.canon K)
  = Header.index h (Header.canon K).
Proof.
  revert h. induction es as [|kv es IH]; intros h H; simpl in *; [reflexivity|].
  apply orb_false_iff in H as [H1 H2].
  rewrite IH by assumption. now rewrite index_setHeaderEntry, H1.
Qed.

Lemma index_set_last (before after : list (LV * LV)) (k v : LV) (h : Header.t) :
  existsb (setsName (LValue_String k)) after = false ->
  Header.index
    (fold_left (fun m kv => setHeaderEntry (fst kv) (snd kv) m)
               (before ++ (k, v) :: after)%list h)
    (Header.canon (LValue_String k))
  = [LValue_String v].
Proof.
  intros H. rewrite fold_left_app. simpl.
  rewrite index_set_unset by assumption.
  rewrite (index_setHeaderEntry (k, v)). unfold setsName. simpl.
  now rewrite String.eqb_refl.
Qed.

Lemma canon_User_Agent : Header.canon "User-Agent" = "User-Agent".
Proof. reflexivity. Qed.

Lemma canon_Content_Type : Header.canon "Content-Type" = "Content-Type".
Proof. reflexivity. Qed.

Lemma index_headerBuilder (s : Source) (c : string) :
  Header.index (headerBuilder s) c
  = if String.eqb c "User-Agent" then ["Tanoshi/0.1.0"] else Header.index (session s) c.
Proof.
  unfold headerBuilder, session, Header.Clone. rewrite index_Set, canon_User_Agent.
  destruct (decide ("User-Agent" = c)) as [<-|E]; [reflexivity|].
  assert (String.eqb c "User-Agent" = false) as -> by (apply String.eqb_neq; congruence).
  now destruct (header s).
Qed.

Lemma index_outbound (s : Source) (req : Table) (c : string) :
  Header.index (outbound s req) c
  = if encodesMultipart s req && String.eqb c "Content-Type"
    then [FormDataContentType (randomBoundary (requestsSent s))]
    else Header.index (merged s req) c.
Proof.
  unfold outbound. destruct (encodesMultipart s req); simpl; [| reflexivity].
  rewrite index_Set, canon_Content_Type.
  destruct (decide ("Content-Type" = c)) as [<-|E]; [reflexivity|].
  now assert (String.eqb c "Content-Type" = false) as -> by (apply String.eqb_neq; congruence).
Qed.

Lemma createRequest_built (s : Source) (req : Table) (r0 : Request) :
  asTable (Get (-1) (l s)) = Some req ->
  http_NewRequest (methodText req) (urlText req) (bodyOf s req) = inr r0 ->
  createRequest s
  = (Ok {| Method := Method r0; ReqURL := ReqURL r0;
           ReqHeader := outbound s req; ReqBody := ReqBody r0 |}, s).
Proof. intros Ht Hn. now rewrite createRequest_eq, Ht, Hn. Qed.

(** The last descriptor entry for a name decides the outbound value of
    that name, unless the multipart encoder takes the name over. *)
Lemma outbound_descriptor_entry (s : Source) (req : Table)
      (before after : list (LV * LV)) (k v : LV) :
  descriptorHeaders req = (before ++ (k, v) :: after)%list ->
  existsb (setsName (LValue_String k)) after = false ->
  encoderSets s req (LValue_String k) = false ->
  Header.Values (LValue_String k) (outbound s req) = [LValue_String v].
Proof.
  intros Hsplit Hafter Henc. unfold Header.Values.
  rewrite index_outbound. unfold encoderSets in Henc. rewrite Henc.
  unfold merged. rewrite Hsplit. now apply index_set_last.
Qed.

(** A name no descriptor entry sets gets the engine's [User-Agent] if it is
    that name, and the session's value otherwise. *)
Lemma outbound_unset_name (s : Source) (req : Table) (K : string) :
  existsb (setsName K) (descriptorHeaders req) = false ->
  encoderSets s req K = false ->
  Header.Values K (outbound s req)
  = if String.eqb (Header.canon K) "User-Agent"
    then ["Tanoshi/0.1.0"] else Header.Values K (session s).
Proof.
  intros Hunset Henc. unfold Header.Values.
  rewrite index_outbound. unfold encoderSets in Henc. rewrite Henc.
  unfold merged. rewrite index_set_unset by assumption.
  apply index_headerBuilder.
Qed.

(** C5 (as amended): for an entry of the descriptor's header table, the
    outbound header of that name is exactly the entry's value (rendered as
    a string), whatever the session headers and the engine default hold
    under the name, provided no entry visited later sets the same
    canonical name and the name is not [Content-Type] of a request whose
    data table is encoded as a multipart form. *)
Theorem descriptor_header_wins (s : Source) (req : Table) (r0 : Request) :
  asTable (Get (-1) (l s)) = Some req ->
  http_NewRequest (methodText req) (urlText req) (bodyOf s req) = inr r0 ->
  exists r : Request,
    createRequest s = (Ok r, s)
    /\ forall before k v after,
        descriptorHeaders req = (before ++ (k, v) :: after)%list ->
        existsb (setsName (LValue_String k)) after = false ->
        encoderSets s req (LValue_String k) = false ->
        Header.Values (LValue_String k) (ReqHeader r) = [LValue_String v].
Proof.
  intros Ht Hn. eexists. split; [exact (createRequest_built s req r0 Ht Hn)|].
  intros before k v after Hsplit Hafter Henc. simpl.
  now apply (outbound_descriptor_entry s req before after k v).
Qed.

(** C2 (as amended): outbound header precedence is, highest to lowest,
    the descriptor's header table, then the engine default, then the
    session headers.  A name the descriptor sets has the descriptor's
    value; a name it does not set has the value [Tanoshi/0.1.0] if it is
    [User-Agent], whatever the session holds, and the session's value list
    otherwise (the [Content-Type] of a multipart request apart). *)
Theorem header_precedence (s : Source) (req : Table) (r0 : Request) :
  asTable (Get (-1) (l s)) = Some req ->
  http_NewRequest (methodText req) (urlText req) (bodyOf s req) = inr r0 ->
  exists r : Request,
    createRequest s = (Ok r, s)
    /\ (forall before k v after,
           descriptorHeaders req = (before ++ (k, v) :: after)%list ->
           existsb (setsName (LValue_String k)) after = false ->
           encoderSets s req (LValue_String k) = false ->
           Header.Values (LValue_String k) (ReqHeader r) = [LValue_String v])
    /\ (existsb (setsName "User-Agent") (descriptorHeaders req) = false ->
        Header.Values "User-Agent" (ReqHeader r) = ["Tanoshi/0.1.0"])
    /\ (forall K : string,
           existsb (setsName K) (descriptorHeaders req) = false ->
           encoderSets s req K = false ->
           String.eqb (Header.canon K) "User-Agent" = false ->
           Header.Values K (ReqHeader r) = Header.Values K (session s)).
Proof.
  intros Ht Hn. eexists. split; [exact (createRequest_built s req r0 Ht Hn)|].
  simpl. split; [| split].
  - intros before k v after Hsplit Hafter Henc.
    unfold Header.Values. rewrite index_outbound.
    unfold encoderSets in Henc. rewrite Henc.
    unfold merged. rewrite Hsplit. now apply index_set_last.
  - intros Hunset.
    rewrite outbound_unset_name; [reflexivity | assumption |].
    unfold encoderSets. rewrite canon_User_Agent. apply andb_false_r.
  - intros K Hunset Henc Hua.
    rewrite outbound_unset_name by assumption. now rewrite Hua.
Qed.

(** ** Descriptors without a method or a URL *)

Lemma request_methods_send (s : Source) :
  (forall page, getLatestUpdatesRequest page
     = bind (callLuaFunc "get_latest_updates_request" [LNumber (Number_of_int page)])
            (fun _ => sendDescribed))
  /\ (forall f, fetchMangaRequest f
     = bind (callLuaFunc "fetch_manga_request" [ToLTable f]) (fun _ => sendDescribed))
  /\ (forall m, getMangaDetailsRequest m s
     = bind (callLuaFunc "get_manga_details_request" [luar_New (l s) (ValManga m)])
            (fun _ => sendDescribed) s)
  /\ (forall m, getChaptersRequest m s
     = bind (callLuaFunc "get_chapters_request" [luar_New (l s) (ValManga m)])
            (fun _ => sendDescribed) s)
  /\ (forall c, getChapterRequest c s
     = bind (callLuaFunc "get_chapter_request" [luar_New (l s) (ValChapter c)])
            (fun _ => sendDescribed) s)
  /\ (forall u p t r, loginRequest u p t r s
     = bind (callLuaFunc "login_request" [luar_New (l s) (ValStringMap (loginParam u p t r))])
            (fun _ => sendDescribed) s).
Proof. repeat split. Qed.




(** [byteLe] is the order of the byte values. *)
Lemma byteLe_spec (c d : ascii) :
  neturl.byteLe c d = (N_of_ascii c <=? N_of_ascii d)%N.
Proof.
  assert (Hall : forallb (fun x =>
                   forallb (fun y => Bool.eqb (neturl.byteLe x y)
                                              (N_of_ascii x <=? N_of_ascii y)%N)
                           (List.map ascii_of_nat (List.seq 0 256)))
                   (List.map ascii_of_nat (List.seq 0 256)) = true)
    by (vm_compute; reflexivity).
  assert (Hin : forall a : ascii, In a (List.map ascii_of_nat (List.seq 0 256))).
  { intros a. apply List.in_map_iff. exists (nat_of_ascii a).
    split; [apply ascii_nat_embedding|].
    apply List.in_seq. pose proof (nat_ascii_bounded a). lia. }
  pose proof (proj1 (List.forallb_forall _ _) Hall c (Hin c)) as Hc.
  pose proof (proj1 (List.forallb_forall _ _) Hc d (Hin d)) as Hd.
  now apply Bool.eqb_prop in Hd.
Qed.


Lemma http_NewRequest_invalid (method url : string) (body : Body) :
  validMethod (if String.eqb method "" then "GET" else method) = false ->
  http_NewRequest method url body
  = inl (invalidMethod (if String.eqb method "" then "GET" else method)).
Proof. intros H. unfold http_NewRequest. now rewrite H. Qed.



(** ** Loading a source *)

Lemma removelast_snoc (r : list LV) (v : LV) : removelast (r ++ [v])%list = r.
Proof. apply removelast_last. Qed.

Lemma getName_eq (s : Source) :
  getName s =
  match invoke "name" [] s with
  | (Raised e, i) => (Err e, restored i s)
  | (Returned rets, i) =>
      let v := Get 1 (l (afterReturn rets i s)) in
      if LVCanConvToString v
      then (Ok tt, setName (LValue_String v) (restored i s))
      else (Panic (LuaRaise (ApiError "bad argument (string expected)")),
            afterReturn rets i s)
  end.
Proof.
  unfold getName, bind. rewrite callLuaFunc_eq.
  destruct (invoke "name" [] s) as [[e|rets] i]; [reflexivity|].
  unfold onL at 1. unfold CheckString. cbv zeta.
  destruct (LVCanConvToString (Get 1 (l (afterReturn rets i s)))) eqn:Hc.
  - unfold modify, onL. simpl. unfold GetTop. simpl.
    rewrite length_app. simpl length.
    replace (length (reg (l s)) + 1 =? 0)%nat with false
      by (symmetry; apply Nat.eqb_neq; lia).
    rewrite removelast_snoc. reflexivity.
  - reflexivity.
Qed.

Lemma getBaseURL_eq (s : Source) :
  getBaseURL s =
  match invoke "base_url" [] s with
  | (Raised e, i) => (Err e, restored i s)
  | (Returned rets, i) =>
      let v := Get 1 (l (afterReturn rets i s)) in
      if LVCanConvToString v
      then (Ok tt, setURL (LValue_String v) (restored i s))
      else (Panic (LuaRaise (ApiError "bad argument (string expected)")),
            afterReturn rets i s)
  end.
Proof.
  unfold getBaseURL, bind. rewrite callLuaFunc_eq.
  destruct (invoke "base_url" [] s) as [[e|rets] i]; [reflexivity|].
  unfold onL at 1. unfold CheckString. cbv zeta.
  destruct (LVCanConvToString (Get 1 (l (afterReturn rets i s)))) eqn:Hc.
  - unfold modify, onL. simpl. unfold GetTop. simpl.
    rewrite length_app. simpl length.
    replace (length (reg (l s)) + 1 =? 0)%nat with false
      by (symmetry; apply Nat.eqb_neq; lia).
    rewrite removelast_snoc. reflexivity.
  - reflexivity.
Qed.

Lemma DoFile_closed (path : string) (L L' : LState) (r : outcome unit) :
  DoFile path L = (r, L') -> closed L' = closed L.
Proof.
  unfold DoFile, PCall. destruct (LoadFile path (interp L)) as [err|fn].
  - now intros [= _ <-].
  - destruct (runTop 0 (Push fn L)) as [base [[e|rets] i]]; now intros [= _ <-].
Qed.

Lemma prepared_open : closed (l prepared) = false.
Proof. reflexivity. Qed.

(** [LoadSourceFromPath] once the file has run. *)
Lemma Load_after_DoFile (path : string) (L0 : LState) :
  DoFile path (l prepared) = (Ok tt, L0) ->
  LoadSourceFromPath path =
  match closeOnErr getName (setL L0 prepared) with
  | (Ok _, s1) =>
      match closeOnErr getBaseURL s1 with
      | (Ok _, s2) => (Ok s2, s2)
      | (Err e, s2) => (Err e, s2)
      | (Panic p, s2) => (Panic p, s2)
      end
  | (Err e, s1) => (Err e, s1)
  | (Panic p, s1) => (Panic p, s1)
  end.
Proof.
  intros HD. unfold LoadSourceFromPath, loadBody, bind, modify.
  change (setL (registerBridge (l (setHeader (Some Header.make)
            (setClient (Some {| sent := [] |}) newSource))))
            (setHeader (Some Header.make) (setClient (Some {| sent := [] |}) newSource)))
    with prepared.
  unfold onL. rewrite HD.
  destruct (closeOnErr getName (setL L0 prepared)) as [[[]|e|p] s1]; [| reflexivity..].
  destruct (closeOnErr getBaseURL s1) as [[[]|e|p] s2]; reflexivity.
Qed.

Lemma slotOne_empty_stack (rets : list LV) (i : Interp) (s : Source) :
  reg (l s) = [] -> slotOne rets i s = hd LNil rets.
Proof. intros H. unfold slotOne, Get, GetTop, afterReturn. simpl. now rewrite H. Qed.

(** A source that [LoadSourceFromPath] returns has an allocated, empty
    header and a client that has sent nothing. *)
Lemma Load_allocates_header (path : string) (src final : Source) :
  LoadSourceFromPath path = (Ok src, final) ->
  header src = Some Header.make /\ httpClient src = Some {| sent := [] |}.
Proof.
  intros H.
  destruct (DoFile path (l prepared)) as [[[]|e|p] L0] eqn:HD.
  - rewrite (Load_after_DoFile path L0 HD) in H.
    unfold closeOnErr in H. rewrite getName_eq in H.
    destruct (invoke "name" [] (setL L0 prepared)) as [[e1|r1] i1]; [discriminate|].
    cbv zeta in H.
    destruct (LVCanConvToString (Get 1 (l (afterReturn r1 i1 (setL L0 prepared)))));
      [| discriminate].
    rewrite getBaseURL_eq in H.
    destruct (invoke "base_url" [] _) as [[e2|r2] i2]; [discriminate|].
    cbv zeta in H.
    destruct (LVCanConvToString _); [| discriminate].
    injection H as <- _. split; reflexivity.
  - unfold LoadSourceFromPath, loadBody, bind, modify, onL in H.
    change (l (setL (registerBridge (l (setHeader (Some Header.make)
              (setClient (Some {| sent := [] |}) newSource))))
              (setHeader (Some Header.make) (setClient (Some {| sent := [] |}) newSource))))
      with (l prepared) in H.
    rewrite HD in H. discriminate.
  - unfold LoadSourceFromPath, loadBody, bind, modify, onL in H.
    change (l (setL (registerBridge (l (setHeader (Some Header.make)
              (setClient (Some {| sent := [] |}) newSource))))
              (setHeader (Some Header.make) (setClient (Some {| sent := [] |}) newSource))))
      with (l prepared) in H.
    rewrite HD in H. discriminate.
Qed.

(** C4 (as amended): [LoadSourceFromPath] returns a source only after the
    file ran and both the [name] and the [base_url] entry point returned
    without fault, each leaving a string or a number in the stack slot
    that is read; [Name] and [URL] are those values as strings, which may
    be empty, and the context is open.  When the file fails to run, or an
    entry point raises (as an undefined one does), the error is returned
    and no source; in the entry point case the context is closed. *)
Theorem Load_connector_or_error (path : string) :
  (forall src final : Source,
      LoadSourceFromPath path = (Ok src, final) ->
      src = final /\ closed (l src) = false
      /\ exists L0 r1 i1 r2 i2,
          DoFile path (l prepared) = (Ok tt, L0)
          /\ invoke "name" [] (setL L0 prepared) = (Returned r1, i1)
          /\ LVCanConvToString (slotOne r1 i1 (setL L0 prepared)) = true
          /\ Name src = LValue_String (slotOne r1 i1 (setL L0 prepared))
          /\ invoke "base_url" [] (named r1 i1 (setL L0 prepared)) = (Returned r2, i2)
          /\ LVCanConvToString (slotOne r2 i2 (named r1 i1 (setL L0 prepared))) = true
          /\ URL src = LValue_String (slotOne r2 i2 (named r1 i1 (setL L0 prepared))))
  /\ (forall (e : error) (L : LState),
         DoFile path (l prepared) = (Err e, L) ->
         fst (LoadSourceFromPath path) = Err e)
  /\ (forall (L0 : LState) (e : error) (i : Interp),
         DoFile path (l prepared) = (Ok tt, L0) ->
         invoke "name" [] (setL L0 prepared) = (Raised e, i) ->
         exists final : Source,
           LoadSourceFromPath path = (Err e, final) /\ closed (l final) = true)
  /\ (forall (L0 : LState) (r1 : list LV) (i1 : Interp) (e : error) (i : Interp),
         DoFile path (l prepared) = (Ok tt, L0) ->
         invoke "name" [] (setL L0 prepared) = (Returned r1, i1) ->
         LVCanConvToString (slotOne r1 i1 (setL L0 prepared)) = true ->
         invoke "base_url" [] (named r1 i1 (setL L0 prepared)) = (Raised e, i) ->
         exists final : Source,
           LoadSourceFromPath path = (Err e, final) /\ closed (l final) = true).
Proof.
  split; [| split; [| split]].
  - intros src final H.
    destruct (DoFile path (l prepared)) as [[[]|e|p] L0] eqn:HD.
    + rewrite (Load_after_DoFile path L0 HD) in H.
      pose proof (DoFile_closed _ _ _ _ HD) as Hopen. rewrite prepared_open in Hopen.
      unfold closeOnErr in H. rewrite getName_eq in H.
      destruct (invoke "name" [] (setL L0 prepared)) as [[e1|r1] i1] eqn:H1;
        [discriminate|].
      cbv zeta in H. fold (slotOne r1 i1 (setL L0 prepared)) in H.
      destruct (LVCanConvToString (slotOne r1 i1 (setL L0 prepared))) eqn:Hc1;
        [| discriminate].
      fold (named r1 i1 (setL L0 prepared)) in H.
      rewrite getBaseURL_eq in H.
      destruct (invoke "base_url" [] (named r1 i1 (setL L0 prepared))) as [[e2|r2] i2] eqn:H2;
        [discriminate|].
      cbv zeta in H. fold (slotOne r2 i2 (named r1 i1 (setL L0 prepared))) in H.
      destruct (LVCanConvToString (slotOne r2 i2 (named r1 i1 (setL L0 prepared)))) eqn:Hc2;
        [| discriminate].
      injection H as <- <-.
      split; [reflexivity|]. split; [exact Hopen|].
      exists L0, r1, i1, r2, i2. repeat (split; [assumption || reflexivity |]).
      reflexivity.
    + unfold LoadSourceFromPath, loadBody, bind, modify, onL in H.
      change (l (setL (registerBridge (l (setHeader (Some Header.make)
                (setClient (Some {| sent := [] |}) newSource))))
                (setHeader (Some Header.make) (setClient (Some {| sent := [] |}) newSource))))
        with (l prepared) in H.
      rewrite HD in H. discriminate.
    + unfold LoadSourceFromPath, loadBody, bind, modify, onL in H.
      change (l (setL (registerBridge (l (setHeader (Some Header.make)
                (setClient (Some {| sent := [] |}) newSource))))
                (setHeader (Some Header.make) (setClient (Some {| sent := [] |}) newSource))))
        with (l prepared) in H.
      rewrite HD in H. discriminate.
  - intros e L HD.
    unfold LoadSourceFromPath, loadBody, bind, modify, onL.
    change (l (setL (registerBridge (l (setHeader (Some Header.make)
              (setClient (Some {| sent := [] |}) newSource))))
              (setHeader (Some Header.make) (setClient (Some {| sent := [] |}) newSource))))
      with (l prepared).
    now rewrite HD.
  - intros L0 e i HD H1.
    rewrite (Load_after_DoFile path L0 HD).
    unfold closeOnErr. rewrite getName_eq, H1.
    eexists. split; reflexivity.
  - intros L0 r1 i1 e i HD H1 Hc1 H2.
    rewrite (Load_after_DoFile path L0 HD).
    unfold closeOnErr at 1. rewrite getName_eq, H1. cbv zeta.
    fold (slotOne r1 i1 (setL L0 prepared)). rewrite Hc1.
    fold (named r1 i1 (setL L0 prepared)).
    unfold closeOnErr. rewrite getBaseURL_eq, H2.
    eexists. split; reflexivity.
Qed.

End HostProps.

(** * Concrete runs *)

Module Runs.

Import Demo.

Ltac run := vm_compute; reflexivity.

Lemma pair_inv {A B : Type} (a c : A) (b d : B) : (a, b) = (c, d) -> a = c /\ b = d.
Proof. intros H. now inversion H. Qed.

(** C1, counterexample: a login table that gives a list for [cookie] and
    one for [Cookie].  Whichever of the two is visited first, its list is
    not the value list of its name after the call: the list visited last
    replaces it. *)
Lemma Login_two_spellings_last_wins :
  let out1 := @Login (runtime (loginReturning twoSpellings)) "user" "secret" "" true
                     (loaded (loginReturning twoSpellings) "demo" ∅) in
  let out2 := @Login (runtime (loginReturning (rev twoSpellings))) "user" "secret" "" true
                     (loaded (loginReturning (rev twoSpellings)) "demo" ∅) in
  (fst out1 = Ok tt
   /\ In ("cookie", listOf [LString "a"]) twoSpellings
   /\ Header.Values "cookie" (session (snd out1)) = ["b"]
   /\ Header.Values "cookie" (session (snd out1)) <> ["a"])
  /\ (fst out2 = Ok tt
      /\ In ("Cookie", listOf [LString "b"]) (rev twoSpellings)
      /\ Header.Values "Cookie" (session (snd out2)) = ["a"]
      /\ Header.Values "Cookie" (session (snd out2)) <> ["b"]).
Proof.
  intros out1 out2.
  assert (E1 : (fst out1, Header.Values "cookie" (session (snd out1))) = (Ok tt, ["b"]))
    by run.
  assert (E2 : (fst out2, Header.Values "Cookie" (session (snd out2))) = (Ok tt, ["a"]))
    by run.
  destruct (pair_inv _ _ _ _ E1) as [R1 V1]. destruct (pair_inv _ _ _ _ E2) as [R2 V2].
  split; (split; [assumption|]); (split; [left; reflexivity|]);
    (split; [assumption|]).
  - rewrite V1. discriminate.
  - rewrite V2. discriminate.
Qed.

(** C1, witness: a login that returns a fresh cookie list and a text
    entry, on a session that holds an old cookie and another header. *)
Lemma login_replaces_mentioned_keys_witness :
  let sc := loginReturning freshCookies in
  let s := loaded sc "demo" oldSession in
  let s1 := snd (@loginRequest (runtime sc) "user" "secret" "" true s) in
  let args := [@luar_New (runtime sc) (l s1) (ValHeaderMap (RespHeader response));
               LString (RespBody response)] in
  let tbl := @mkTable (runtime sc) [] freshCookies [] in
  let values := @mkTable (runtime sc) [LString "sid=1"; LString "theme=dark"] [] [] in
  header s = Some oldSession
  /\ @loginRequest (runtime sc) "user" "secret" "" true s = (Ok response, s1)
  /\ @invoke (runtime sc) "login" args s1 = (Returned [tableOf freshCookies], sc)
  /\ @asTable (runtime sc) (hd LNil [tableOf freshCookies]) = Some tbl
  /\ exists h' : Header.t,
      @Login (runtime sc) "user" "secret" "" true s
      = (Ok tt, setHeader (Some h') (@afterReturn (runtime sc) [tableOf freshCookies] sc s1))
      /\ Header.Values "cookie" h' = rendered values
      /\ rendered values = ["sid=1"; "theme=dark"]
      /\ Header.Values "cookie" oldSession = ["sid=0"]
      /\ Header.Values "X-Old" h' = Header.Values "X-Old" oldSession.
Proof.
  intros sc s s1 args tbl values.
  assert (H1 : header s = Some oldSession) by reflexivity.
  assert (H0 : @loginRequest (runtime sc) "user" "secret" "" true s = (Ok response, s1))
    by run.
  assert (H2 : @invoke (runtime sc) "login" args s1 = (Returned [tableOf freshCookies], sc))
    by run.
  assert (H3 : @asTable (runtime sc) (hd LNil [tableOf freshCookies]) = Some tbl)
    by reflexivity.
  assert (H4 : liveEntries tbl
               = ([] ++ (LString "cookie", listOf [LString "sid=1"; LString "theme=dark"])
                     :: [(LString "note", LString "signed in")])%list) by run.
  assert (H5 : existsb (mentionsName (LValue_String (@LString (@Number (runtime sc)) "cookie")))
                       [(@LString (@Number (runtime sc)) "note", LString "signed in")] = false)
    by run.
  assert (H6 : existsb (mentionsName "X-Old") (liveEntries tbl) = false) by run.
  split; [exact H1|]. split; [exact H0|]. split; [exact H2|]. split; [exact H3|].
  destruct (@login_replaces_mentioned_keys (runtime sc) "user" "secret" "" true s s1
              response oldSession [tableOf freshCookies] sc tbl H1 H0 H2 H3)
    as (h' & Hrun & Hrep & Hkeep).
  exists h'. split; [exact Hrun|]. split; [| split; [run | split; [run |]]].
  - exact (Hrep [] (LString "cookie") (listOf [LString "sid=1"; LString "theme=dark"])
                values [(LString "note", LString "signed in")] H4 eq_refl H5).
  - exact (Hkeep "X-Old" H6).
Defined.

(** C2, counterexample: the session holds a [User-Agent], the descriptor
    sets none; the request that is sent carries the engine's value. *)
Lemma session_User_Agent_is_overwritten :
  let s := loaded plainGet "demo" browserSession in
  let out := @getLatestUpdatesRequest (runtime plainGet) 1 s in
  Header.Values "User-Agent" (session s) = ["Mozilla/5.0"]
  /\ fst out = Ok response
  /\ List.map (fun r => Header.Values "User-Agent" (ReqHeader r)) (requestsSent (snd out))
     = [["Tanoshi/0.1.0"]]
  /\ List.map (fun r => Header.Values "User-Agent" (ReqHeader r)) (requestsSent (snd out))
     <> [Header.Values "User-Agent" (session s)].
Proof.
  intros s out.
  assert (E : (Header.Values "User-Agent" (session s), fst out,
               List.map (fun r => Header.Values "User-Agent" (ReqHeader r))
                        (requestsSent (snd out)))
              = (["Mozilla/5.0"], Ok response, [["Tanoshi/0.1.0"]])) by run.
  destruct (pair_inv _ _ _ _ E) as [E12 E3]. destruct (pair_inv _ _ _ _ E12) as [E1 E2].
  split; [assumption|]. split; [assumption|]. split; [assumption|].
  rewrite E1, E3. discriminate.
Qed.

(** C2, witness: a descriptor that sets [accept], on a session that holds
    [User-Agent] and [Accept]. *)
Lemma header_precedence_witness :
  let s := withStack plainGet "demo" browserSession [acceptDescriptor] in
  let req := @mkTable (runtime plainGet) []
               [("method", LString "GET"); ("url", LString "http://example.org/list");
                ("header", tableOf [("accept", LString "text/html")])] [] in
  let r0 := {| Method := "GET"; ReqURL := "http://example.org/list";
               ReqHeader := Header.make; ReqBody := EmptyBody |} in
  @asTable (runtime plainGet) (Get (-1) (l s)) = Some req
  /\ @http_NewRequest (runtime plainGet) (methodText req) (urlText req) (bodyOf s req) = inr r0
  /\ exists r : Request,
      @createRequest (runtime plainGet) s = (Ok r, s)
      /\ Header.Values "accept" (ReqHeader r) = ["text/html"]
      /\ Header.Values "User-Agent" (ReqHeader r) = ["Tanoshi/0.1.0"]
      /\ Header.Values "Cookie" (ReqHeader r) = Header.Values "Cookie" (session s).
Proof.
  intros s req r0.
  assert (H1 : @asTable (runtime plainGet) (Get (-1) (l s)) = Some req) by reflexivity.
  assert (H2 : @http_NewRequest (runtime plainGet) (methodText req) (urlText req) (bodyOf s req)
               = inr r0) by run.
  assert (H3 : descriptorHeaders req
               = ([] ++ (@LString (@Number (runtime plainGet)) "accept", LString "text/html")
                     :: [])%list) by run.
  assert (H4 : encoderSets s req (LValue_String (@LString (@Number (runtime plainGet)) "accept"))
               = false) by run.
  assert (H5 : existsb (setsName "User-Agent") (descriptorHeaders req) = false) by run.
  assert (H6 : existsb (setsName "Cookie") (descriptorHeaders req) = false) by run.
  assert (H7 : encoderSets s req "Cookie" = false) by run.
  split; [exact H1|]. split; [exact H2|].
  destruct (@header_precedence (runtime plainGet) s req r0 H1 H2)
    as (r & Hrun & Hdesc & Hua & Hsess).
  exists r. split; [exact Hrun|]. split; [| split].
  - exact (Hdesc [] (LString "accept") (LString "text/html") [] H3 eq_refl H4).
  - exact (Hua H5).
  - exact (Hsess "Cookie" H6 H7 eq_refl).
Defined.

(** C3, the code at a failing input: both single-record parse entry
    points return a plain table, and the operations panic in the type
    assertion instead of returning an error. *)
Lemma singular_parse_of_table_panics :
  let s := loaded detailsTable "demo" ∅ in
  fst (@GetMangaDetails (runtime detailsTable) manga1 s)
  = Panic (TypeAssertion "*lua.LUserData")
  /\ fst (@GetChapter (runtime detailsTable) chapter42 s)
     = Panic (TypeAssertion "*lua.LUserData")
  /\ fst (@getMangaDetails (runtime detailsTable) page s)
     = Panic (TypeAssertion "*lua.LUserData")
  /\ fst (@getChapter (runtime detailsTable) page s)
     = Panic (TypeAssertion "*lua.LUserData").
Proof. intros s. split; [| split; [| split]]; run. Qed.

(** C4, counterexample: a script whose [name] returns the empty string
    loads, and the source has an empty [Name]. *)
Lemma Load_accepts_empty_name :
  let out := @LoadSourceFromPath (runtime emptyName) "source.lua" in
  fst out = Ok (snd out) /\ Name (snd out) = "".
Proof. intros out. split; run. Qed.

(** C4, witness: the script with the empty name, and a script that does
    not define [name]. *)
Lemma Load_connector_or_error_witness :
  let loadedSource := snd (@LoadSourceFromPath (runtime emptyName) "source.lua") in
  let L0 := @l (runtime noName) (@prepared (runtime noName)) in
  let e := ApiError "attempt to call a non-function object" in
  (@LoadSourceFromPath (runtime emptyName) "source.lua" = (Ok loadedSource, loadedSource)
   /\ closed (l loadedSource) = false)
  /\ (@DoFile (runtime noName) "source.lua" (l (@prepared (runtime noName))) = (Ok tt, L0)
      /\ @invoke (runtime noName) "name" [] (setL L0 (@prepared (runtime noName)))
         = (Raised e, noName)
      /\ exists final : Source,
          @LoadSourceFromPath (runtime noName) "source.lua" = (Err e, final)
          /\ closed (l final) = true).
Proof.
  intros loadedSource L0 e. split.
  - assert (H : @LoadSourceFromPath (runtime emptyName) "source.lua"
                = (Ok loadedSource, loadedSource)) by run.
    split; [exact H|].
    exact (proj1 (proj2 (proj1 (@Load_connector_or_error (runtime emptyName) "source.lua")
                               loadedSource loadedSource H))).
  - assert (HD : @DoFile (runtime noName) "source.lua" (l (@prepared (runtime noName)))
                 = (Ok tt, L0)) by run.
    assert (HN : @invoke (runtime noName) "name" [] (setL L0 (@prepared (runtime noName)))
                 = (Raised e, noName)) by run.
    split; [exact HD|]. split; [exact HN|].
    exact (proj1 (proj2 (proj2 (@Load_connector_or_error (runtime noName) "source.lua")))
                 L0 e noName HD HN).
Defined.

(** C5, counterexample: the descriptor sets [Content-Type] to the
    multipart type and carries a data table; the request that is sent has
    the encoder's [Content-Type], with the boundary.  And a descriptor
    that sets [accept] and [Accept]: whichever entry is visited first, its
    value is not the outbound one. *)
Lemma descriptor_entry_is_replaced :
  let out1 := @getLatestUpdatesRequest (runtime formPost) 1 (loaded formPost "demo" ∅) in
  let out2 := @getLatestUpdatesRequest (runtime (describing twoAccepts)) 1
                (loaded (describing twoAccepts) "demo" ∅) in
  let out3 := @getLatestUpdatesRequest (runtime (describing (rev twoAccepts))) 1
                (loaded (describing (rev twoAccepts)) "demo" ∅) in
  (fst out1 = Ok response
   /\ sentValues formPost "Content-Type" out1
      = [["multipart/form-data; boundary=0f1e2d3c4b5a69788796a5b4c3d2e1f00f1e2d3c4b5a69788796a5b4c3d2"]]
   /\ sentValues formPost "Content-Type" out1 <> [["multipart/form-data"]])
  /\ (fst out2 = Ok response
      /\ In ("accept", LString "text/html") twoAccepts
      /\ sentValues (describing twoAccepts) "accept" out2 = [["application/json"]]
      /\ sentValues (describing twoAccepts) "accept" out2 <> [["text/html"]])
  /\ (fst out3 = Ok response
      /\ In ("Accept", LString "application/json") (rev twoAccepts)
      /\ sentValues (describing (rev twoAccepts)) "Accept" out3 = [["text/html"]]
      /\ sentValues (describing (rev twoAccepts)) "Accept" out3 <> [["application/json"]]).
Proof.
  intros out1 out2 out3.
  assert (E1 : (fst out1, sentValues formPost "Content-Type" out1)
               = (Ok response,
                  [["multipart/form-data; boundary=0f1e2d3c4b5a69788796a5b4c3d2e1f00f1e2d3c4b5a69788796a5b4c3d2"]]))
    by run.
  assert (E2 : (fst out2, sentValues (describing twoAccepts) "accept" out2)
               = (Ok response, [["application/json"]])) by run.
  assert (E3 : (fst out3, sentValues (describing (rev twoAccepts)) "Accept" out3)
               = (Ok response, [["text/html"]])) by run.
  destruct (pair_inv _ _ _ _ E1) as [R1 V1]. destruct (pair_inv _ _ _ _ E2) as [R2 V2].
  destruct (pair_inv _ _ _ _ E3) as [R3 V3].
  split; [| split].
  - split; [assumption|]. split; [assumption|]. rewrite V1. discriminate.
  - split; [assumption|]. split; [left; reflexivity|]. split; [assumption|].
    rewrite V2. discriminate.
  - split; [assumption|]. split; [left; reflexivity|]. split; [assumption|].
    rewrite V3. discriminate.
Qed.

(** C5, witness: the descriptor sets [accept] over a session that holds an
    [Accept] value. *)
Lemma descriptor_header_wins_witness :
  let s := withStack plainGet "demo" browserSession [acceptDescriptor] in
  let req := @mkTable (runtime plainGet) []
               [("method", LString "GET"); ("url", LString "http://example.org/list");
                ("header", tableOf [("accept", LString "text/html")])] [] in
  let r0 := {| Method := "GET"; ReqURL := "http://example.org/list";
               ReqHeader := Header.make; ReqBody := EmptyBody |} in
  @asTable (runtime plainGet) (Get (-1) (l s)) = Some req
  /\ @http_NewRequest (runtime plainGet) (methodText req) (urlText req) (bodyOf s req) = inr r0
  /\ Header.Values "accept" (session s) = ["*/*"]
  /\ exists r : Request,
      @createRequest (runtime plainGet) s = (Ok r, s)
      /\ Header.Values "accept" (ReqHeader r) = ["text/html"].
Proof.
  intros s req r0.
  assert (H1 : @asTable (runtime plainGet) (Get (-1) (l s)) = Some req) by reflexivity.
  assert (H2 : @http_NewRequest (runtime plainGet) (methodText req) (urlText req) (bodyOf s req)
               = inr r0) by run.
  assert (H3 : descriptorHeaders req
               = ([] ++ (@LString (@Number (runtime plainGet)) "accept", LString "text/html")
                     :: [])%list) by run.
  assert (H4 : encoderSets s req (LValue_String (@LString (@Number (runtime plainGet)) "accept"))
               = false) by run.
  assert (H5 : Header.Values "accept" (session s) = ["*/*"]) by run.
  split; [exact H1|]. split; [exact H2|]. split; [exact H5|].
  destruct (@descriptor_header_wins (runtime plainGet) s req r0 H1 H2) as (r & Hrun & Hdesc).
  exists r. split; [exact Hrun|].
  exact (Hdesc [] (LString "accept") (LString "text/html") [] H3 eq_refl H4).
Defined.

(** C6, witness: five entries, two of which are not manga handles. *)
Lemma list_parse_skips_malformed_witness :
  let s := loaded latestFive "demo" ∅ in
  let tb := @mkTable (runtime latestFive) fiveEntries [] [] in
  @asTable (runtime latestFive) (hd LNil [listOf fiveEntries]) = Some tb
  /\ @invoke (runtime latestFive) "get_latest_updates" [LString page] s
     = (Returned [listOf fiveEntries], latestFive)
  /\ (length (liveValues tb) = 5 /\ length (malformed unwrapManga (liveValues tb)) = 2)%nat
  /\ exists result : list Manga.t,
      @getLatestUpdates (runtime latestFive) page s
      = (Ok result, @afterReturn (runtime latestFive) [listOf fiveEntries] latestFive s)
      /\ length result
         = (length (liveValues tb) - length (malformed unwrapManga (liveValues tb)))%nat.
Proof.
  intros s tb.
  assert (H1 : @asTable (runtime latestFive) (hd LNil [listOf fiveEntries]) = Some tb)
    by reflexivity.
  assert (H2 : @invoke (runtime latestFive) "get_latest_updates" [LString page] s
               = (Returned [listOf fiveEntries], latestFive)) by reflexivity.
  split; [exact H1|]. split; [exact H2|]. split; [split; run|].
  destruct (proj1 (@list_parse_skips_malformed (runtime latestFive) page s
                     [listOf fiveEntries] latestFive tb H1) H2)
    as (result & Hrun & _ & Hlen).
  exists result. split; [exact Hrun | exact Hlen].
Defined.




(** C9, witness: the caller's chapter has ID 42; the parse phase returns a
    chapter with ID 7 and a source of its own. *)
Lemma GetChapter_copies_input_ID_witness :
  let s := loaded chapterScript "demo" ∅ in
  let out := @GetChapter (runtime chapterScript) chapter42 s in
  out = (Ok (Chapter.setID 42 chapter7), snd out)
  /\ Chapter.ID (Chapter.setID 42 chapter7) = Chapter.ID chapter42
  /\ Chapter.Source (Chapter.setID 42 chapter7) = "elsewhere".
Proof.
  intros s out.
  assert (H : out = (Ok (Chapter.setID 42 chapter7), snd out)) by run.
  split; [exact H|]. split; [| reflexivity].
  exact (proj1 (proj1 (@GetChapter_copies_input_ID (runtime chapterScript) chapter42 s)
                      (Chapter.setID 42 chapter7) (snd out) H)).
Defined.

End Runs.

(** * Further properties of the source runtime *)

Section HostMore.

Context `{RT : Runtime}.

Abbreviation LV := (LValue Number).

(** ** What the operations leave alone *)

Lemma keeps_refl (s : Source) : keeps s s.
Proof. repeat split. Qed.

Lemma keeps_trans (s1 s2 s3 : Source) : keeps s1 s2 -> keeps s2 s3 -> keeps s1 s3.
Proof. unfold keeps. intros (A & B & C) (D & E & F). repeat split; congruence. Qed.

Lemma preserves_ret {A : Type} (a : A) : preserves (ret a).
Proof. intros s. apply keeps_refl. Qed.

Lemma preserves_get : preserves get.
Proof. intros s. apply keeps_refl. Qed.

Lemma preserves_bind {A B : Type} (m : M A) (k : A -> M B) :
  preserves m -> (forall a, preserves (k a)) -> preserves (bind m k).
Proof.
  intros Hm Hk s. unfold bind. specialize (Hm s).
  destruct (m s) as [[a|e|p] s1]; simpl in *; try exact Hm.
  eapply keeps_trans; [exact Hm | apply Hk].
Qed.

Lemma preserves_callLuaFunc (name : string) (args : list LV) :
  preserves (callLuaFunc name args).
Proof.
  intros s. rewrite callLuaFunc_eq.
  destruct (invoke name args s) as [[e|rets] i]; repeat split.
Qed.

Lemma preserves_createRequest : preserves createRequest.
Proof. intros s. rewrite createRequest_state. apply keeps_refl. Qed.

Lemma preserves_doRequest (req : Request) : preserves (doRequest req).
Proof.
  intros s. unfold doRequest. destruct (httpClient s) as [c|]; [| apply keeps_refl].
  destruct (client_Do (sent c) req) as [err|[hdr [err|body]]]; repeat split.
Qed.

Lemma preserves_mustMangaPtr (lv : LV) : preserves (mustMangaPtr lv).
Proof.
  intros s. rewrite mustMangaPtr_eq. destruct (unwrapManga lv); apply keeps_refl.
Qed.

Lemma preserves_mustChapterPtr (lv : LV) : preserves (mustChapterPtr lv).
Proof.
  intros s. rewrite mustChapterPtr_eq. destruct (unwrapChapter lv); apply keeps_refl.
Qed.

Ltac preserve :=
  repeat first
    [ apply preserves_bind; [| intros ?]
    | apply preserves_ret | apply preserves_get
    | apply preserves_callLuaFunc | apply preserves_createRequest
    | apply preserves_doRequest | apply preserves_mustMangaPtr
    | apply preserves_mustChapterPtr ].

Lemma preserves_requests :
  (forall page, preserves (getLatestUpdatesRequest page))
  /\ (forall m, preserves (getMangaDetailsRequest m))
  /\ (forall m, preserves (getChaptersRequest m))
  /\ (forall c, preserves (getChapterRequest c))
  /\ (forall u p t r, preserves (loginRequest u p t r))
  /\ (forall f, preserves (fetchMangaRequest f)).
Proof.
  split; [| split; [| split; [| split; [| split]]]]; intros.
  - unfold getLatestUpdatesRequest. preserve.
  - unfold getMangaDetailsRequest. preserve.
  - unfold getChaptersRequest. preserve.
  - unfold getChapterRequest. preserve.
  - unfold loginRequest. preserve.
  - unfold fetchMangaRequest. preserve.
Qed.

Lemma preserves_parses :
  (forall body, preserves (getLatestUpdates body))
  /\ (forall body, preserves (getMangaDetails body))
  /\ (forall body, preserves (getChapters body))
  /\ (forall body, preserves (getChapter body))
  /\ (forall body, preserves (fetchManga body)).
Proof.
  split; [| split; [| split; [| split]]]; intros.
  - unfold getLatestUpdates. preserve.
  - unfold getMangaDetails. preserve.
  - unfold getChapters. preserve.
  - unfold getChapter. preserve.
  - unfold fetchManga. preserve.
Qed.

(** X1: whatever the script does and however the call ends, the five
    catalogue operations leave the name, the base URL and the session
    headers of the source exactly as they were. *)
Theorem catalogue_operations_keep_session (s : Source) :
  (forall page, keeps s (snd (GetLatestUpdates page s)))
  /\ (forall m, keeps s (snd (GetMangaDetails m s)))
  /\ (forall m, keeps s (snd (GetChapters m s)))
  /\ (forall c, keeps s (snd (GetChapter c s)))
  /\ (forall f, keeps s (snd (FetchManga f s))).
Proof.
  destruct preserves_requests as (R1 & R2 & R3 & R4 & _ & R6).
  destruct preserves_parses as (P1 & P2 & P3 & P4 & P6).
  split; [| split; [| split; [| split]]]; intros x.
  - apply (preserves_bind _ _ (R1 x)). intros res. preserve; try apply P1.
  - apply (preserves_bind _ _ (R2 x)). intros res. preserve; try apply P2.
  - apply (preserves_bind _ _ (R3 x)). intros res. preserve; try apply P3.
  - apply (preserves_bind _ _ (R4 x)). intros res. preserve; try apply P4.
  - apply (preserves_bind _ _ (R6 x)). intros res. preserve; try apply P6.
Qed.

(** ** A login that does not succeed *)

Lemma login_not_ok_keeps (resp : SourceResponse) (s : Source) :
  fst (login resp s) <> Ok tt -> keeps s (snd (login resp s)).
Proof.
  unfold login, bind, get. rewrite callLuaFunc_eq.
  destruct (invoke "login" _ s) as [[e|rets] i]; [intros _; repeat split|].
  rewrite Get_top_afterReturn.
  destruct (asTable (hd LNil rets)) as [tbl|]; [| intros _; repeat split].
  destruct (ForEach tbl replaceKey _) as [h|e|p]; simpl.
  - intros H. now contradiction H.
  - intros _. repeat split.
  - intros _. repeat split.
Qed.

(** X2: a [Login] that does not return success, for whatever reason,
    leaves the session headers (and the identity) of the source as they
    were; in particular, when the [login] entry point returns something
    that is not a table, [Login] returns the error [Table expected]. *)
Theorem Login_failure_keeps_session
        (username password twoFactor : string) (remember : bool) (s : Source) :
  (fst (Login username password twoFactor remember s) <> Ok tt ->
   keeps s (snd (Login username password twoFactor remember s)))
  /\ (forall (resp : SourceResponse) (s1 : Source) (rets : list LV) (i : Interp),
         loginRequest username password twoFactor remember s = (Ok resp, s1) ->
         invoke "login"
                [luar_New (l s1) (ValHeaderMap (RespHeader resp)); LString (RespBody resp)] s1
         = (Returned rets, i) ->
         asTable (hd LNil rets) = None ->
         Login username password twoFactor remember s
         = (Err (errorString "Table expected"), afterReturn rets i s1)).
Proof.
  destruct preserves_requests as (_ & _ & _ & _ & R5 & _).
  split.
  - unfold Login, bind.
    pose proof (R5 username password twoFactor remember s) as Hk.
    destruct (loginRequest username password twoFactor remember s) as [[resp|e|p] s1];
      simpl in *; try (intros _; exact Hk).
    pose proof (login_not_ok_keeps resp s1) as Hl.
    destruct (login resp s1) as [[[]|e|p] s2]; simpl in *.
    + intros H. now contradiction H.
    + intros _. eapply keeps_trans; [exact Hk | apply Hl; discriminate].
    + intros _. eapply keeps_trans; [exact Hk | apply Hl; discriminate].
  - intros resp s1 rets i Hreq Hcall Hnt.
    unfold Login, bind. rewrite Hreq. unfold login, bind, get.
    rewrite (callLuaFunc_returned _ _ _ _ _ Hcall), Get_top_afterReturn, Hnt.
    reflexivity.
Qed.

(** ** List results, in general *)

Lemma getLatestUpdates_eq (body : string) (s : Source) :
  getLatestUpdates body s =
  match invoke "get_latest_updates" [LString body] s with
  | (Raised e, i) => (Err e, restored i s)
  | (Returned rets, i) =>
      (Ok match asTable (hd LNil rets) with
          | Some tb => List.map (Manga.setSource (Name s)) (records unwrapManga (liveValues tb))
          | None => []
          end, afterReturn rets i s)
  end.
Proof.
  unfold getLatestUpdates, bind, get. rewrite callLuaFunc_eq.
  destruct (invoke "get_latest_updates" [LString body] s) as [[e|rets] i]; [reflexivity|].
  rewrite Get_top_afterReturn. unfold ret. do 2 f_equal.
  destruct (asTable (hd LNil rets)) as [tb|]; [| reflexivity].
  rewrite ForEach_live, collectStamped_fold. reflexivity.
Qed.

Lemma getChapters_eq (body : string) (s : Source) :
  getChapters body s =
  match invoke "get_chapters" [LString body] s with
  | (Raised e, i) => (Err e, restored i s)
  | (Returned rets, i) =>
      (Ok match asTable (hd LNil rets) with
          | Some tb =>
              List.map (Chapter.setSource (Name s)) (records unwrapChapter (liveValues tb))
          | None => []
          end, afterReturn rets i s)
  end.
Proof.
  unfold getChapters, bind, get. rewrite callLuaFunc_eq.
  destruct (invoke "get_chapters" [LString body] s) as [[e|rets] i]; [reflexivity|].
  rewrite Get_top_afterReturn. unfold ret. do 2 f_equal.
  destruct (asTable (hd LNil rets)) as [tb|]; [| reflexivity].
  rewrite ForEach_live, collectChapter_fold. reflexivity.
Qed.

Lemma fetchManga_eq (body : string) (s : Source) :
  fetchManga body s =
  match invoke "fetch_manga" [LString body] s with
  | (Raised e, i) => (Err e, restored i s)
  | (Returned rets, i) =>
      (Ok match asTable (hd LNil rets) with
          | Some tb => records unwrapManga (liveValues tb)
          | None => []
          end, afterReturn rets i s)
  end.
Proof.
  unfold fetchManga, bind, get. rewrite callLuaFunc_eq.
  destruct (invoke "fetch_manga" [LString body] s) as [[e|rets] i]; [reflexivity|].
  rewrite Get_top_afterReturn. unfold ret. do 2 f_equal.
  destruct (asTable (hd LNil rets)) as [tb|]; [| reflexivity].
  rewrite ForEach_live, collectManga_fold. reflexivity.
Qed.

(** X3: when a list-returning parse entry point returns something that is
    not a table (a string, a record handle, nil, or nothing at all), the
    parse call reports no error and returns the empty list. *)
Theorem list_parse_of_non_table_is_empty
        (body : string) (s : Source) (rets : list LV) (i : Interp) :
  asTable (hd LNil rets) = None ->
  (invoke "get_latest_updates" [LString body] s = (Returned rets, i) ->
   getLatestUpdates body s = (Ok [], afterReturn rets i s))
  /\ (invoke "get_chapters" [LString body] s = (Returned rets, i) ->
      getChapters body s = (Ok [], afterReturn rets i s))
  /\ (invoke "fetch_manga" [LString body] s = (Returned rets, i) ->
      fetchManga body s = (Ok [], afterReturn rets i s)).
Proof.
  intros Hnt. split; [| split]; intros Hcall.
  - now rewrite getLatestUpdates_eq, Hcall, Hnt.
  - now rewrite getChapters_eq, Hcall, Hnt.
  - now rewrite fetchManga_eq, Hcall, Hnt.
Qed.

Lemma Forall_map_stamp {R : Type} (f : R -> R) (P : R -> Prop) (xs : list R) :
  (forall x, P (f x)) -> Forall P (List.map f xs).
Proof. intros H. induction xs; simpl; constructor; auto. Qed.

(** X4: every manga a successful [GetLatestUpdates] returns and every
    chapter a successful [GetChapters] returns carries the name of the
    source in its source field, whatever the script had put there. *)
Theorem list_results_are_stamped (s : Source) :
  (forall page ms s',
      GetLatestUpdates page s = (Ok ms, s') ->
      Forall (fun m => Manga.Source m = Name s) ms)
  /\ (forall m cs s',
         GetChapters m s = (Ok cs, s') ->
         Forall (fun c => Chapter.Source c = Name s) cs).
Proof.
  destruct preserves_requests as (R1 & _ & R3 & _).
  split.
  - intros page ms s' H. unfold GetLatestUpdates, bind in H.
    pose proof (R1 page s) as (Hn & _).
    destruct (getLatestUpdatesRequest page s) as [[res|e|p] s1]; try discriminate.
    simpl in Hn. rewrite getLatestUpdates_eq in H.
    destruct (invoke "get_latest_updates" _ s1) as [[e|rets] i]; [discriminate|].
    unfold ret in H. injection H as <- _. rewrite Hn.
    destruct (asTable (hd LNil rets)); [| constructor].
    apply Forall_map_stamp. reflexivity.
  - intros m cs s' H. unfold GetChapters, bind in H.
    pose proof (R3 m s) as (Hn & _).
    destruct (getChaptersRequest m s) as [[res|e|p] s1]; try discriminate.
    simpl in Hn. rewrite getChapters_eq in H.
    destruct (invoke "get_chapters" _ s1) as [[e|rets] i]; [discriminate|].
    unfold ret in H. injection H as <- _. rewrite Hn.
    destruct (asTable (hd LNil rets)); [| constructor].
    apply Forall_map_stamp. reflexivity.
Qed.

(** X5: a successful [GetMangaDetails m] returns the manga the parse
    phase produced with its source set to the name of the source and its
    ID set to the ID of [m]; and it succeeds, with that result, whenever
    the describe and execute phases succeed and the parse entry point
    returns a manga handle. *)
Theorem GetMangaDetails_stamps_and_copies_ID (m : Manga.t) (s : Source) :
  (forall (out : Manga.t) (s' : Source),
      GetMangaDetails m s = (Ok out, s') ->
      Manga.Source out = Name s /\ Manga.ID out = Manga.ID m
      /\ exists parsed : Manga.t,
          unwrapManga (Get (-1) (l s')) = Some parsed
          /\ out = Manga.setID (Manga.ID m) (Manga.setSource (Name s) parsed))
  /\ (forall (res : SourceResponse) (s1 : Source) (rets : list LV) (i : Interp)
             (parsed : Manga.t),
         getMangaDetailsRequest m s = (Ok res, s1) ->
         invoke "get_manga_details" [LString (RespBody res)] s1 = (Returned rets, i) ->
         unwrapManga (hd LNil rets) = Some parsed ->
         GetMangaDetails m s
         = (Ok (Manga.setID (Manga.ID m) (Manga.setSource (Name s) parsed)),
            afterReturn rets i s1)).
Proof.
  destruct preserves_requests as (_ & R2 & _).
  pose proof (R2 m s) as (Hn & _).
  split.
  - intros out s' H. unfold GetMangaDetails, bind in H.
    destruct (getMangaDetailsRequest m s) as [[res|e|p] s1]; try discriminate.
    simpl in Hn. rewrite getMangaDetails_eq in H.
    destruct (invoke "get_manga_details" _ s1) as [[e|rets] i]; [discriminate|].
    destruct (unwrapManga (hd LNil rets)) as [parsed|] eqn:Hu; [| discriminate].
    unfold ret in H. injection H as <- <-. rewrite Hn.
    split; [reflexivity|]. split; [reflexivity|].
    exists parsed. rewrite Get_top_afterReturn. auto.
  - intros res s1 rets i parsed Hreq Hcall Hu.
    unfold GetMangaDetails, bind. rewrite Hreq in *. simpl in Hn.
    rewrite getMangaDetails_eq, Hcall, Hu, Hn. reflexivity.
Qed.

(** ** Every request has one User-Agent *)

Lemma index_set_fold_singleton (es : list (LV * LV)) (h : Header.t) (c : string) :
  (exists v, Header.index h c = [v]) ->
  exists v, Header.index
              (fold_left (fun m kv => setHeaderEntry (fst kv) (snd kv) m) es h) c = [v].
Proof.
  revert h. induction es as [|kv es IH]; intros h H; simpl; [exact H|].
  apply IH. unfold setHeaderEntry. rewrite index_Set.
  destruct (decide _); [eauto | exact H].
Qed.

(** X6: every request [createRequest] builds carries exactly one
    [User-Agent] value, whatever the session headers and the descriptor
    hold. *)
Theorem request_has_one_User_Agent (s s' : Source) (r : Request) :
  createRequest s = (Ok r, s') ->
  exists v : string, Header.Values "User-Agent" (ReqHeader r) = [v].
Proof.
  intros H. rewrite createRequest_eq in H.
  destruct (asTable (Get (-1) (l s))) as [req|]; [| discriminate].
  destruct (http_NewRequest _ _ _) as [err|r0]; [discriminate|].
  injection H as <- _. simpl. unfold Header.Values.
  rewrite index_outbound, canon_User_Agent.
  change (String.eqb "User-Agent" "Content-Type") with false.
  rewrite andb_false_r. unfold merged.
  apply index_set_fold_singleton.
  rewrite index_headerBuilder. simpl. eauto.
Qed.

(** ** The body of a request *)

Lemma writeField_fold (es : list (LV * LV)) (acc : list (string * string)) :
  fold_left (fun a kv => writeField (fst kv) (snd kv) a) es acc
  = (acc ++ List.map (fun kv => (LValue_String (fst kv), LValue_String (snd kv))) es)%list.
Proof.
  revert acc. induction es as [|kv es IH]; intros acc; simpl.
  - now rewrite app_nil_r.
  - rewrite IH. unfold writeField. now rewrite <- app_assoc.
Qed.

Lemma http_NewRequest_built (method url : string) (body : Body) (r : Request) :
  http_NewRequest method url body = inr r ->
  ReqBody r = body /\ url_Parse url = inr (ReqURL r)
  /\ Method r = (if String.eqb method "" then "GET" else method)
  /\ validMethod (Method r) = true.
Proof.
  unfold http_NewRequest.
  destruct (validMethod _) eqn:Hv; [| discriminate]. simpl.
  destruct (url_Parse url) as [err|u]; [discriminate|].
  intros [= <-]. auto.
Qed.

(** X7: a request is built with a body only for a multipart form.  When
    the descriptor has a data table and the resolved [Content-Type] is
    exactly [multipart/form-data], the body holds the table's fields in
    visiting order under a boundary and the [Content-Type] header names
    that same boundary; in every other case the data table is dropped:
    the body is empty and the headers are the merged ones. *)
Theorem request_body_encoding (s : Source) (req : Table) (r0 : Request) :
  asTable (Get (-1) (l s)) = Some req ->
  http_NewRequest (methodText req) (urlText req) (bodyOf s req) = inr r0 ->
  exists r : Request,
    createRequest s = (Ok r, s)
    /\ (forall data : Table,
           asTable (RawGetString req "data") = Some data ->
           Header.Get "Content-Type" (merged s req) = "multipart/form-data" ->
           ReqBody r = MultipartBody (randomBoundary (requestsSent s)) (fieldsOf data)
           /\ Header.Values "Content-Type" (ReqHeader r)
              = ["multipart/form-data; boundary=" ++ randomBoundary (requestsSent s)])
    /\ (asTable (RawGetString req "data") = None
        \/ Header.Get "Content-Type" (merged s req) <> "multipart/form-data" ->
        ReqBody r = EmptyBody /\ ReqHeader r = merged s req).
Proof.
  intros Ht Hn. eexists. split; [exact (createRequest_built s req r0 Ht Hn)|].
  destruct (http_NewRequest_built _ _ _ _ Hn) as (Hb & _). simpl. rewrite Hb.
  split.
  - intros data Hd Hct.
    assert (Hm : encodesMultipart s req = true).
    { unfold encodesMultipart. rewrite Hd, Hct. reflexivity. }
    split.
    + unfold bodyOf. rewrite Hd, Hm. f_equal.
      rewrite ForEach_live, writeField_fold. reflexivity.
    + unfold Header.Values. rewrite index_outbound, Hm, canon_Content_Type. reflexivity.
  - intros Hno.
    assert (Hm : encodesMultipart s req = false).
    { unfold encodesMultipart. destruct (asTable (RawGetString req "data")); [| reflexivity].
      destruct Hno as [Hno|Hno]; [discriminate|]. now apply String.eqb_neq. }
    unfold bodyOf, outbound. rewrite Hm.
    now destruct (asTable (RawGetString req "data")).
Qed.

(** ** Requests handed to the client *)

Lemma sentMore_refl (s : Source) : sentMore 0 s s.
Proof. exists []. now rewrite app_nil_r. Qed.

Lemma sentMore_same (s s' : Source) : httpClient s' = httpClient s -> sentMore 0 s s'.
Proof. intros H. exists []. unfold requestsSent. now rewrite H, app_nil_r. Qed.

Lemma sentMore_trans (a b : nat) (s1 s2 s3 : Source) :
  sentMore a s1 s2 -> sentMore b s2 s3 -> sentMore (a + b) s1 s3.
Proof.
  intros (r1 & E1 & L1) (r2 & E2 & L2). exists (r1 ++ r2)%list. split.
  - now rewrite E2, E1, app_assoc.
  - rewrite length_app. lia.
Qed.

Lemma sendsAtMost_bind {A B : Type} (a b : nat) (m : M A) (k : A -> M B) :
  sendsAtMost a m -> (forall x, sendsAtMost b (k x)) -> sendsAtMost (a + b) (bind m k).
Proof.
  intros Hm Hk s. unfold bind. specialize (Hm s).
  destruct (m s) as [[x|e|p] s1]; simpl in *.
  - eapply sentMore_trans; [exact Hm | apply Hk].
  - destruct Hm as (rs & E & L). exists rs. split; [exact E | lia].
  - destruct Hm as (rs & E & L). exists rs. split; [exact E | lia].
Qed.

Lemma sends_ret {A : Type} (a : A) : sendsAtMost 0 (ret a).
Proof. intros s. apply sentMore_refl. Qed.

Lemma sends_get : sendsAtMost 0 get.
Proof. intros s. apply sentMore_refl. Qed.

Lemma sends_callLuaFunc (name : string) (args : list LV) :
  sendsAtMost 0 (callLuaFunc name args).
Proof.
  intros s. rewrite callLuaFunc_eq.
  destruct (invoke name args s) as [[e|rets] i]; now apply sentMore_same.
Qed.

Lemma sends_createRequest : sendsAtMost 0 createRequest.
Proof. intros s. rewrite createRequest_state. apply sentMore_refl. Qed.

Lemma sends_doRequest (req : Request) : sendsAtMost 1 (doRequest req).
Proof.
  intros s. unfold doRequest. destruct (httpClient s) as [c|] eqn:Hc.
  - assert (H : sentMore 1 s (afterSend c req s)).
    { exists [req]. unfold requestsSent, afterSend. simpl. rewrite Hc. auto. }
    destruct (client_Do (sent c) req) as [err|[hdr [err|body]]]; exact H.
  - exists []. simpl. rewrite app_nil_r. auto.
Qed.

Lemma sends_sendDescribed : sendsAtMost 1 sendDescribed.
Proof.
  unfold sendDescribed. apply (sendsAtMost_bind 0 1); [apply sends_createRequest|].
  intros r. apply (sendsAtMost_bind 1 0); [apply sends_doRequest|].
  intros resp. apply sends_ret.
Qed.

Lemma sends_describe (name : string) (args : list LV) :
  sendsAtMost 1 (bind (callLuaFunc name args) (fun _ => sendDescribed)).
Proof.
  apply (sendsAtMost_bind 0 1); [apply sends_callLuaFunc|].
  intros _. apply sends_sendDescribed.
Qed.

Lemma sends_login (resp : SourceResponse) : sendsAtMost 0 (login resp).
Proof.
  intros s. unfold login, bind, get. rewrite callLuaFunc_eq.
  destruct (invoke "login" _ s) as [[e|rets] i]; [now apply sentMore_same|].
  destruct (asTable _) as [tbl|]; [| now apply sentMore_same].
  destruct (ForEach tbl replaceKey _); now apply sentMore_same.
Qed.

Lemma sends_pure_parse :
  (forall body, sendsAtMost 0 (getLatestUpdates body))
  /\ (forall body, sendsAtMost 0 (getMangaDetails body))
  /\ (forall body, sendsAtMost 0 (getChapters body))
  /\ (forall body, sendsAtMost 0 (getChapter body))
  /\ (forall body, sendsAtMost 0 (fetchManga body)).
Proof.
  split; [| split; [| split; [| split]]]; intros body s.
  - rewrite getLatestUpdates_eq.
    destruct (invoke _ _ s) as [[e|rets] i]; now apply sentMore_same.
  - rewrite getMangaDetails_eq.
    destruct (invoke _ _ s) as [[e|rets] i]; [now apply sentMore_same|].
    destruct (unwrapManga _); now apply sentMore_same.
  - rewrite getChapters_eq.
    destruct (invoke _ _ s) as [[e|rets] i]; now apply sentMore_same.
  - rewrite getChapter_eq.
    destruct (invoke _ _ s) as [[e|rets] i]; [now apply sentMore_same|].
    destruct (unwrapChapter _); now apply sentMore_same.
  - rewrite fetchManga_eq.
    destruct (invoke _ _ s) as [[e|rets] i]; now apply sentMore_same.
Qed.

(** X8: whatever the script does and however the call ends, each of the
    six public operations hands at most one request to the HTTP client,
    and the requests sent before stay recorded in order. *)
Theorem operations_send_at_most_one_request (s : Source) :
  (forall page, sentMore 1 s (snd (GetLatestUpdates page s)))
  /\ (forall m, sentMore 1 s (snd (GetMangaDetails m s)))
  /\ (forall m, sentMore 1 s (snd (GetChapters m s)))
  /\ (forall c, sentMore 1 s (snd (GetChapter c s)))
  /\ (forall u p t r, sentMore 1 s (snd (Login u p t r s)))
  /\ (forall f, sentMore 1 s (snd (FetchManga f s))).
Proof.
  destruct sends_pure_parse as (P1 & P2 & P3 & P4 & P6).
  split; [| split; [| split; [| split; [| split]]]]; intros.
  - apply (sendsAtMost_bind 1 0); [apply sends_describe|].
    intros res. apply (sendsAtMost_bind 0 0); [apply P1 | intros; apply sends_ret].
  - apply (sendsAtMost_bind 1 0).
    + apply (sendsAtMost_bind 0 1); [apply sends_get | intros; apply sends_describe].
    + intros res. apply (sendsAtMost_bind 0 0); [apply P2 | intros; apply sends_ret].
  - apply (sendsAtMost_bind 1 0).
    + apply (sendsAtMost_bind 0 1); [apply sends_get | intros; apply sends_describe].
    + intros res. apply (sendsAtMost_bind 0 0); [apply P3 | intros; apply sends_ret].
  - apply (sendsAtMost_bind 1 0).
    + apply (sendsAtMost_bind 0 1); [apply sends_get | intros; apply sends_describe].
    + intros res. apply (sendsAtMost_bind 0 0); [apply P4 | intros; apply sends_ret].
  - apply (sendsAtMost_bind 1 0).
    + apply (sendsAtMost_bind 0 1); [apply sends_get | intros; apply sends_describe].
    + intros res. apply (sendsAtMost_bind 0 0); [apply sends_login | intros; apply sends_ret].
  - apply (sendsAtMost_bind 1 0); [apply sends_describe|].
    intros res. apply (sendsAtMost_bind 0 0); [apply P6 | intros; apply sends_ret].
Qed.

(** ** The chain of an operation *)

Lemma requests_describe_and_send (s : Source) :
  (forall page, getLatestUpdatesRequest page s
     = describeAndSend "get_latest_updates_request" [LNumber (Number_of_int page)] s)
  /\ (forall m, getMangaDetailsRequest m s
     = describeAndSend "get_manga_details_request" [luar_New (l s) (ValManga m)] s)
  /\ (forall m, getChaptersRequest m s
     = describeAndSend "get_chapters_request" [luar_New (l s) (ValManga m)] s)
  /\ (forall c, getChapterRequest c s
     = describeAndSend "get_chapter_request" [luar_New (l s) (ValChapter c)] s)
  /\ (forall u p t r, loginRequest u p t r s
     = describeAndSend "login_request"
                       [luar_New (l s) (ValStringMap (loginParam u p t r))] s)
  /\ (forall f, fetchMangaRequest f s
     = describeAndSend "fetch_manga_request" [ToLTable f] s).
Proof. split; [| split; [| split; [| split; [| split]]]]; intros; reflexivity. Qed.

Lemma sendDescribed_eq (s : Source) :
  sendDescribed s =
  match createRequest s with
  | (Ok r, _) =>
      match httpClient s with
      | None => (Panic NilDereference, s)
      | Some c =>
          match client_Do (sent c) r with
          | inl err => (Err err, afterSend c r s)
          | inr (_, inl err) => (Err err, afterSend c r s)
          | inr (hdr, inr body) =>
              (Ok {| RespHeader := hdr; RespBody := body |}, afterSend c r s)
          end
      end
  | (Err e, _) => (Err e, s)
  | (Panic p, _) => (Panic p, s)
  end.
Proof.
  unfold sendDescribed, bind. pose proof (createRequest_state s) as Hs.
  destruct (createRequest s) as [[r|e|p] s1]; simpl in Hs; subst s1; try reflexivity.
  unfold doRequest. destruct (httpClient s) as [c|]; [| reflexivity].
  destruct (client_Do (sent c) r) as [err|[hdr [err|body]]]; reflexivity.
Qed.

Lemma describeAndSend_eq (name : string) (args : list LV) (s : Source) :
  describeAndSend name args s =
  match invoke name args s with
  | (Raised e, i) => (Err e, restored i s)
  | (Returned rets, i) => sendDescribed (afterReturn rets i s)
  end.
Proof.
  unfold describeAndSend, bind. rewrite callLuaFunc_eq.
  now destruct (invoke name args s) as [[e|rets] i].
Qed.

(** What a transport failure makes of a describe-and-send. *)
Lemma describeAndSend_transport_error
      (name : string) (args : list LV) (s : Source)
      (rets : list LV) (i : Interp) (r : Request) (c : Client) (err : error) :
  invoke name args s = (Returned rets, i) ->
  createRequest (afterReturn rets i s) = (Ok r, afterReturn rets i s) ->
  httpClient s = Some c ->
  client_Do (sent c) r = inl err \/ (exists hdr, client_Do (sent c) r = inr (hdr, inl err)) ->
  describeAndSend name args s = (Err err, afterSend c r (afterReturn rets i s)).
Proof.
  intros Hcall Hreq Hc Hdo.
  rewrite describeAndSend_eq, Hcall, sendDescribed_eq, Hreq.
  change (httpClient (afterReturn rets i s)) with (httpClient s). rewrite Hc.
  destruct Hdo as [-> | (hdr & ->)]; reflexivity.
Qed.

(** X9: when the HTTP client fails, or the response body cannot be read,
    the operation returns that error at once: the one request stays the
    only one sent (no retry), and the parse entry point is not called, the
    interpreter being left as the describe call left it. *)
Theorem transport_failure_ends_operation
        (s : Source) (rets : list LV) (i : Interp) (r : Request) (c : Client) (err : error) :
  createRequest (afterReturn rets i s) = (Ok r, afterReturn rets i s) ->
  httpClient s = Some c ->
  client_Do (sent c) r = inl err \/ (exists hdr, client_Do (sent c) r = inr (hdr, inl err)) ->
  let failed := afterSend c r (afterReturn rets i s) in
  (requestsSent failed = (sent c ++ [r])%list /\ interp (l failed) = i)
  /\ (forall page,
         invoke "get_latest_updates_request" [LNumber (Number_of_int page)] s
         = (Returned rets, i) ->
         GetLatestUpdates page s = (Err err, failed))
  /\ (forall m,
         invoke "get_manga_details_request" [luar_New (l s) (ValManga m)] s
         = (Returned rets, i) ->
         GetMangaDetails m s = (Err err, failed))
  /\ (forall m,
         invoke "get_chapters_request" [luar_New (l s) (ValManga m)] s = (Returned rets, i) ->
         GetChapters m s = (Err err, failed))
  /\ (forall ch,
         invoke "get_chapter_request" [luar_New (l s) (ValChapter ch)] s = (Returned rets, i) ->
         GetChapter ch s = (Err err, failed))
  /\ (forall u p t rm,
         invoke "login_request" [luar_New (l s) (ValStringMap (loginParam u p t rm))] s
         = (Returned rets, i) ->
         Login u p t rm s = (Err err, failed))
  /\ (forall f,
         invoke "fetch_manga_request" [ToLTable f] s = (Returned rets, i) ->
         FetchManga f s = (Err err, failed)).
Proof.
  intros Hreq Hc Hdo failed.
  destruct (requests_describe_and_send s) as (E1 & E2 & E3 & E4 & E5 & E6).
  split; [split; reflexivity|].
  split; [| split; [| split; [| split; [| split]]]]; intros; unfold failed.
  - unfold GetLatestUpdates, bind. rewrite E1.
    now rewrite (describeAndSend_transport_error _ _ _ _ _ _ _ _ H Hreq Hc Hdo).
  - unfold GetMangaDetails, bind. rewrite E2.
    now rewrite (describeAndSend_transport_error _ _ _ _ _ _ _ _ H Hreq Hc Hdo).
  - unfold GetChapters, bind. rewrite E3.
    now rewrite (describeAndSend_transport_error _ _ _ _ _ _ _ _ H Hreq Hc Hdo).
  - unfold GetChapter, bind. rewrite E4.
    now rewrite (describeAndSend_transport_error _ _ _ _ _ _ _ _ H Hreq Hc Hdo).
  - unfold Login, bind. rewrite E5.
    now rewrite (describeAndSend_transport_error _ _ _ _ _ _ _ _ H Hreq Hc Hdo).
  - unfold FetchManga, bind. rewrite E6.
    now rewrite (describeAndSend_transport_error _ _ _ _ _ _ _ _ H Hreq Hc Hdo).
Qed.

(** ** The register stack across an operation *)

Lemma describeAndSend_Ok_reg (name : string) (args : list LV) (s s1 : Source)
      (res : SourceResponse) :
  describeAndSend name args s = (Ok res, s1) ->
  exists d : LV, asTable d <> None /\ reg (l s1) = (reg (l s) ++ [d])%list.
Proof.
  intros H. rewrite describeAndSend_eq in H.
  destruct (invoke name args s) as [[e|rets] i]; [discriminate|].
  rewrite sendDescribed_eq, createRequest_eq, Get_top_afterReturn in H.
  exists (hd LNil rets).
  destruct (asTable (hd LNil rets)) as [req|] eqn:Ht; [| discriminate].
  split; [discriminate|].
  destruct (http_NewRequest _ _ _) as [err|r0]; [discriminate|].
  destruct (httpClient (afterReturn rets i s)) as [c|]; [| discriminate].
  destruct (client_Do (sent c) _) as [err|[hdr [err|body]]]; try discriminate.
  injection H as _ <-. reflexivity.
Qed.

Lemma callLuaFunc_Ok_reg (name : string) (args : list LV) (s s1 : Source) :
  callLuaFunc name args s = (Ok tt, s1) ->
  exists p : LV, reg (l s1) = (reg (l s) ++ [p])%list.
Proof.
  rewrite callLuaFunc_eq. destruct (invoke name args s) as [[e|rets] i]; [discriminate|].
  intros [= <-]. eexists. reflexivity.
Qed.

(** The stack after a parse method that returned [Ok]. *)
Lemma parse_Ok_reg (s s1 : Source) :
  (forall body ms, getLatestUpdates body s = (Ok ms, s1) ->
     exists p, reg (l s1) = (reg (l s) ++ [p])%list)
  /\ (forall body m, getMangaDetails body s = (Ok m, s1) ->
     exists p, reg (l s1) = (reg (l s) ++ [p])%list)
  /\ (forall body cs, getChapters body s = (Ok cs, s1) ->
     exists p, reg (l s1) = (reg (l s) ++ [p])%list)
  /\ (forall body c, getChapter body s = (Ok c, s1) ->
     exists p, reg (l s1) = (reg (l s) ++ [p])%list)
  /\ (forall resp, login resp s = (Ok tt, s1) ->
     exists p, reg (l s1) = (reg (l s) ++ [p])%list)
  /\ (forall body ms, fetchManga body s = (Ok ms, s1) ->
     exists p, reg (l s1) = (reg (l s) ++ [p])%list).
Proof.
  split; [| split; [| split; [| split; [| split]]]].
  - intros body ms H. rewrite getLatestUpdates_eq in H.
    destruct (invoke _ _ s) as [[e|rets] i]; [discriminate|].
    injection H as _ <-. eexists. reflexivity.
  - intros body m H. rewrite getMangaDetails_eq in H.
    destruct (invoke _ _ s) as [[e|rets] i]; [discriminate|].
    destruct (unwrapManga _); [| discriminate].
    injection H as _ <-. eexists. reflexivity.
  - intros body cs H. rewrite getChapters_eq in H.
    destruct (invoke _ _ s) as [[e|rets] i]; [discriminate|].
    injection H as _ <-. eexists. reflexivity.
  - intros body c H. rewrite getChapter_eq in H.
    destruct (invoke _ _ s) as [[e|rets] i]; [discriminate|].
    destruct (unwrapChapter _); [| discriminate].
    injection H as _ <-. eexists. reflexivity.
  - intros resp H. unfold login, bind, get in H. rewrite callLuaFunc_eq in H.
    destruct (invoke _ _ s) as [[e|rets] i]; [discriminate|].
    destruct (asTable _) as [tbl|]; [| discriminate].
    destruct (ForEach tbl replaceKey _); try discriminate.
    injection H as <-. eexists. reflexivity.
  - intros body ms H. rewrite fetchManga_eq in H.
    destruct (invoke _ _ s) as [[e|rets] i]; [discriminate|].
    injection H as _ <-. eexists. reflexivity.
Qed.

Ltac grow Hreq Hparse :=
  let d := fresh "d" in let p := fresh "p" in
  let Hd := fresh in let E1 := fresh in let E2 := fresh in
  destruct (describeAndSend_Ok_reg _ _ _ _ _ Hreq) as (d & Hd & E1);
  destruct Hparse as (p & E2);
  exists d, p; split; [exact Hd|];
  rewrite E2, E1, <- app_assoc; reflexivity.

(** X10: a public operation that succeeds leaves two more values on the
    register stack of the interpreter than it found, the descriptor table
    and the result of the parse entry point, on top of what was there: the
    operations never pop what the script calls push.  The two identity
    calls of loading do pop: they leave the stack as they found it. *)
Theorem successful_operation_grows_stack (s s' : Source) :
  (forall page ms, GetLatestUpdates page s = (Ok ms, s') ->
     exists d p, asTable d <> None /\ reg (l s') = (reg (l s) ++ [d; p])%list)
  /\ (forall m out, GetMangaDetails m s = (Ok out, s') ->
     exists d p, asTable d <> None /\ reg (l s') = (reg (l s) ++ [d; p])%list)
  /\ (forall m cs, GetChapters m s = (Ok cs, s') ->
     exists d p, asTable d <> None /\ reg (l s') = (reg (l s) ++ [d; p])%list)
  /\ (forall c out, GetChapter c s = (Ok out, s') ->
     exists d p, asTable d <> None /\ reg (l s') = (reg (l s) ++ [d; p])%list)
  /\ (forall u p t r, Login u p t r s = (Ok tt, s') ->
     exists d p, asTable d <> None /\ reg (l s') = (reg (l s) ++ [d; p])%list)
  /\ (forall f ms, FetchManga f s = (Ok ms, s') ->
     exists d p, asTable d <> None /\ reg (l s') = (reg (l s) ++ [d; p])%list)
  /\ (getName s = (Ok tt, s') -> reg (l s') = reg (l s))
  /\ (getBaseURL s = (Ok tt, s') -> reg (l s') = reg (l s)).
Proof.
  destruct (requests_describe_and_send s) as (E1 & E2 & E3 & E4 & E5 & E6).
  split; [| split; [| split; [| split; [| split; [| split; [| split]]]]]].
  - intros page ms H. unfold GetLatestUpdates, bind in H. rewrite E1 in H.
    destruct (describeAndSend _ _ s) as [[res|e|p] s1] eqn:Hreq; try discriminate.
    destruct (getLatestUpdates (RespBody res) s1) as [[x|e|p] s2] eqn:Hp; try discriminate.
    injection H as _ <-.
    pose proof (proj1 (parse_Ok_reg s1 s2) _ _ Hp) as Hparse. grow Hreq Hparse.
  - intros m out H. unfold GetMangaDetails, bind in H. rewrite E2 in H.
    destruct (describeAndSend _ _ s) as [[res|e|p] s1] eqn:Hreq; try discriminate.
    destruct (getMangaDetails (RespBody res) s1) as [[x|e|p] s2] eqn:Hp; try discriminate.
    injection H as _ <-.
    pose proof (proj1 (proj2 (parse_Ok_reg s1 s2)) _ _ Hp) as Hparse. grow Hreq Hparse.
  - intros m cs H. unfold GetChapters, bind in H. rewrite E3 in H.
    destruct (describeAndSend _ _ s) as [[res|e|p] s1] eqn:Hreq; try discriminate.
    destruct (getChapters (RespBody res) s1) as [[x|e|p] s2] eqn:Hp; try discriminate.
    injection H as _ <-.
    pose proof (proj1 (proj2 (proj2 (parse_Ok_reg s1 s2))) _ _ Hp) as Hparse.
    grow Hreq Hparse.
  - intros c out H. unfold GetChapter, bind in H. rewrite E4 in H.
    destruct (describeAndSend _ _ s) as [[res|e|p] s1] eqn:Hreq; try discriminate.
    destruct (getChapter (RespBody res) s1) as [[x|e|p] s2] eqn:Hp; try discriminate.
    injection H as _ <-.
    pose proof (proj1 (proj2 (proj2 (proj2 (parse_Ok_reg s1 s2)))) _ _ Hp) as Hparse.
    grow Hreq Hparse.
  - intros u p t r H. unfold Login, bind in H. rewrite E5 in H.
    destruct (describeAndSend _ _ s) as [[res|e|p0] s1] eqn:Hreq; try discriminate.
    destruct (login res s1) as [[[]|e|p0] s2] eqn:Hp; try discriminate.
    injection H as <-.
    pose proof (proj1 (proj2 (proj2 (proj2 (proj2 (parse_Ok_reg s1 s2))))) _ Hp) as Hparse.
    grow Hreq Hparse.
  - intros f ms H. unfold FetchManga, bind in H. rewrite E6 in H.
    destruct (describeAndSend _ _ s) as [[res|e|p] s1] eqn:Hreq; try discriminate.
    destruct (fetchManga (RespBody res) s1) as [[x|e|p] s2] eqn:Hp; try discriminate.
    injection H as _ <-.
    pose proof (proj2 (proj2 (proj2 (proj2 (proj2 (parse_Ok_reg s1 s2))))) _ _ Hp) as Hparse.
    grow Hreq Hparse.
  - rewrite getName_eq. destruct (invoke "name" [] s) as [[e|rets] i]; [discriminate|].
    cbv zeta. destruct (LVCanConvToString _); [| discriminate].
    intros [= <-]. reflexivity.
  - rewrite getBaseURL_eq. destruct (invoke "base_url" [] s) as [[e|rets] i]; [discriminate|].
    cbv zeta. destruct (LVCanConvToString _); [| discriminate].
    intros [= <-]. reflexivity.
Qed.

(** ** The header map after a login *)

Lemma lookup_Add (key value : string) (h : Header.t) (c : string) :
  Header.Add key value h !! c
  = if decide (Header.canon key = c)
    then Some (Header.index h c ++ [value])%list else h !! c.
Proof.
  unfold Header.Add. rewrite lookup_insert.
  destruct (decide (Header.canon key = c)) as [->|]; reflexivity.
Qed.

Lemma lookup_addAll (key : string) (ws : list string) (h : Header.t) (c : string) :
  addAll key ws h !! c
  = if decide (Header.canon key = c)
    then match ws with
         | [] => h !! c
         | _ => Some (Header.index h c ++ ws)%list
         end
    else h !! c.
Proof.
  unfold addAll. revert h. induction ws as [|w ws IH]; intros h; simpl.
  - now destruct (decide _).
  - rewrite IH, lookup_Add, index_Add.
    destruct (decide (Header.canon key = c)); [| reflexivity].
    destruct ws; [reflexivity|]. now rewrite <- app_assoc.
Qed.

Lemma lookup_replaceIn (kv : LV * LV) (h : Header.t) (c : string) :
  replaceIn kv h !! c = settle c (h !! c) kv.
Proof.
  unfold replaceIn, settle.
  destruct (asTable (snd kv)) as [values|]; [| reflexivity].
  rewrite lookup_addAll, index_Del. unfold Header.Del. rewrite lookup_delete.
  destruct (decide (Header.canon (LValue_String (fst kv)) = c)) as [E|E].
  - rewrite E, String.eqb_refl. now destruct (rendered values).
  - apply String.eqb_neq in E. now rewrite E.
Qed.

Lemma lookup_replace_fold (es : list (LV * LV)) (h : Header.t) (c : string) :
  fold_left (fun m kv => replaceIn kv m) es h !! c = fold_left (settle c) es (h !! c).
Proof.
  revert h. induction es as [|kv es IH]; intros h; simpl; [reflexivity|].
  now rewrite IH, lookup_replaceIn.
Qed.


Lemma settle_fold_unmentioned (K : string) (es : list (LV * LV)) (x : option (list string)) :
  existsb (mentionsName K) es = false ->
  fold_left (settle (Header.canon K)) es x = x.
Proof.
  revert x. induction es as [|kv es IH]; intros x H; simpl in *; [reflexivity|].
  apply orb_false_iff in H as [H1 H2]. rewrite IH by assumption.
  unfold settle. unfold mentionsName in H1.
  destruct (asTable (snd kv)); [now rewrite H1 | reflexivity].
Qed.










(** X12: after a login, the header map holds under the canonical name of
    an entry with a list (the last one visited for that name) exactly the
    returned list when it is not empty, and no key at all when it is
    empty: a script clears a stale header by returning an empty list. *)
Theorem login_empty_list_removes_header
        (resp : SourceResponse) (s : Source) (h : Header.t)
        (rets : list LV) (i : Interp) (tbl : Table) :
  header s = Some h ->
  invoke "login" [luar_New (l s) (ValHeaderMap (RespHeader resp)); LString (RespBody resp)] s
  = (Returned rets, i) ->
  asTable (hd LNil rets) = Some tbl ->
  exists h' : Header.t,
    login resp s = (Ok tt, setHeader (Some h') (afterReturn rets i s))
    /\ forall before k v values after,
        liveEntries tbl = (before ++ (k, v) :: after)%list ->
        asTable v = Some values ->
        existsb (mentionsName (LValue_String k)) after = false ->
        h' !! Header.canon (LValue_String k)
        = match rendered values with [] => None | ws => Some ws end.
Proof.
  intros Hh Hcall Htbl. eexists. split.
  - exact (login_table resp s h rets i tbl Hh Hcall Htbl).
  - intros before k v values after Hsplit Hv Hafter.
    rewrite lookup_replace_fold, Hsplit, fold_left_app. simpl.
    rewrite settle_fold_unmentioned by assumption.
    unfold settle. simpl. now rewrite Hv, String.eqb_refl.
Qed.

(** ** Loading, continued *)

Lemma slotOne_bottom (rets : list LV) (i : Interp) (s : Source) (v : LV) (rest : list LV) :
  reg (l s) = v :: rest -> slotOne rets i s = v.
Proof. intros H. unfold slotOne, Get, GetTop, afterReturn. simpl. now rewrite H. Qed.

Lemma Load_success (path : string) (L0 : LState)
      (r1 r2 : list LV) (i1 i2 : Interp) :
  DoFile path (l prepared) = (Ok tt, L0) ->
  invoke "name" [] (setL L0 prepared) = (Returned r1, i1) ->
  LVCanConvToString (slotOne r1 i1 (setL L0 prepared)) = true ->
  invoke "base_url" [] (named r1 i1 (setL L0 prepared)) = (Returned r2, i2) ->
  LVCanConvToString (slotOne r2 i2 (named r1 i1 (setL L0 prepared))) = true ->
  LoadSourceFromPath path
  = (Ok (identified r1 i1 r2 i2 (setL L0 prepared)), identified r1 i1 r2 i2 (setL L0 prepared)).
Proof.
  intros HD H1 Hc1 H2 Hc2.
  rewrite (Load_after_DoFile path L0 HD).
  unfold closeOnErr at 1. rewrite getName_eq, H1. cbv zeta.
  fold (slotOne r1 i1 (setL L0 prepared)). rewrite Hc1.
  fold (named r1 i1 (setL L0 prepared)).
  unfold closeOnErr. rewrite getBaseURL_eq, H2. cbv zeta.
  fold (slotOne r2 i2 (named r1 i1 (setL L0 prepared))). rewrite Hc2.
  reflexivity.
Qed.

(** X13: when the script file runs and leaves nothing on the stack, and
    [name] and [base_url] each return a string or a number first,
    [LoadSourceFromPath] returns a source whose name and base URL are
    those first results as strings, with an open context, an empty stack,
    empty session headers and a client that has sent nothing. *)
Theorem Load_returns_identified_source (path : string) (L0 : LState)
        (r1 r2 : list LV) (i1 i2 : Interp) :
  DoFile path (l prepared) = (Ok tt, L0) ->
  reg L0 = [] ->
  invoke "name" [] (setL L0 prepared) = (Returned r1, i1) ->
  LVCanConvToString (hd LNil r1) = true ->
  invoke "base_url" [] (named r1 i1 (setL L0 prepared)) = (Returned r2, i2) ->
  LVCanConvToString (hd LNil r2) = true ->
  exists src : Source,
    LoadSourceFromPath path = (Ok src, src)
    /\ Name src = LValue_String (hd LNil r1)
    /\ URL src = LValue_String (hd LNil r2)
    /\ header src = Some Header.make
    /\ httpClient src = Some {| sent := [] |}
    /\ l src = {| reg := []; interp := i2; closed := false |}.
Proof.
  intros HD Hreg H1 Hc1 H2 Hc2.
  assert (E1 : slotOne r1 i1 (setL L0 prepared) = hd LNil r1)
    by (apply slotOne_empty_stack; exact Hreg).
  assert (E2 : slotOne r2 i2 (named r1 i1 (setL L0 prepared)) = hd LNil r2)
    by (apply slotOne_empty_stack; exact Hreg).
  exists (identified r1 i1 r2 i2 (setL L0 prepared)). split.
  - apply Load_success; try assumption; [now rewrite E1 | now rewrite E2].
  - pose proof (DoFile_closed _ _ _ _ HD) as Hopen. rewrite prepared_open in Hopen.
    unfold identified. rewrite E2. unfold named. rewrite E1. simpl.
    repeat (split; [reflexivity|]). now rewrite Hreg, Hopen.
Qed.

(** X14: both identity calls read the bottom slot of the stack.  When the
    script file itself returns values at top level, its first returned
    value stays in that slot, and a source that loads takes both its name
    and its base URL from that value, not from what [name] and [base_url]
    return. *)
Theorem Load_reads_the_bottom_slot (path : string) (L0 : LState) (v : LV) (rest : list LV)
        (src final : Source) :
  DoFile path (l prepared) = (Ok tt, L0) ->
  reg L0 = v :: rest ->
  LoadSourceFromPath path = (Ok src, final) ->
  Name src = LValue_String v /\ URL src = LValue_String v
  /\ LVCanConvToString v = true.
Proof.
  intros HD Hreg H.
  rewrite (Load_after_DoFile path L0 HD) in H.
  unfold closeOnErr in H. rewrite getName_eq in H.
  destruct (invoke "name" [] (setL L0 prepared)) as [[e1|r1] i1]; [discriminate|].
  cbv zeta in H. fold (slotOne r1 i1 (setL L0 prepared)) in H.
  rewrite (slotOne_bottom r1 i1 (setL L0 prepared) v rest Hreg) in H.
  destruct (LVCanConvToString v) eqn:Hc; [| discriminate].
  rewrite getBaseURL_eq in H.
  destruct (invoke "base_url" [] _) as [[e2|r2] i2]; [discriminate|].
  cbv zeta in H.
  match type of H with
  | context [Get 1 (l (afterReturn r2 i2 ?n))] =>
      fold (slotOne r2 i2 n) in H;
      rewrite (slotOne_bottom r2 i2 n v rest Hreg) in H
  end.
  rewrite Hc in H. injection H as <- _. auto.
Qed.

(** X15: the paths on which loading fails and leaves the context open.
    When the file fails to run, the error is returned and the context is
    not closed; when [name] or [base_url] returns, but what the stack slot
    holds is neither a string nor a number, loading panics instead of
    returning an error, again with the context not closed. *)
Theorem Load_failures_that_leave_context_open (path : string) :
  (forall (e : error) (L : LState),
      DoFile path (l prepared) = (Err e, L) ->
      LoadSourceFromPath path = (Err e, setL L prepared) /\ closed L = false)
  /\ (forall (L0 : LState) (r1 : list LV) (i1 : Interp),
         DoFile path (l prepared) = (Ok tt, L0) ->
         invoke "name" [] (setL L0 prepared) = (Returned r1, i1) ->
         LVCanConvToString (slotOne r1 i1 (setL L0 prepared)) = false ->
         exists (p : panic) (final : Source),
           LoadSourceFromPath path = (Panic p, final) /\ closed (l final) = false)
  /\ (forall (L0 : LState) (r1 r2 : list LV) (i1 i2 : Interp),
         DoFile path (l prepared) = (Ok tt, L0) ->
         invoke "name" [] (setL L0 prepared) = (Returned r1, i1) ->
         LVCanConvToString (slotOne r1 i1 (setL L0 prepared)) = true ->
         invoke "base_url" [] (named r1 i1 (setL L0 prepared)) = (Returned r2, i2) ->
         LVCanConvToString (slotOne r2 i2 (named r1 i1 (setL L0 prepared))) = false ->
         exists (p : panic) (final : Source),
           LoadSourceFromPath path = (Panic p, final) /\ closed (l final) = false).
Proof.
  split; [| split].
  - intros e L HD. split.
    + unfold LoadSourceFromPath, loadBody, bind, modify, onL.
      change (l (setL (registerBridge (l (setHeader (Some Header.make)
                (setClient (Some {| sent := [] |}) newSource))))
                (setHeader (Some Header.make) (setClient (Some {| sent := [] |}) newSource))))
        with (l prepared).
      now rewrite HD.
    + pose proof (DoFile_closed _ _ _ _ HD) as H. now rewrite prepared_open in H.
  - intros L0 r1 i1 HD H1 Hc1.
    pose proof (DoFile_closed _ _ _ _ HD) as Hopen. rewrite prepared_open in Hopen.
    rewrite (Load_after_DoFile path L0 HD).
    unfold closeOnErr. rewrite getName_eq, H1. cbv zeta.
    fold (slotOne r1 i1 (setL L0 prepared)). rewrite Hc1.
    do 2 eexists. split; [reflexivity | exact Hopen].
  - intros L0 r1 r2 i1 i2 HD H1 Hc1 H2 Hc2.
    pose proof (DoFile_closed _ _ _ _ HD) as Hopen. rewrite prepared_open in Hopen.
    rewrite (Load_after_DoFile path L0 HD).
    unfold closeOnErr at 1. rewrite getName_eq, H1. cbv zeta.
    fold (slotOne r1 i1 (setL L0 prepared)). rewrite Hc1.
    fold (named r1 i1 (setL L0 prepared)).
    unfold closeOnErr. rewrite getBaseURL_eq, H2. cbv zeta.
    fold (slotOne r2 i2 (named r1 i1 (setL L0 prepared))). rewrite Hc2.
    do 2 eexists. split; [reflexivity | exact Hopen].
Qed.

(** ** From a login to the next request *)

(** X16: the headers a login stored are sent with every later request.
    For an entry of the login table with a list (the last one visited for
    its name), a request built from any later state with the same session
    headers carries exactly that list under the name, unless the
    descriptor sets the name itself, the name is [User-Agent], or it is the
    [Content-Type] of a multipart form. *)
Theorem login_headers_are_replayed
        (resp : SourceResponse) (s : Source) (h : Header.t)
        (rets : list LV) (i : Interp) (tbl : Table)
        (s2 : Source) (req : Table) (r0 : Request) :
  header s = Some h ->
  invoke "login" [luar_New (l s) (ValHeaderMap (RespHeader resp)); LString (RespBody resp)] s
  = (Returned rets, i) ->
  asTable (hd LNil rets) = Some tbl ->
  header s2 = header (snd (login resp s)) ->
  asTable (Get (-1) (l s2)) = Some req ->
  http_NewRequest (methodText req) (urlText req) (bodyOf s2 req) = inr r0 ->
  exists r : Request,
    createRequest s2 = (Ok r, s2)
    /\ forall before k v values after,
        liveEntries tbl = (before ++ (k, v) :: after)%list ->
        asTable v = Some values ->
        existsb (mentionsName (LValue_String k)) after = false ->
        existsb (setsName (LValue_String k)) (descriptorHeaders req) = false ->
        encoderSets s2 req (LValue_String k) = false ->
        String.eqb (Header.canon (LValue_String k)) "User-Agent" = false ->
        Header.Values (LValue_String k) (ReqHeader r) = rendered values.
Proof.
  intros Hh Hcall Htbl Hsame Ht Hn.
  rewrite (login_table resp s h rets i tbl Hh Hcall Htbl) in Hsame. simpl in Hsame.
  eexists. split; [exact (createRequest_built s2 req r0 Ht Hn)|].
  intros before k v values after Hsplit Hv Hafter Hunset Henc Hua. simpl.
  rewrite outbound_unset_name by assumption. rewrite Hua.
  unfold Header.Values, session. rewrite Hsame.
  rewrite Hsplit, fold_left_app. simpl.
  rewrite index_replace_unmentioned by assumption.
  rewrite index_replaceIn. simpl. rewrite Hv.
  unfold mentionsName. simpl. now rewrite Hv, String.eqb_refl.
Qed.

(** ** Where a request goes *)

(** X17: a request that is built carries the URL that [url.Parse] made of
    the URL text of the descriptor, which need not be that text, and a
    method that is an HTTP token: the method text of the descriptor, or
    [GET] when that text is empty.  A method text that is no token fails
    the describe-and-send tail with the error [invalid method] that
    quotes it, whatever the URL; a URL text that [url.Parse] rejects fails
    it with the error of the parser; in both cases nothing is handed to
    the client. *)
Theorem request_follows_descriptor (s : Source) (req : Table) :
  asTable (Get (-1) (l s)) = Some req ->
  let method := if String.eqb (methodText req) "" then "GET" else methodText req in
  (forall (r : Request) (s' : Source),
      createRequest s = (Ok r, s') ->
      url_Parse (urlText req) = inr (ReqURL r)
      /\ Method r = method
      /\ validMethod (Method r) = true)
  /\ (validMethod method = false ->
      sendDescribed s = (Err (invalidMethod method), s))
  /\ (forall err : error,
         validMethod method = true ->
         url_Parse (urlText req) = inl err ->
         sendDescribed s = (Err err, s)).
Proof.
  intros Ht method. split; [| split].
  - intros r s' H. rewrite createRequest_eq, Ht in H.
    destruct (http_NewRequest _ _ _) as [err|r0] eqn:Hn; [discriminate|].
    destruct (http_NewRequest_built _ _ _ _ Hn) as (_ & Hu & Hm & Hv).
    injection H as <- _. simpl. auto.
  - intros Hv. rewrite sendDescribed_eq, createRequest_eq, Ht.
    now rewrite (http_NewRequest_invalid _ _ _ Hv).
  - intros err Hv Hu. rewrite sendDescribed_eq, createRequest_eq, Ht.
    unfold http_NewRequest. fold method. now rewrite Hv, Hu.
Qed.

End HostMore.

(** * Concrete runs of the further properties *)

Module MoreRuns.

Import Demo.

Ltac run := vm_compute; reflexivity.

(** X2, witness: the [login] entry point returns a string. *)
Lemma Login_failure_keeps_session_witness :
  let s := loaded catalog "demo" oldSession in
  let out := @Login (runtime catalog) "user" "secret" "" false s in
  fst out = Err (errorString "Table expected")
  /\ fst out <> Ok tt
  /\ keeps s (snd out).
Proof.
  intros s out.
  assert (E : fst out = Err (errorString "Table expected")) by run.
  assert (H : fst out <> Ok tt) by (rewrite E; discriminate).
  split; [exact E|]. split; [exact H|].
  exact (proj1 (@Login_failure_keeps_session (runtime catalog) "user" "secret" "" false s) H).
Defined.

(** X3, witness: [fetch_manga] returns nothing. *)
Lemma list_parse_of_non_table_is_empty_witness :
  let s := loaded catalog "demo" ∅ in
  @asTable (runtime catalog) (hd LNil []) = None
  /\ @invoke (runtime catalog) "fetch_manga" [LString page] s = (Returned [], catalog)
  /\ @fetchManga (runtime catalog) page s
     = (Ok [], @afterReturn (runtime catalog) [] catalog s).
Proof.
  intros s.
  assert (H1 : @asTable (runtime catalog) (hd LNil []) = None) by reflexivity.
  assert (H2 : @invoke (runtime catalog) "fetch_manga" [LString page] s
               = (Returned [], catalog)) by reflexivity.
  split; [exact H1|]. split; [exact H2|].
  exact (proj2 (proj2 (@list_parse_of_non_table_is_empty (runtime catalog) page s
                         [] catalog H1)) H2).
Defined.

(** X4, witness: the five entries, three of them manga. *)
Lemma list_results_are_stamped_witness :
  let s := loaded catalog "demo" ∅ in
  let out := @GetLatestUpdates (runtime catalog) 1 s in
  let ms := [stamped manga1; stamped manga2; stamped manga3] in
  out = (Ok ms, snd out)
  /\ Manga.Source manga3 = "x"
  /\ Forall (fun m => Manga.Source m = Name s) ms.
Proof.
  intros s out ms.
  assert (H : out = (Ok ms, snd out)) by run.
  split; [exact H|]. split; [reflexivity|].
  exact (proj1 (@list_results_are_stamped (runtime catalog) s) 1%Z ms (snd out) H).
Defined.

(** X5, witness: the parse phase returns a manga with a source of its own
    and ID 0; the caller's manga has ID 9. *)
Lemma GetMangaDetails_stamps_and_copies_ID_witness :
  let s := loaded catalog "demo" ∅ in
  let m := Manga.setID 9 manga1 in
  let out := @GetMangaDetails (runtime catalog) m s in
  let result := Manga.setID 9 (stamped manga3) in
  out = (Ok result, snd out)
  /\ Manga.Source result = Name s /\ Manga.ID result = Manga.ID m.
Proof.
  intros s m out result.
  assert (H : out = (Ok result, snd out)) by run.
  split; [exact H|].
  destruct (proj1 (@GetMangaDetails_stamps_and_copies_ID (runtime catalog) m s)
                  result (snd out) H) as (H1 & H2 & _).
  split; [exact H1 | exact H2].
Defined.

(** X6, witness: the request built from a plain descriptor. *)
Lemma request_has_one_User_Agent_witness :
  let s := withStack plainGet "demo" ∅ [getDescriptor] in
  @createRequest (runtime plainGet) s = (Ok listRequest, s)
  /\ exists v : string, Header.Values "User-Agent" (ReqHeader listRequest) = [v].
Proof.
  intros s.
  assert (H : @createRequest (runtime plainGet) s = (Ok listRequest, s)) by run.
  split; [exact H|].
  exact (@request_has_one_User_Agent (runtime plainGet) s s listRequest H).
Defined.

(** X7, witness: the multipart form. *)
Lemma request_body_encoding_witness :
  let s := withStack formPost "demo" ∅ [formDescriptor] in
  let req := @mkTable (runtime formPost) []
               [("method", LString "POST"); ("url", LString "http://example.org/login");
                ("header", tableOf [("Content-Type", LString "multipart/form-data")]);
                ("data", tableOf [("user", LString "alice")])] [] in
  let data := @mkTable (runtime formPost) [] [("user", LString "alice")] [] in
  let r0 := {| Method := "POST"; ReqURL := "http://example.org/login";
               ReqHeader := Header.make; ReqBody := bodyOf s req |} in
  @asTable (runtime formPost) (Get (-1) (l s)) = Some req
  /\ @http_NewRequest (runtime formPost) (methodText req) (urlText req) (bodyOf s req) = inr r0
  /\ @asTable (runtime formPost) (RawGetString req "data") = Some data
  /\ Header.Get "Content-Type" (merged s req) = "multipart/form-data"
  /\ fieldsOf data = [("user", "alice")]
  /\ exists r : Request,
      @createRequest (runtime formPost) s = (Ok r, s)
      /\ ReqBody r = MultipartBody (@randomBoundary (runtime formPost) (requestsSent s))
                                   (fieldsOf data)
      /\ Header.Values "Content-Type" (ReqHeader r)
         = ["multipart/form-data; boundary="
              ++ @randomBoundary (runtime formPost) (requestsSent s)].
Proof.
  intros s req data r0.
  assert (H1 : @asTable (runtime formPost) (Get (-1) (l s)) = Some req) by reflexivity.
  assert (H2 : @http_NewRequest (runtime formPost) (methodText req) (urlText req) (bodyOf s req)
               = inr r0) by run.
  assert (H3 : @asTable (runtime formPost) (RawGetString req "data") = Some data) by reflexivity.
  assert (H4 : Header.Get "Content-Type" (merged s req) = "multipart/form-data") by run.
  assert (H5 : fieldsOf data = [("user", "alice")]) by run.
  split; [exact H1|]. split; [exact H2|]. split; [exact H3|]. split; [exact H4|].
  split; [exact H5|].
  destruct (@request_body_encoding (runtime formPost) s req r0 H1 H2) as (r & Hrun & Hmp & _).
  exists r. split; [exact Hrun|]. exact (Hmp data H3 H4).
Defined.

(** X9, witness: the network refuses the connection. *)
Lemma transport_failure_ends_operation_witness :
  let s := loadedOffline catalog "demo" ∅ in
  let a := @afterReturn (offline catalog) [getDescriptor] catalog s in
  let c := {| sent := [] |} in
  @createRequest (offline catalog) a = (Ok listRequest, a)
  /\ httpClient s = Some c
  /\ @client_Do (offline catalog) (sent c) listRequest = inl refused
  /\ @invoke (offline catalog) "get_latest_updates_request" [LNumber 1%Z] s
     = (Returned [getDescriptor], catalog)
  /\ @GetLatestUpdates (offline catalog) 1 s = (Err refused, afterSend c listRequest a)
  /\ requestsSent (afterSend c listRequest a) = [listRequest].
Proof.
  intros s a c.
  assert (H1 : @createRequest (offline catalog) a = (Ok listRequest, a)) by run.
  assert (H2 : httpClient s = Some c) by reflexivity.
  assert (H3 : @client_Do (offline catalog) (sent c) listRequest = inl refused) by reflexivity.
  assert (H4 : @invoke (offline catalog) "get_latest_updates_request" [LNumber 1%Z] s
               = (Returned [getDescriptor], catalog)) by reflexivity.
  split; [exact H1|]. split; [exact H2|]. split; [exact H3|]. split; [exact H4|].
  destruct (@transport_failure_ends_operation (offline catalog) s [getDescriptor] catalog
              listRequest c refused H1 H2 (or_introl H3)) as ((Hs & _) & Hlatest & _).
  split; [exact (Hlatest 1%Z H4) | exact Hs].
Defined.

(** X10, witness: a chapter lookup on an empty stack. *)
Lemma successful_operation_grows_stack_witness :
  let s := loaded catalog "demo" ∅ in
  let out := @GetChapter (runtime catalog) chapter42 s in
  out = (Ok (Chapter.setID 42 chapter7), snd out)
  /\ reg (l s) = []
  /\ exists d p : LV,
      @asTable (runtime catalog) d <> None /\ reg (l (snd out)) = ([] ++ [d; p])%list.
Proof.
  intros s out.
  assert (H : out = (Ok (Chapter.setID 42 chapter7), snd out)) by run.
  split; [exact H|]. split; [reflexivity|].
  exact (proj1 (proj2 (proj2 (proj2
           (@successful_operation_grows_stack (runtime catalog) s (snd out)))))
           chapter42 (Chapter.setID 42 chapter7) H).
Defined.


(** Why X11 asks for distinct names: with the cookie header under two
    spellings, the order of the visit decides which list is left. *)
Lemma login_order_decides_duplicate_names :
  let sc := loginByBody twoSpellings in
  let s := loaded sc "demo" oldSession in
  let s1 := snd (@login (runtime sc) response s) in
  let s2 := snd (@login (runtime sc) again s1) in
  @distinctNames (runtime sc) (@liveEntries (runtime sc) (@mkTable (runtime sc) [] twoSpellings []))
  = false
  /\ Header.Values "Cookie" (session s1) = ["b"]
  /\ Header.Values "Cookie" (session s2) = ["a"].
Proof. intros sc s s1 s2. split; [| split]; run. Qed.

(** X12, witness: a login that returns an empty list for [cookie], on a
    session that holds a cookie. *)
Lemma login_empty_list_removes_header_witness :
  let sc := loginReturning clearCookie in
  let s := loaded sc "demo" oldSession in
  let args := [@luar_New (runtime sc) (l s) (ValHeaderMap (RespHeader response));
               LString (RespBody response)] in
  let tbl := @mkTable (runtime sc) [] clearCookie [] in
  let values := @mkTable (runtime sc) [] [] [] in
  header s = Some oldSession
  /\ @invoke (runtime sc) "login" args s = (Returned [tableOf clearCookie], sc)
  /\ @asTable (runtime sc) (hd LNil [tableOf clearCookie]) = Some tbl
  /\ oldSession !! "Cookie" = Some ["sid=0"]
  /\ exists h' : Header.t,
      @login (runtime sc) response s
      = (Ok tt, setHeader (Some h') (@afterReturn (runtime sc) [tableOf clearCookie] sc s))
      /\ h' !! Header.canon "cookie" = None.
Proof.
  intros sc s args tbl values.
  assert (H1 : header s = Some oldSession) by reflexivity.
  assert (H2 : @invoke (runtime sc) "login" args s = (Returned [tableOf clearCookie], sc))
    by reflexivity.
  assert (H3 : @asTable (runtime sc) (hd LNil [tableOf clearCookie]) = Some tbl)
    by reflexivity.
  assert (H4 : liveEntries tbl
               = ([] ++ (LString "cookie", listOf []) :: [])%list) by run.
  assert (H5 : oldSession !! "Cookie" = Some ["sid=0"]) by run.
  split; [exact H1|]. split; [exact H2|]. split; [exact H3|]. split; [exact H5|].
  destruct (@login_empty_list_removes_header (runtime sc) response s oldSession
              [tableOf clearCookie] sc tbl H1 H2 H3) as (h' & Hrun & Hrem).
  exists h'. split; [exact Hrun|].
  exact (Hrem [] (LString "cookie") (listOf []) values [] H4 eq_refl eq_refl).
Defined.

(** X13, witness: the connector with every entry point. *)
Lemma Load_returns_identified_source_witness :
  let L0 := snd (@DoFile (runtime catalog) "source.lua" (l (@prepared (runtime catalog)))) in
  let s0 := setL L0 (@prepared (runtime catalog)) in
  let r1 := [@LString Z "demo"] in
  let r2 := [@LString Z "http://example.org"] in
  @DoFile (runtime catalog) "source.lua" (l (@prepared (runtime catalog))) = (Ok tt, L0)
  /\ reg L0 = []
  /\ @invoke (runtime catalog) "name" [] s0 = (Returned r1, catalog)
  /\ @LVCanConvToString (runtime catalog) (hd LNil r1) = true
  /\ @invoke (runtime catalog) "base_url" [] (@named (runtime catalog) r1 catalog s0) = (Returned r2, catalog)
  /\ @LVCanConvToString (runtime catalog) (hd LNil r2) = true
  /\ exists src : Source,
      @LoadSourceFromPath (runtime catalog) "source.lua" = (Ok src, src)
      /\ Name src = "demo" /\ URL src = "http://example.org"
      /\ header src = Some Header.make.
Proof.
  intros L0 s0 r1 r2.
  assert (H1 : @DoFile (runtime catalog) "source.lua" (l (@prepared (runtime catalog)))
               = (Ok tt, L0)) by run.
  assert (H2 : reg L0 = []) by run.
  assert (H3 : @invoke (runtime catalog) "name" [] s0 = (Returned r1, catalog)) by run.
  assert (H4 : @LVCanConvToString (runtime catalog) (hd LNil r1) = true) by reflexivity.
  assert (H5 : @invoke (runtime catalog) "base_url" [] (@named (runtime catalog) r1 catalog s0)
               = (Returned r2, catalog)) by run.
  assert (H6 : @LVCanConvToString (runtime catalog) (hd LNil r2) = true) by reflexivity.
  split; [exact H1|]. split; [exact H2|]. split; [exact H3|]. split; [exact H4|].
  split; [exact H5|]. split; [exact H6|].
  destruct (@Load_returns_identified_source (runtime catalog) "source.lua" L0 r1 r2
              catalog catalog H1 H2 H3 H4 H5 H6) as (src & Hrun & Hn & Hu & Hh & _).
  exists src. split; [exact Hrun|]. split; [exact Hn|]. split; [exact Hu | exact Hh].
Defined.

(** X14, witness: a script file that ends with a [return]. *)
Lemma Load_reads_the_bottom_slot_witness :
  let out := @LoadSourceFromPath (runtime moduleFile) "source.lua" in
  let L0 := snd (@DoFile (runtime moduleFile) "source.lua" (l (@prepared (runtime moduleFile)))) in
  @DoFile (runtime moduleFile) "source.lua" (l (@prepared (runtime moduleFile))) = (Ok tt, L0)
  /\ reg L0 = [@LString Z "module"; LNumber 2%Z]
  /\ out = (Ok (snd out), snd out)
  /\ @invoke (runtime moduleFile) "name" [] (setL L0 (@prepared (runtime moduleFile)))
     = (Returned [LString "demo"], moduleFile)
  /\ Name (snd out) = "module" /\ URL (snd out) = "module".
Proof.
  intros out L0.
  assert (H1 : @DoFile (runtime moduleFile) "source.lua" (l (@prepared (runtime moduleFile)))
               = (Ok tt, L0)) by run.
  assert (H2 : reg L0 = [@LString Z "module"; LNumber 2%Z]) by run.
  assert (H3 : out = (Ok (snd out), snd out)) by run.
  assert (H4 : @invoke (runtime moduleFile) "name" [] (setL L0 (@prepared (runtime moduleFile)))
               = (Returned [LString "demo"], moduleFile)) by run.
  split; [exact H1|]. split; [exact H2|]. split; [exact H3|]. split; [exact H4|].
  destruct (@Load_reads_the_bottom_slot (runtime moduleFile) "source.lua" L0
              (LString "module") [LNumber 2%Z] (snd out) (snd out) H1 H2 H3)
    as (Hn & Hu & _).
  split; [exact Hn | exact Hu].
Defined.

(** X15, witness: a script file that fails while it runs, and a script
    whose [name] returns a table. *)
Lemma Load_failures_that_leave_context_open_witness :
  let e := ApiError "attempt to call a nil value" in
  let L := snd (@DoFile (runtime brokenFile) "source.lua" (l (@prepared (runtime brokenFile)))) in
  let L0 := snd (@DoFile (runtime tableName) "source.lua" (l (@prepared (runtime tableName)))) in
  let s0 := setL L0 (@prepared (runtime tableName)) in
  (@DoFile (runtime brokenFile) "source.lua" (l (@prepared (runtime brokenFile))) = (Err e, L)
   /\ @LoadSourceFromPath (runtime brokenFile) "source.lua"
      = (Err e, setL L (@prepared (runtime brokenFile)))
   /\ closed L = false)
  /\ (@DoFile (runtime tableName) "source.lua" (l (@prepared (runtime tableName))) = (Ok tt, L0)
      /\ @invoke (runtime tableName) "name" [] s0 = (Returned [tableOf []], tableName)
      /\ @LVCanConvToString (runtime tableName) (@slotOne (runtime tableName) [tableOf []] tableName s0) = false
      /\ exists (p : panic) (final : Source),
          @LoadSourceFromPath (runtime tableName) "source.lua" = (Panic p, final)
          /\ closed (l final) = false).
Proof.
  intros e L L0 s0. split.
  - assert (H : @DoFile (runtime brokenFile) "source.lua" (l (@prepared (runtime brokenFile)))
                = (Err e, L)) by run.
    split; [exact H|].
    exact (proj1 (@Load_failures_that_leave_context_open (runtime brokenFile) "source.lua")
                 e L H).
  - assert (H1 : @DoFile (runtime tableName) "source.lua" (l (@prepared (runtime tableName)))
                 = (Ok tt, L0)) by run.
    assert (H2 : @invoke (runtime tableName) "name" [] s0 = (Returned [tableOf []], tableName))
      by run.
    assert (H3 : @LVCanConvToString (runtime tableName) (@slotOne (runtime tableName) [tableOf []] tableName s0) = false) by run.
    split; [exact H1|]. split; [exact H2|]. split; [exact H3|].
    exact (proj1 (proj2 (@Load_failures_that_leave_context_open (runtime tableName)
                           "source.lua")) L0 [tableOf []] tableName H1 H2 H3).
Defined.

(** X16, witness: the fresh cookies, then a plain request. *)
Lemma login_headers_are_replayed_witness :
  let sc := loginReturning freshCookies in
  let s := loaded sc "demo" oldSession in
  let args := [@luar_New (runtime sc) (l s) (ValHeaderMap (RespHeader response));
               LString (RespBody response)] in
  let tbl := @mkTable (runtime sc) [] freshCookies [] in
  let values := @mkTable (runtime sc) [LString "sid=1"; LString "theme=dark"] [] [] in
  let s2 := withStack sc "demo" (loginEffect tbl oldSession) [getDescriptor] in
  let req := @mkTable (runtime sc) []
               [("method", LString "GET"); ("url", LString "http://example.org/list")] [] in
  let r0 := {| Method := "GET"; ReqURL := "http://example.org/list";
               ReqHeader := Header.make; ReqBody := EmptyBody |} in
  header s = Some oldSession
  /\ @invoke (runtime sc) "login" args s = (Returned [tableOf freshCookies], sc)
  /\ @asTable (runtime sc) (hd LNil [tableOf freshCookies]) = Some tbl
  /\ header s2 = header (snd (@login (runtime sc) response s))
  /\ @asTable (runtime sc) (Get (-1) (l s2)) = Some req
  /\ @http_NewRequest (runtime sc) (methodText req) (urlText req) (bodyOf s2 req) = inr r0
  /\ rendered values = ["sid=1"; "theme=dark"]
  /\ exists r : Request,
      @createRequest (runtime sc) s2 = (Ok r, s2)
      /\ Header.Values "cookie" (ReqHeader r) = rendered values.
Proof.
  intros sc s args tbl values s2 req r0.
  assert (H1 : header s = Some oldSession) by reflexivity.
  assert (H2 : @invoke (runtime sc) "login" args s = (Returned [tableOf freshCookies], sc))
    by reflexivity.
  assert (H3 : @asTable (runtime sc) (hd LNil [tableOf freshCookies]) = Some tbl)
    by reflexivity.
  assert (H4 : header s2 = header (snd (@login (runtime sc) response s))) by run.
  assert (H5 : @asTable (runtime sc) (Get (-1) (l s2)) = Some req) by reflexivity.
  assert (H6 : @http_NewRequest (runtime sc) (methodText req) (urlText req) (bodyOf s2 req)
               = inr r0) by run.
  assert (H7 : liveEntries tbl
               = ([] ++ (LString "cookie", listOf [LString "sid=1"; LString "theme=dark"])
                     :: [(LString "note", LString "signed in")])%list) by run.
  assert (H8 : existsb (mentionsName (LValue_String (@LString (@Number (runtime sc)) "cookie")))
                       [(@LString (@Number (runtime sc)) "note", LString "signed in")] = false)
    by run.
  assert (H9 : existsb (setsName (LValue_String (@LString (@Number (runtime sc)) "cookie")))
                       (descriptorHeaders req) = false) by run.
  assert (H10 : encoderSets s2 req (LValue_String (@LString (@Number (runtime sc)) "cookie"))
                = false) by run.
  assert (H11 : String.eqb (Header.canon (LValue_String (@LString (@Number (runtime sc)) "cookie")))
                           "User-Agent" = false) by run.
  assert (H12 : rendered values = ["sid=1"; "theme=dark"]) by run.
  split; [exact H1|]. split; [exact H2|]. split; [exact H3|]. split; [exact H4|].
  split; [exact H5|]. split; [exact H6|]. split; [exact H12|].
  destruct (@login_headers_are_replayed (runtime sc) response s oldSession
              [tableOf freshCookies] sc tbl s2 req r0 H1 H2 H3 H4 H5 H6) as (r & Hrun & Hrep).
  exists r. split; [exact Hrun|].
  exact (Hrep [] (LString "cookie") (listOf [LString "sid=1"; LString "theme=dark"])
              values [(LString "note", LString "signed in")] H7 eq_refl H8 H9 H10 H11).
Defined.

(** X17, witness: a descriptor whose URL is written with an upper-case
    scheme, and one whose method holds a space. *)
Lemma request_follows_descriptor_witness :
  let top := [("method", LString ""); ("url", LString "HTTP://example.org/list")] in
  let s := withStack plainGet "demo" ∅ [tableOf top] in
  let req := @mkTable (runtime plainGet) [] top [] in
  let top' := [("method", LString "GET LIST"); ("url", LString "http://example.org/list")] in
  let s' := withStack plainGet "demo" ∅ [tableOf top'] in
  let req' := @mkTable (runtime plainGet) [] top' [] in
  (@asTable (runtime plainGet) (Get (-1) (l s)) = Some req
   /\ @createRequest (runtime plainGet) s = (Ok listRequest, s)
   /\ ReqURL listRequest <> urlText req
   /\ @url_Parse (runtime plainGet) (urlText req) = inr (ReqURL listRequest)
   /\ Method listRequest = "GET"
   /\ validMethod (Method listRequest) = true)
  /\ (@asTable (runtime plainGet) (Get (-1) (l s')) = Some req'
      /\ validMethod "GET LIST" = false
      /\ @sendDescribed (runtime plainGet) s' = (Err (invalidMethod "GET LIST"), s')).
Proof.
  intros top s req top' s' req'.
  assert (H1 : @asTable (runtime plainGet) (Get (-1) (l s)) = Some req) by reflexivity.
  assert (H2 : @createRequest (runtime plainGet) s = (Ok listRequest, s)) by run.
  assert (H3 : @asTable (runtime plainGet) (Get (-1) (l s')) = Some req') by reflexivity.
  assert (H4 : validMethod "GET LIST" = false) by run.
  split.
  - split; [exact H1|]. split; [exact H2|]. split; [vm_compute; discriminate|].
    exact (proj1 (@request_follows_descriptor (runtime plainGet) s req H1) listRequest s H2).
  - split; [exact H3|]. split; [exact H4|].
    exact (proj1 (proj2 (@request_follows_descriptor (runtime plainGet) s' req' H3)) H4).
Defined.

End MoreRuns.
